(** * Membership verification and account approval (Samaj_app_api)

    Shallow embedding of the Firestore signup handler
    ([router.post('/signup')] in the Firestore auth routes), its
    identifier normalisers and registry lookups, the two admin-approve
    handlers of [routes/admin.js], the slot write of
    [authorizedMemberSchema.methods.markAsUsed] and the match
    classification of the Mongo signup handler of [routes/auth.js].

    Strings are Stdlib strings of 8-bit characters (code units
    U+0000..U+00FF).  JavaScript's [Number(raw)] followed by
    [String(Math.trunc(n))] is a floating-point conversion; it is kept
    abstract as the section variable [num_trunc] and every theorem holds
    for any such conversion. *)

From Stdlib Require Import String Ascii List ZArith Bool Lia.
Import ListNotations.
Open Scope string_scope.

(* ------------------------------------------------------------------ *)
(** ** Characters and strings *)

Definition is_digit (c : ascii) : bool :=
  let n := nat_of_ascii c in (48 <=? n)%nat && (n <=? 57)%nat.

(** JavaScript white space restricted to U+0000..U+00FF
    (TAB, LF, VT, FF, CR, SPACE, NBSP): what [trim] and [\s] remove. *)
Definition is_js_space (c : ascii) : bool :=
  let n := nat_of_ascii c in
  (n =? 9)%nat || (n =? 10)%nat || (n =? 11)%nat || (n =? 12)%nat
  || (n =? 13)%nat || (n =? 32)%nat || (n =? 160)%nat.

Fixpoint drop_space (l : list ascii) : list ascii :=
  match l with
  | [] => []
  | c :: r => if is_js_space c then drop_space r else l
  end.

(** [String.prototype.trim] *)
Definition trim (s : string) : string :=
  string_of_list_ascii
    (rev (drop_space (rev (drop_space (list_ascii_of_string s))))).

(** [s.replace(/\D/g, '')] *)
Fixpoint keep_digits (s : string) : string :=
  match s with
  | EmptyString => EmptyString
  | String c r => if is_digit c then String c (keep_digits r) else keep_digits r
  end.

Fixpoint all_digits (s : string) : bool :=
  match s with
  | EmptyString => true
  | String c r => is_digit c && all_digits r
  end.

Definition has_char (p : ascii -> bool) (s : string) : bool :=
  existsb p (list_ascii_of_string s).

(** [/[eE]|\./.test(raw)] *)
Definition has_e_or_dot (s : string) : bool :=
  has_char (fun c => (c =? "e")%char || (c =? "E")%char || (c =? ".")%char) s.

(** [/e\+?/i.test(raw)] *)
Definition has_e (s : string) : bool :=
  has_char (fun c => (c =? "e")%char || (c =? "E")%char) s.

Fixpoint all_zeros (s : string) : bool :=
  match s with
  | EmptyString => true
  | String c r => (c =? "0")%char && all_zeros r
  end.

(** [/^[0-9]+\.[0]+$/.test(raw)] *)
Fixpoint int_dot_zeros (s : string) : bool :=
  match s with
  | String c r =>
      if is_digit c then
        match r with
        | String "." z => (0 <? String.length z)%nat && all_zeros z
        | _ => int_dot_zeros r
        end
      else false
  | EmptyString => false
  end.

(** [s.slice(-10)] on a string longer than 10 *)
Definition last10 (s : string) : string :=
  substring (String.length s - 10) 10 s.

(** Decimal notation of an integer: [String(n)] for a safe integer. *)
Fixpoint digits_rev (fuel : nat) (n : N) : list ascii :=
  match fuel with
  | O => []
  | S f =>
      ascii_of_N (48 + N.modulo n 10)
        :: (if (N.div n 10 =? 0)%N then [] else digits_rev f (N.div n 10))
  end.

Definition string_of_N (n : N) : string :=
  string_of_list_ascii (rev (digits_rev (S (N.size_nat n)) n)).

Definition string_of_Z (z : Z) : string :=
  if (z <? 0)%Z then "-" ++ string_of_N (Z.to_N (- z))
  else string_of_N (Z.to_N z).

Definition Z_of_digits (s : string) : Z :=
  fold_left (fun acc c => acc * 10 + (Z.of_nat (nat_of_ascii c) - 48))%Z
    (list_ascii_of_string s) 0%Z.

(* ------------------------------------------------------------------ *)
(** ** JavaScript values stored in documents and request bodies *)

Inductive jsval :=
| JUndefined
| JNull
| JBool (b : bool)
| JNum (z : Z)        (** an integral JS number *)
| JStr (s : string).

Definition jsval_eq_dec (a b : jsval) : {a = b} + {a <> b}.
Proof. decide equality; first [apply string_dec | apply Z.eq_dec | apply bool_dec]. Defined.

Definition jsval_eqb (a b : jsval) : bool :=
  if jsval_eq_dec a b then true else false.

Definition js_truthy (v : jsval) : bool :=
  match v with
  | JUndefined | JNull => false
  | JBool b => b
  | JNum z => negb (z =? 0)%Z
  | JStr s => negb (String.eqb s "")
  end.

(** [String(v)] *)
Definition js_String (v : jsval) : string :=
  match v with
  | JUndefined => "undefined"
  | JNull => "null"
  | JBool true => "true"
  | JBool false => "false"
  | JNum z => string_of_Z z
  | JStr s => s
  end.

(** [String(v ?? '')] *)
Definition str_nullish (v : jsval) : string :=
  match v with
  | JUndefined | JNull => ""
  | _ => js_String v
  end.

(** [a || b] *)
Definition js_or (a b : jsval) : jsval := if js_truthy a then a else b.

(** [String.prototype.toLowerCase] on U+0000..U+00FF. *)
Definition js_lower_char (c : ascii) : ascii :=
  let n := nat_of_ascii c in
  if ((65 <=? n)%nat && (n <=? 90)%nat)
     || ((192 <=? n)%nat && (n <=? 222)%nat && negb (n =? 215)%nat)
  then ascii_of_nat (n + 32) else c.

Fixpoint js_lower (s : string) : string :=
  match s with
  | EmptyString => EmptyString
  | String c r => String (js_lower_char c) (js_lower r)
  end.

(* ------------------------------------------------------------------ *)
(** ** Firestore documents

    A document is its id and its data, a list of fields; a missing field
    reads as [undefined].  The handlers read [{ id: doc.id, ...doc.data() }];
    stored data carries no field named [id], so [.id] is the document id.
    A collection is the list of its documents in query order, so
    [findOneDocument] (a query with [limit 1]) returns the first match. *)

Definition fields := list (string * jsval).

Record doc := mkDoc { d_id : string; d_data : fields }.

Definition field (d : doc) (k : string) : jsval :=
  match find (fun p => String.eqb (fst p) k) (d_data d) with
  | Some (_, v) => v
  | None => JUndefined
  end.

Fixpoint set_field (k : string) (v : jsval) (fs : fields) : fields :=
  match fs with
  | [] => [(k, v)]
  | (k', v') :: r =>
      if String.eqb k' k then (k, v) :: r else (k', v') :: set_field k v r
  end.

(** Firestore [update]: the patch's fields overwrite, the others stay. *)
Definition merge (fs patch : fields) : fields :=
  fold_left (fun acc p => set_field (fst p) (snd p) acc) patch fs.

Definition find_by_id (id : string) (c : list doc) : option doc :=
  find (fun d => String.eqb (d_id d) id) c.

(** [where(field, '==', value)]: same type and same value. *)
Definition find_by_field (k : string) (v : jsval) (c : list doc) : option doc :=
  find (fun d => jsval_eqb (field d k) v) c.

Definition replace_doc (d : doc) (c : list doc) : list doc :=
  map (fun d' => if String.eqb (d_id d') (d_id d) then d else d') c.

(** [doc(id).set(data)]: overwrite the document or add it at the end. *)
Definition upsert_doc (d : doc) (c : list doc) : list doc :=
  match find_by_id (d_id d) c with
  | Some _ => replace_doc d c
  | None => (c ++ [d])%list
  end.

Record world := mkWorld {
  w_users : list doc;      (** collection [users] *)
  w_slots : list doc;      (** collection [authorizedMembers] *)
  w_ops : nat              (** storage operations performed so far *)
}.

Inductive coll := USERS | AUTHORIZED_MEMBERS.

Definition coll_docs (c : coll) (w : world) : list doc :=
  match c with USERS => w_users w | AUTHORIZED_MEMBERS => w_slots w end.

Definition with_coll (c : coll) (ds : list doc) (w : world) : world :=
  match c with
  | USERS => mkWorld ds (w_slots w) (w_ops w)
  | AUTHORIZED_MEMBERS => mkWorld (w_users w) ds (w_ops w)
  end.

Definition tick (w : world) : world :=
  mkWorld (w_users w) (w_slots w) (S (w_ops w)).

(* ------------------------------------------------------------------ *)
(** ** Handler results and the state/exception monad *)

(** What the route sends: an error status with its message, or the
    201 response carrying the saved user document. *)
Inductive response :=
| RespError (status : Z) (message : string)
| RespCreated (user : doc)      (** 201 with the saved user *)
| RespOk (data : doc).          (** 200 with the document *)

(** [ROk] continues, [RThrow] is a JavaScript exception, [RRet] is a
    [return res.status(..).json(..)] that leaves the handler. *)
Inductive res (A : Type) :=
| ROk (a : A)
| RThrow (msg : string)
| RRet (r : response).
Arguments ROk {A} a.
Arguments RThrow {A} msg.
Arguments RRet {A} r.

Definition St (S A : Type) := S -> res A * S.

Definition ret {S A} (a : A) : St S A := fun s => (ROk a, s).

Definition bind {S A B} (m : St S A) (f : A -> St S B) : St S B :=
  fun s => match m s with
           | (ROk a, s') => f a s'
           | (RThrow e, s') => (RThrow e, s')
           | (RRet r, s') => (RRet r, s')
           end.

Notation "x <- m ;; k" := (bind m (fun x => k))
  (at level 61, m at next level, right associativity).
Notation "m ;;; k" := (bind m (fun _ => k))
  (at level 61, right associativity).

Definition throw {S A} (e : string) : St S A := fun s => (RThrow e, s).
Definition early {S A} (r : response) : St S A := fun s => (RRet r, s).
Definition get_st {S} : St S S := fun s => (ROk s, s).
Definition put_st {S} (s : S) : St S unit := fun _ => (ROk tt, s).

(** [try { m } catch (e) { h }] *)
Definition try_catch {S A} (m : St S A) (h : string -> St S A) : St S A :=
  fun s => match m s with
           | (RThrow e, s') => h e s'
           | o => o
           end.

(* ------------------------------------------------------------------ *)
(** ** Firebase Auth, the external credential store

    The signup handler only needs four calls of it; their answers do not
    depend on the Firestore collections. *)

Inductive fb_error := FbEmailAlreadyExists | FbOtherError.

Record auth_service := mkAuthService {
  fb_get_user : string -> bool;                    (** [auth.getUser(uid)] resolves *)
  fb_get_user_by_email : string -> option string;  (** uid, or a not-found rejection *)
  fb_create_user : string -> string + fb_error;    (** [auth.createUser({email, ..})] *)
  fb_update_user : string -> option fb_error       (** [auth.updateUser(uid, ..)] *)
}.

(** The signup request body. *)
Record request := mkRequest {
  rq_name : jsval; rq_email : jsval; rq_password : jsval;
  rq_phone : jsval; rq_memberId : jsval
}.

(** Local variables of the verification block of the signup handler. *)
Record vlocals := mkLocals {
  isVerified : bool;
  requiresAdminApproval : bool;
  accountStatus : string;
  verificationStatus : string;
  authorizedMember : option doc
}.

Definition locals0 : vlocals := mkLocals false false "approved" "verified" None.

Definition with_pending (l : vlocals) : vlocals :=
  mkLocals (isVerified l) true "pending" "pending_admin" (authorizedMember l).

Definition with_verified (l : vlocals) : vlocals :=
  mkLocals true (requiresAdminApproval l) (accountStatus l)
    (verificationStatus l) (authorizedMember l).

Definition with_member (m : option doc) (l : vlocals) : vlocals :=
  mkLocals (isVerified l) (requiresAdminApproval l) (accountStatus l)
    (verificationStatus l) m.

(** What the first half of the handler hands to the second. *)
Record signup_ctx := mkCtx {
  c_email : string;
  c_memberId : string;
  c_reapply : option doc;
  c_locals : vlocals;
  c_uid : string
}.

Section Handlers.

(** [Number.isFinite(Number(raw)) ? String(Math.trunc(Number(raw))) : none] *)
Variable num_trunc : string -> option string.
(** Storage fault oracle: the storage operation of index [k] rejects iff
    [fails k]. *)
Variable fails : nat -> bool.
(** The clock, [new Date()] and [Timestamp.now()]. *)
Variable now : Z.
Variable fb : auth_service.

(* ---------------- IdentifierNormalizer ---------------- *)

(** [normalizeMemberId] *)
Definition normalizeMemberId (value : jsval) : string :=
  let raw := trim (str_nullish value) in
  if String.eqb raw "" then ""
  else if int_dot_zeros raw || has_e raw then
    match num_trunc raw with Some t => t | None => raw end
  else raw.

(** [normalizePhoneLenient] *)
Definition normalizePhoneLenient (value : jsval) : string :=
  let raw := trim (str_nullish value) in
  let by_digits :=
    let digits := keep_digits raw in
    if String.eqb digits "" then ""
    else if (10 <? String.length digits)%nat then last10 digits else digits in
  if String.eqb raw "" then ""
  else if has_e_or_dot raw then
    match num_trunc raw with
    | Some asInt => if (10 <? String.length asInt)%nat then last10 asInt else asInt
    | None => by_digits
    end
  else by_digits.

(** [normalizePhoneProvided]; [None] is [null]. *)
Definition normalizePhoneProvided (value : jsval) : option string :=
  let raw := trim (str_nullish value) in
  if String.eqb raw "" then Some "" else
  let digits0 :=
    if has_e_or_dot raw then
      match num_trunc raw with Some t => t | None => raw end
    else raw in
  let digits := keep_digits digits0 in
  if String.eqb digits "" then Some "" else
  let n := String.length digits in
  if (n =? 11)%nat && String.prefix "0" digits then Some (substring 1 10 digits)
  else if (n =? 12)%nat && String.prefix "91" digits then Some (substring 2 10 digits)
  else if (n =? 10)%nat then Some digits
  else None.

(** [maybeNumber] *)
Definition maybeNumber (value : string) : option Z :=
  let str := trim value in
  if String.eqb str "" then None
  else if negb (all_digits str) then None
  else Some (Z_of_digits str).

(* ---------------- Storage operations ---------------- *)

(** One storage round trip: it may reject (fault oracle). *)
Definition op {A} (f : world -> A * world) : St world A :=
  fun w => if fails (w_ops w) then (RThrow "storage error", tick w)
           else let (a, w') := f (tick w) in (ROk a, w').

(** [getDocumentById] *)
Definition getDocumentById (c : coll) (id : string) : St world (option doc) :=
  op (fun w => (find_by_id id (coll_docs c w), w)).

(** [db.collection(c).doc(v)] needs a string path. *)
Definition getDocumentById_js (c : coll) (v : jsval) : St world (option doc) :=
  match v with
  | JStr s => getDocumentById c s
  | _ => throw "documentPath must be a non-empty string"
  end.

(** [findOneDocument(c, [{field: k, operator: '==', value: v}])] *)
Definition findOneDocument (c : coll) (k : string) (v : jsval) : St world (option doc) :=
  op (fun w => (find_by_field k v (coll_docs c w), w)).

(** [doc(id).update(data)] rejects when the document is missing. *)
Definition update_raw (c : coll) (id : string) (patch : fields) : St world unit :=
  fun w =>
    if fails (w_ops w) then (RThrow "storage error", tick w) else
    let w1 := tick w in
    match find_by_id id (coll_docs c w1) with
    | None => (RThrow "NOT_FOUND", w1)
    | Some d =>
        (ROk tt, with_coll c (replace_doc (mkDoc id (merge (d_data d) patch))
                                          (coll_docs c w1)) w1)
    end.

(** [updateDocument]: update, then read the document back. *)
Definition updateDocument (c : coll) (id : string) (data : fields) : St world (option doc) :=
  update_raw c id (data ++ [("updatedAt", JNum now)])%list ;;;
  getDocumentById c id.

(** [createDocument(c, data, docId)] with a document id. *)
Definition createDocument (c : coll) (data : fields) (id : string) : St world doc :=
  op (fun w =>
        let d := mkDoc id (data ++ [("createdAt", JNum now); ("updatedAt", JNum now)])%list in
        (d, with_coll c (upsert_doc d (coll_docs c w)) w)).

(* ---------------- AuthorizedRegistryLookup ---------------- *)

Definition first_hit (m : St world (option doc)) (k : St world (option doc))
  : St world (option doc) :=
  r <- m ;; match r with Some d => ret (Some d) | None => k end.

(** [getAuthorizedByMemberId] *)
Definition getAuthorizedByMemberId (memberIdValue : string) : St world (option doc) :=
  if String.eqb memberIdValue "" then ret None else
  first_hit (getDocumentById AUTHORIZED_MEMBERS memberIdValue)
 (first_hit (findOneDocument AUTHORIZED_MEMBERS "memberId" (JStr memberIdValue))
 (first_hit (match maybeNumber memberIdValue with
             | Some n => findOneDocument AUTHORIZED_MEMBERS "memberId" (JNum n)
             | None => ret None
             end)
 (first_hit (findOneDocument AUTHORIZED_MEMBERS "memberIdNormalized" (JStr memberIdValue))
            (ret None)))).

(** [getAuthorizedByPhone] *)
Definition getAuthorizedByPhone (phoneValue : string) : St world (option doc) :=
  if String.eqb phoneValue "" then ret None else
  first_hit (findOneDocument AUTHORIZED_MEMBERS "phoneNumber" (JStr phoneValue))
 (first_hit (match maybeNumber phoneValue with
             | Some n => findOneDocument AUTHORIZED_MEMBERS "phoneNumber" (JNum n)
             | None => ret None
             end)
 (first_hit (findOneDocument AUTHORIZED_MEMBERS "phoneNormalized" (JStr phoneValue))
            (ret None))).

(* ---------------- Verification block of the signup handler ---------------- *)

Definition VS := (vlocals * world)%type.

Definition lift {A} (m : St world A) : St VS A :=
  fun s => let '(l, w) := s in let '(r, w') := m w in (r, (l, w')).

Definition modify_l (f : vlocals -> vlocals) : St VS unit :=
  fun s => let '(l, w) := s in (ROk tt, (f l, w)).

Definition set_pending : St VS unit := modify_l with_pending.
Definition set_verified : St VS unit := modify_l with_verified.
Definition set_member (m : option doc) : St VS unit := modify_l (with_member m).

(** The slot's member ID and phone as the handler compares them. *)
Definition slot_memberId (s : doc) : string :=
  normalizeMemberId (js_or (field s "memberId") (JStr (d_id s))).
Definition slot_phone (s : doc) : string :=
  normalizePhoneLenient (field s "phoneNumber").

Definition memberIdMatches (nm : string) (s : doc) : bool :=
  negb (String.eqb (slot_memberId s) "") && String.eqb nm (slot_memberId s).
Definition phoneMatches (np : string) (s : doc) : bool :=
  negb (String.eqb (slot_phone s) "") && String.eqb np (slot_phone s).

Definition stale_reset : fields :=
  [("isUsed", JBool false); ("usedBy", JNull); ("usedAt", JNull)].

Definition msg_invalid_phone : string :=
  "Invalid phone number. Please enter a 10-digit phone number (or +91 / leading 0).".
Definition msg_already_registered : string :=
  "This Member ID / phone number is already registered. Please login or contact admin.".

(** Match evaluation once a slot is in hand (auto-approve only when both
    member ID and phone match). *)
Definition classify (nm np : string) (s : doc) : St VS unit :=
  if memberIdMatches nm s && phoneMatches np s then set_verified else set_pending.

(** [if (authorizedMember?.isUsed === true) { .. } else if (authorizedMember) { .. } else { .. }] *)
Definition evaluate (nm np : string) (am : option doc) : St VS unit :=
  match am with
  | None => set_pending
  | Some s =>
      if jsval_eqb (field s "isUsed") (JBool true) then
        if memberIdMatches nm s || phoneMatches np s then
          usedByUser <- (if js_truthy (field s "usedBy")
                         then lift (getDocumentById_js USERS (field s "usedBy"))
                         else ret None) ;;
          match usedByUser with
          | Some _ => early (RespError 400 msg_already_registered)
          | None =>
              try_catch
                (lift (updateDocument AUTHORIZED_MEMBERS (d_id s) stale_reset) ;;;
                 set_member (Some (mkDoc (d_id s) (merge (d_data s) stale_reset))))
                (fun _ => ret tt) ;;;
              classify nm np s
          end
        else set_pending
      else classify nm np s
  end.

(** The body of the [try { .. }] around the verification. *)
Definition verification_body (nm : string) (phone : jsval) : St VS unit :=
  match normalizePhoneProvided phone with
  | None => early (RespError 400 msg_invalid_phone)
  | Some np =>
      if String.eqb np "" then set_pending else
      am1 <- lift (getAuthorizedByMemberId nm) ;;
      set_member am1 ;;;
      am <- (match am1 with
             | Some _ => ret am1
             | None => am2 <- lift (getAuthorizedByPhone np) ;;
                       set_member am2 ;;; ret am2
             end) ;;
      evaluate nm np am
  end.

(** [try { .. } catch (verificationError) { ..pending.. }] *)
Definition verification (nm : string) (phone : jsval) : St VS unit :=
  try_catch (verification_body nm phone) (fun _ => set_pending).

(** Run the verification block from the handler's initial locals. *)
Definition run_verification (nm : string) (phone : jsval) : St world vlocals :=
  fun w =>
    match verification nm phone (locals0, w) with
    | (ROk _, (l, w')) => (ROk l, w')
    | (RThrow e, (_, w')) => (RThrow e, w')
    | (RRet r, (_, w')) => (RRet r, w')
    end.

(* ---------------- The rest of the signup handler ---------------- *)

Definition isReapplicable (u : doc) : bool :=
  jsval_eqb (field u "accountStatus") (JStr "pending")
  || jsval_eqb (field u "accountStatus") (JStr "rejected").

(** The re-apply detection from [existingByMemberId] and [existingByEmail]. *)
Definition reapply_detection (email nm : string)
    (existingByMemberId existingByEmail : option doc) : St world (option doc) :=
  reapply1 <-
    (match existingByMemberId with
     | Some u =>
         if jsval_eqb (field u "email") (JStr email) && isReapplicable u
         then ret (Some u)
         else early (RespError 400 "Member ID already exists. Please use a different Member ID.")
     | None => ret None
     end) ;;
  match existingByEmail with
  | None => ret reapply1
  | Some e =>
      match reapply1 with
      | None =>
          if jsval_eqb (field e "memberId") (JStr nm) && isReapplicable e
          then ret (Some e)
          else early (RespError 400 "User already exists with this email")
      | Some r =>
          if negb (String.eqb (d_id e) (d_id r))
          then early (RespError 400 "Email / Member ID conflict. Please contact admin.")
          else ret (Some r)
      end
  end.

(** Create or update the Firebase Auth user; yields [firebaseUid]. *)
Definition firebase_phase (email : string) (reapply existingByEmail : option doc)
  : St world string :=
  let uid0 :=
    match reapply with
    | Some u =>
        match field u "firebaseUid" with
        | JStr s => if String.eqb s "" then None
                    else if fb_get_user fb s then Some s else None
        | _ => None
        end
    | None => None
    end in
  uid1 <-
    (match uid0 with
     | Some s => ret (Some s)
     | None =>
         match fb_get_user_by_email fb email with
         | Some uid =>
             match existingByEmail, reapply with
             | None, None =>
                 early (RespError 400 "An account already exists with this email. Please login or contact admin.")
             | _, _ => ret (Some uid)
             end
         | None => ret None
         end
     end) ;;
  let fail e :=
    match e with
    | FbEmailAlreadyExists => early (RespError 400 "User already exists with this email")
    | FbOtherError => early (RespError 500 "Error creating account")
    end in
  match uid1 with
  | None => match fb_create_user fb email with inl uid => ret uid | inr e => fail e end
  | Some uid => match fb_update_user fb uid with None => ret uid | Some e => fail e end
  end.

(** [phone] of [userData]. *)
Definition userData_phone (phone : jsval) : jsval :=
  match phone with
  | JUndefined | JNull => JStr ""
  | v => if String.eqb (trim (js_String v)) "" then JStr ""
         else match normalizePhoneProvided v with Some p => JStr p | None => JNull end
  end.

(** [userData] ([notificationPreferences], an object, is left out). *)
Definition userData (rq : request) (c : signup_ctx) : fields :=
  [("name", rq_name rq); ("email", JStr (c_email c)); ("role", JStr "user");
   ("phone", userData_phone (rq_phone rq)); ("memberId", JStr (c_memberId c));
   ("accountStatus", JStr (accountStatus (c_locals c)));
   ("verificationStatus", JStr (verificationStatus (c_locals c)));
   ("requiresAdminApproval", JBool (requiresAdminApproval (c_locals c)));
   ("firebaseUid", JStr (c_uid c))].

Definition reapply_patch : fields :=
  [("rejectionReason", JStr ""); ("rejectedAt", JNull); ("rejectedBy", JNull);
   ("approvedAt", JNull); ("approvedBy", JNull); ("reappliedAt", JNum now)].

(** Validation and re-apply detection; yields the normalised email and
    member ID, [reapplyUser] and [existingByEmail]. *)
Definition signup_prefix (rq : request)
  : St world (string * string * option doc * option doc) :=
  let email := js_lower (trim (str_nullish (rq_email rq))) in
  let nm := normalizeMemberId (rq_memberId rq) in
  if negb (js_truthy (rq_name rq)) || String.eqb email ""
     || negb (js_truthy (rq_password rq)) || String.eqb nm ""
  then early (RespError 400 "Please provide name, email, password, and Member ID")
  else
  existingByMemberId <- findOneDocument USERS "memberId" (JStr nm) ;;
  existingByEmail <- findOneDocument USERS "email" (JStr email) ;;
  reapply <- reapply_detection email nm existingByMemberId existingByEmail ;;
  ret (email, nm, reapply, existingByEmail).

(** First half: up to and including the Firebase Auth user. *)
Definition signup_check (rq : request) : St world signup_ctx :=
  pre <- signup_prefix rq ;;
  let '(email, nm, reapply, existingByEmail) := pre in
  l <- run_verification nm (rq_phone rq) ;;
  uid <- firebase_phase email reapply existingByEmail ;;
  ret (mkCtx email nm reapply l uid).

(** Second half: write the user, then claim the slot when verified.
    (The family-tree entry in between has its own [try/catch] and only
    touches the [familyTree] collection.) *)
Definition signup_commit (rq : request) (c : signup_ctx) : St world response :=
  savedUser <-
    (match c_reapply c with
     | Some u =>
         r <- updateDocument USERS (d_id u) (userData rq c ++ reapply_patch)%list ;;
         match r with
         | Some d => ret d
         | None => throw "Cannot read properties of null (reading 'id')"
         end
     | None => createDocument USERS (userData rq c) (c_uid c)
     end) ;;
  match isVerified (c_locals c), authorizedMember (c_locals c) with
  | true, Some s =>
      updateDocument AUTHORIZED_MEMBERS (d_id s)
        [("isUsed", JBool true); ("usedBy", JStr (d_id savedUser)); ("usedAt", JNum now)] ;;;
      ret (RespCreated savedUser)
  | _, _ => ret (RespCreated savedUser)
  end.

(** [router.post('/signup')], the outer [try/catch] included. *)
Definition signup (rq : request) : St world response :=
  try_catch (c <- signup_check rq ;; signup_commit rq c)
            (fun _ => ret (RespError 500 "Error creating account")).

Definition run_signup (rq : request) (w : world) : response * world :=
  match signup rq w with
  | (ROk r, w') | (RRet r, w') => (r, w')
  | (RThrow _, w') => (RespError 500 "Error creating account", w')
  end.

(* ---------------- Two signups racing for one slot ---------------- *)

(** Two signup requests served concurrently, each handler suspended at
    its awaits: both run their first half (through verification and
    Firebase Auth) before either writes its user and claims the slot. *)
Definition race (rq1 rq2 : request) : St world (response * response) :=
  c1 <- signup_check rq1 ;;
  c2 <- signup_check rq2 ;;
  r1 <- signup_commit rq1 c1 ;;
  r2 <- signup_commit rq2 c2 ;;
  ret (r1, r2).

(* ---------------- Admin approval (routes/admin.js) ---------------- *)



End Handlers.

(* ------------------------------------------------------------------ *)
(** ** Further routes of the Firestore back end

    The legacy-password login and [GET /me] of the Firestore auth routes,
    the user-management routes of [routes/admin.js] and the information
    search.  They reuse the storage operations above. *)

(** Answers that are neither an error nor a single document. *)
Inductive reply :=
| Reply (r : response)
| ReplyDeleted (deletedFamilyTreeEntries : bool)  (** 200 of [DELETE /users/:id] *)
| ReplyMigrated.                                   (** 200 of the legacy login *)

(** [const { k, ...rest } = d]: [rest]. *)
Definition omit_field (k : string) (d : doc) : doc :=
  mkDoc (d_id d) (filter (fun p => negb (String.eqb (fst p) k)) (d_data d)).

(** [v.toLowerCase()]: a TypeError on anything but a string. *)
Definition js_toLowerCase (v : jsval) : St world string :=
  match v with
  | JStr s => ret (js_lower s)
  | JUndefined | JNull => throw "Cannot read properties of undefined (reading 'toLowerCase')"
  | _ => throw "toLowerCase is not a function"
  end.

(** [v.length] compared with [<]: [undefined < n] is false. *)
Definition js_length_lt (v : jsval) (n : nat) : bool :=
  match v with
  | JStr s => (String.length s <? n)%nat
  | _ => false
  end.

(** [['user', 'admin'].includes(role)] *)
Definition valid_role (role : jsval) : bool :=
  jsval_eqb role (JStr "user") || jsval_eqb role (JStr "admin").

(** ["s".includes(t)] *)
Fixpoint str_includes (t s : string) : bool :=
  String.prefix t s
  || match s with EmptyString => false | String _ r => str_includes t r end.

(** A double quote, for messages that contain one. *)
Definition dq : string := String (ascii_of_nat 34) EmptyString.

(** Firebase Auth as the legacy login uses it: each call answers, or
    rejects with [String(e?.code || '')].  [updateUser(uid, {password,
    displayName})] and [createUser({email, password, displayName})] get
    the request's password and the display name as the handler passes
    them, so that the service may refuse them. *)
Record login_auth := mkLoginAuth {
  la_get_user_by_email : string -> string + string;  (** uid, or the code *)
  la_update_user : string -> jsval -> jsval -> option string;
    (** uid, password, displayName; the code of a rejection *)
  la_create_user : string -> jsval -> jsval -> string + string
    (** email, password, displayName; new uid, or the code *)
}.

Definition msg_login_rejected : string :=
  "Your account has been rejected. Please contact admin.".
Definition msg_login_pending : string := "Your account is pending admin approval.".
Definition msg_login_migrated : string :=
  "This account is already using Firebase Auth. Please login from the app and use Forgot Password if needed.".
Definition msg_login_firebase_only : string :=
  "This account must login using Firebase Auth. Please use Forgot Password if needed.".

Section MoreHandlers.

Variable fails : nat -> bool.
Variable now : Z.
(** [bcrypt.compare(entered, hash)]; [None] when it rejects. *)
Variable compare : jsval -> jsval -> option bool.
Variable la : login_auth.
(** [DELETE /users/:id?deleteFamilyTree=true]: the query of the user's
    [familyTree] entries and the deletion of each; the [familyTree]
    collection is not part of the modelled world. *)
Variable purge_family_tree : string -> St world unit.

(** [deleteDocument(c, id)]: [doc(id).delete()] succeeds also when the
    document is missing. *)
Definition deleteDocument (c : coll) (id : string) : St world unit :=
  op fails (fun w => (tt, with_coll c (filter (fun d => negb (String.eqb (d_id d) id))
                                               (coll_docs c w)) w)).

(* ---------------- Firestore auth routes ---------------- *)

(** [getUserByFirebaseUid] *)
Definition getUserByFirebaseUid (firebaseUid : jsval) : St world (option doc) :=
  if negb (js_truthy firebaseUid) then ret None else
  first_hit (getDocumentById_js fails USERS firebaseUid)
            (findOneDocument fails USERS "firebaseUid" firebaseUid).

(** The [user] object of [GET /me]. *)
Definition me_view (u : doc) : doc :=
  mkDoc (d_id u)
    [("name", field u "name"); ("email", field u "email"); ("role", field u "role");
     ("memberId", field u "memberId"); ("phone", field u "phone");
     ("accountStatus", field u "accountStatus");
     ("verificationStatus", field u "verificationStatus")].

(** [router.get('/me')]; [firebaseUid] is [req.firebaseUser?.uid]. *)
Definition me (firebaseUid : jsval) : St world response :=
  try_catch
    (user <- getUserByFirebaseUid firebaseUid ;;
     match user with
     | None => early (RespError 404 "User not found")
     | Some u => ret (RespOk (me_view u))
     end)
    (fun _ => ret (RespError 500 "Error fetching user")).

(** The [try/catch] linking or creating the Firebase Auth account. *)
Definition login_firebase (normalizedEmail : string) (password displayName : jsval)
  : St world string :=
  let on_error code :=
    if str_includes "user-not-found" code then
      match la_create_user la normalizedEmail password displayName with
      | inl uid => ret uid
      | inr code' => throw code'
      end
    else throw code in
  match la_get_user_by_email la normalizedEmail with
  | inl uid =>
      match la_update_user la uid password displayName with
      | None => ret uid
      | Some code => on_error code
      end
  | inr code => on_error code
  end.

(** [router.post('/login')]: migration of a legacy bcrypt account. *)
Definition login (email password : jsval) : St world reply :=
  try_catch
    (if negb (js_truthy email) || negb (js_truthy password)
     then early (RespError 400 "Please provide email and password") else
     let normalizedEmail := js_lower (trim (js_String email)) in
     user <- findOneDocument fails USERS "email" (JStr normalizedEmail) ;;
     match user with
     | None => early (RespError 401 "Invalid credentials")
     | Some u =>
         if jsval_eqb (field u "accountStatus") (JStr "rejected")
         then early (RespError 403 msg_login_rejected) else
         if jsval_eqb (field u "accountStatus") (JStr "pending")
         then early (RespError 403 msg_login_pending) else
         if js_truthy (field u "firebaseUid")
         then early (RespError 410 msg_login_migrated) else
         if negb (js_truthy (field u "password"))
         then early (RespError 410 msg_login_firebase_only) else
         isPasswordValid <-
           (match compare password (field u "password") with
            | Some b => ret b
            | None => throw "Illegal arguments"
            end) ;;
         if negb isPasswordValid then early (RespError 401 "Invalid credentials") else
         firebaseUid <- login_firebase normalizedEmail password
                                       (js_or (field u "name") (JStr "")) ;;
         updateDocument fails now USERS (d_id u) [("firebaseUid", JStr firebaseUid)] ;;;
         ret ReplyMigrated
     end)
    (fun _ => ret (Reply (RespError 500 "Error logging in"))).

(* ---------------- User management (routes/admin.js) ---------------- *)

(** [router.put('/users/:id/reject')]; [rejector] is [req.user.id].  The
    rejection email has its own [try/catch] and is left out. *)
Definition admin_put_reject (rejector id : string) (reason : jsval) : St world response :=
  try_catch
    (user <- getDocumentById fails USERS id ;;
     match user with
     | None => early (RespError 404 "User not found")
     | Some _ =>
         updated <- updateDocument fails now USERS id
           [("accountStatus", JStr "rejected"); ("requiresAdminApproval", JBool false);
            ("verificationStatus", JStr "unverified");
            ("rejectionReason", js_or reason (JStr "")); ("rejectedAt", JNum now);
            ("rejectedBy", JStr rejector)] ;;
         match updated with
         | Some d => ret (RespOk (omit_field "password" d))
         | None => throw "Cannot destructure 'updated' as it is null."
         end
     end)
    (fun _ => ret (RespError 500 "Failed to reject user")).

(** [router.put('/users/:id')]; a field missing from the body is
    [JUndefined]. *)
Definition admin_put_user (id : string) (name email phone memberId role : jsval)
  : St world response :=
  try_catch
    (user <- getDocumentById fails USERS id ;;
     match user with
     | None => early (RespError 404 "User not found")
     | Some u =>
         (if js_truthy memberId && negb (jsval_eqb memberId (field u "memberId")) then
            existing <- findOneDocument fails USERS "memberId" memberId ;;
            match existing with
            | Some e =>
                if negb (String.eqb (d_id e) (d_id u))
                then early (RespError 400 "Member ID already exists") else ret tt
            | None => ret tt
            end
          else ret tt) ;;;
         (if js_truthy email then
            el <- js_toLowerCase email ;;
            ul <- js_toLowerCase (field u "email") ;;
            if negb (String.eqb el ul) then
              existing <- findOneDocument fails USERS "email" (JStr el) ;;
              match existing with
              | Some e =>
                  if negb (String.eqb (d_id e) (d_id u))
                  then early (RespError 400 "Email already exists") else ret tt
              | None => ret tt
              end
            else ret tt
          else ret tt) ;;;
         emailData <-
           (match email with
            | JUndefined => ret []
            | _ => el <- js_toLowerCase email ;; ret [("email", JStr el)]
            end) ;;
         let updateData :=
           ((match name with JUndefined => [] | _ => [("name", name)] end)
            ++ emailData
            ++ (match phone with JUndefined => [] | _ => [("phone", phone)] end)
            ++ (match memberId with JUndefined => [] | _ => [("memberId", memberId)] end))%list in
         updateData' <-
           (match role with
            | JUndefined => ret updateData
            | _ => if negb (valid_role role)
                   then early (RespError 400 ("Invalid role. Must be " ++ dq ++ "user" ++ dq
                                              ++ " or " ++ dq ++ "admin" ++ dq))
                   else ret (updateData ++ [("role", role)])%list
            end) ;;
         updatedUser <- updateDocument fails now USERS (d_id u) updateData' ;;
         match updatedUser with
         | Some d => ret (RespOk (omit_field "password" d))
         | None => throw "Cannot destructure 'updatedUser' as it is null."
         end
     end)
    (fun _ => ret (RespError 500 "Failed to update user")).

(** [router.put('/users/:id/password')] *)
Definition admin_put_password (currentPassword newPassword : jsval) : St world response :=
  try_catch
    (if negb (js_truthy currentPassword) || negb (js_truthy newPassword)
     then early (RespError 400 "Current password and new password are required") else
     if js_length_lt newPassword 6
     then early (RespError 400 "New password must be at least 6 characters") else
     early (RespError 501 "Password update not implemented for Firestore yet. Use Firebase Auth."))
    (fun _ => ret (RespError 500 "Failed to change password")).

(** [router.put('/users/:id/role')]; [caller] is [req.user.id]. *)
Definition admin_put_role (caller id : string) (role : jsval) : St world response :=
  try_catch
    (if negb (js_truthy role) || negb (valid_role role)
     then early (RespError 400 "Valid role is required (user or admin)") else
     user <- getDocumentById fails USERS id ;;
     match user with
     | None => early (RespError 404 "User not found")
     | Some u =>
         if String.eqb (d_id u) caller && jsval_eqb role (JStr "user")
         then early (RespError 400 "You cannot demote yourself") else
         updatedUser <- updateDocument fails now USERS (d_id u) [("role", role)] ;;
         match updatedUser with
         | Some d => ret (RespOk (omit_field "password" d))
         | None => throw "Cannot destructure 'updatedUser' as it is null."
         end
     end)
    (fun _ => ret (RespError 500 "Failed to update user role")).

(** [router.delete('/users/:id')]; [deleteFamilyTree] is the query
    parameter. *)
Definition admin_delete_user (caller id : string) (deleteFamilyTree : jsval) : St world reply :=
  try_catch
    (user <- getDocumentById fails USERS id ;;
     match user with
     | None => early (RespError 404 "User not found")
     | Some u =>
         if String.eqb (d_id u) caller
         then early (RespError 400 "You cannot delete your own account") else
         (if jsval_eqb deleteFamilyTree (JStr "true")
          then purge_family_tree (d_id u) else ret tt) ;;;
         deleteDocument USERS (d_id u) ;;;
         ret (ReplyDeleted (jsval_eqb deleteFamilyTree (JStr "true")))
     end)
    (fun _ => ret (Reply (RespError 500 "Failed to delete user"))).

(** The [data] of [POST /pending-users/:id/reject]. *)
Definition reject_view (d : doc) : doc :=
  mkDoc (d_id d)
    [("name", field d "name"); ("email", field d "email");
     ("accountStatus", field d "accountStatus");
     ("rejectionReason", field d "rejectionReason")].

(** [router.post('/pending-users/:id/reject')]; [reviewer] is [req.user.id]. *)
Definition admin_post_pending_reject (reviewer id : string) (reason : jsval)
  : St world response :=
  try_catch
    (user <- getDocumentById fails USERS id ;;
     match user with
     | None => early (RespError 404 "User not found")
     | Some u =>
         if negb (jsval_eqb (field u "accountStatus") (JStr "pending"))
         then early (RespError 400 "User is not in pending status") else
         updatedUser <- updateDocument fails now USERS (d_id u)
           [("accountStatus", JStr "rejected"); ("verificationStatus", JStr "unverified");
            ("requiresAdminApproval", JBool false); ("reviewedBy", JStr reviewer);
            ("reviewedAt", JNum now);
            ("rejectionReason", js_or reason (JStr "No reason provided"))] ;;
         match updatedUser with
         | Some d => ret (RespOk (reject_view d))
         | None => throw "Cannot read properties of null (reading 'id')"
         end
     end)
    (fun _ => ret (RespError 500 "Failed to reject user")).

End MoreHandlers.

(* ---------------- Information search (the [/search] route without accent folding) ---------------- *)

(** [s.split(/\s+/).filter(Boolean)]: cutting at every white-space
    character and dropping the empty pieces gives the same tokens as
    cutting at the runs of white space. *)
Fixpoint split_ws (s : string) : list string :=
  match s with
  | EmptyString => [EmptyString]
  | String c r =>
      if is_js_space c then EmptyString :: split_ws r
      else match split_ws r with
           | t :: ts => String c t :: ts
           | [] => [String c EmptyString]
           end
  end.

(** [String(req.query.name || '').trim()] *)
Definition info_raw (name : jsval) : string := trim (js_String (js_or name (JStr ""))).

Definition info_tokens (raw : string) : list string :=
  filter (fun t => negb (String.eqb t "")) (split_ws (js_lower raw)).

(** [(doc.k || '').toLowerCase()]; [None] is the TypeError of a
    non-string value. *)
Definition info_lower (d : doc) (k : string) : option string :=
  match js_or (field d k) (JStr "") with
  | JStr s => Some (js_lower s)
  | _ => None
  end.

(** The filter callback of the search. *)
Definition info_matches (raw : string) (tokens : list string) (d : doc) : option bool :=
  match info_lower d "firstName", info_lower d "middleName",
        info_lower d "lastName", info_lower d "fullName" with
  | Some firstName, Some middleName, Some lastName, Some fullName =>
      let searchLower := js_lower raw in
      if str_includes searchLower fullName then Some true
      else Some (forallb (fun token =>
                   str_includes token firstName || str_includes token middleName
                   || str_includes token lastName || str_includes token fullName) tokens)
  | _, _, _, _ => None
  end.

(** [Array.prototype.filter] with a callback that may throw. *)
Fixpoint filter_opt {A} (p : A -> option bool) (l : list A) : option (list A) :=
  match l with
  | [] => Some []
  | x :: r =>
      match p x with
      | None => None
      | Some b =>
          match filter_opt p r with
          | None => None
          | Some r' => Some (if b then x :: r' else r')
          end
      end
  end.

(** The projection of each result. *)
Definition info_view (d : doc) : doc :=
  mkDoc (d_id d)
    [("firstName", field d "firstName"); ("middleName", field d "middleName");
     ("lastName", field d "lastName"); ("fullName", field d "fullName");
     ("memberId", field d "memberId"); ("number", field d "number")].

Inductive info_response :=
| InfoData (data : list doc)
| InfoError (status : Z) (message : string).

(** [router.get('/search')]; [allInfo] is what [getAllDocuments] gives,
    [None] when it rejects. *)
Definition information_search (name : jsval) (allInfo : option (list doc)) : info_response :=
  let raw := info_raw name in
  if String.eqb raw "" then InfoData [] else
  match allInfo with
  | None => InfoError 500 "Server error"
  | Some docs =>
      match filter_opt (info_matches raw (info_tokens raw)) docs with
      | Some results => InfoData (map info_view (firstn 100 results))
      | None => InfoError 500 "Server error"
      end
  end.

(* ------------------------------------------------------------------ *)
(** ** Concrete environments for the witnesses *)

(** A conversion reporting every string as non-finite.  The witnesses
    only feed inputs without [e], [E] or ['.'], on which the handlers
    never call the conversion. *)
Definition num_trunc_nan : string -> option string := fun _ => None.

Definition no_faults : nat -> bool := fun _ => false.

(** Storage rejecting every operation. *)
Definition all_faults : nat -> bool := fun _ => true.

(** Firebase Auth with no account yet: creation gives a fresh uid. *)
Definition fb_fresh : auth_service :=
  mkAuthService (fun _ => false) (fun _ => None)
    (fun email => inl ("uid:" ++ email)) (fun _ => None).

Definition slot_doc (id : string) (mid phone : jsval) (used : bool) (usedBy : jsval) : doc :=
  mkDoc id [("memberId", mid); ("phoneNumber", phone);
            ("isUsed", JBool used); ("usedBy", usedBy)].

Definition req (email mid phone : string) : request :=
  mkRequest (JStr "Asha") (JStr email) (JStr "secret") (JStr phone) (JStr mid).

(** Slots and users of the examples. *)
Definition slot_M001 : doc :=
  slot_doc "M001" (JStr "M001") (JStr "9876543210") false JNull.

Definition slot_M001_used : doc :=
  slot_doc "M001" (JStr "M001") (JStr "9876543210") true (JStr "uid:a@x.com").

Definition ctx_b : signup_ctx :=
  mkCtx "b@x.com" "M001" None (with_verified (with_member (Some slot_M001) locals0)) "uid:b@x.com".

Definition slot_M002_ghost : doc :=
  slot_doc "M002" (JStr "M002") (JStr "9876543210") true (JStr "ghost").

Definition user_ghost : doc :=
  mkDoc "ghost" [("email", JStr "g@x.com"); ("memberId", JStr "M777");
                 ("accountStatus", JStr "approved")].

Definition user_rejected_M003 : doc :=
  mkDoc "u1" [("email", JStr "a@x.com"); ("memberId", JStr "M003");
              ("accountStatus", JStr "rejected"); ("rejectionReason", JStr "unknown member")].

Definition user_approved_M004 : doc :=
  mkDoc "u2" [("email", JStr "c@x.com"); ("memberId", JStr "M004");
              ("accountStatus", JStr "approved")].

Definition user_pending_M001 : doc :=
  mkDoc "u3" [("email", JStr "p@x.com"); ("memberId", JStr "M001");
              ("phone", JStr "9876543210"); ("accountStatus", JStr "pending")].

(* ------------------------------------------------------------------ *)
(** ** The Mongo signup handler of [routes/auth.js] and [markAsUsed] *)

(** [String(x).replace(/[\s\-\(\)]/g, '').trim()] *)
Definition mongo_clean (s : string) : string :=
  trim (string_of_list_ascii
          (filter (fun c => negb (is_js_space c || (c =? "-")%char
                                  || (c =? "(")%char || (c =? ")")%char))
                  (list_ascii_of_string s))).

(** Match classification of the Mongo handler (lines 112-159) for a found
    slot, from the handler's initial locals; [nm] is the trimmed member ID
    and [phone] the request's phone. *)
Definition mongo_classify (nm : string) (phone : jsval) (s : doc) : vlocals :=
  let normalizedPhone := mongo_clean (str_nullish phone) in
  let authorizedPhone := mongo_clean (js_String (js_or (field s "phoneNumber") (JStr ""))) in
  let authorizedMemberId := js_or (field s "memberId") (JStr "") in
  let mid_ok := js_truthy authorizedMemberId && jsval_eqb (JStr nm) authorizedMemberId in
  let phone_ok := negb (String.eqb authorizedPhone "")
                  && String.eqb normalizedPhone authorizedPhone in
  let matchCount := ((if mid_ok then 1 else 0) + (if phone_ok then 1 else 0))%nat in
  if (matchCount =? 2)%nat then with_verified locals0
  else if (matchCount =? 1)%nat then
    if js_truthy authorizedMemberId && String.eqb authorizedPhone "" then with_verified locals0
    else if negb (js_truthy authorizedMemberId) && negb (String.eqb authorizedPhone "")
    then with_verified locals0
    else with_pending locals0
  else with_pending locals0.

(** [authorizedMemberSchema.methods.markAsUsed(userId)]: the fields set on
    the in-memory document, then [save()] writes it back as it is. *)
Definition markAsUsed (now : Z) (userId : string) (s : doc) : doc :=
  mkDoc (d_id s) (merge (d_data s)
                        [("isUsed", JBool true); ("usedBy", JStr userId); ("usedAt", JNum now)]).

Definition save_doc (d : doc) (slots : list doc) : list doc := upsert_doc d slots.

(* ------------------------------------------------------------------ *)
(** ** Readings of the specification, to compare with the code *)

(** Spec §4.1, strict phone normalisation, applied to the extracted digits:
    11 digits with a leading trunk prefix [0] lose it, 12 digits with the
    country code [91] lose it, 10 digits stay, anything else is [null]. *)
Definition spec_strict_digits (d : string) : option string :=
  let n := String.length d in
  if (n =? 11)%nat && String.prefix "0" d then Some (substring 1 10 d)
  else if (n =? 12)%nat && String.prefix "91" d then Some (substring 2 10 d)
  else if (n =? 10)%nat then Some d
  else None.

(** The reading of §4.1 on the raw input: strip every non-digit, then the rule above. *)
Definition spec_normalizePhone (v : jsval) : option string :=
  spec_strict_digits (keep_digits (str_nullish v)).

Definition first_some (l : list (option doc)) : option doc :=
  fold_right (fun o acc => match o with Some d => Some d | None => acc end) None l.

(** Spec §4.2: primary key, string form, numeric form, normalized shadow
    field, first hit wins. *)
Definition spec_lookup (fld shadow v : string) (slots : list doc) : option doc :=
  first_some
    [find_by_id v slots;
     find_by_field fld (JStr v) slots;
     match maybeNumber v with Some n => find_by_field fld (JNum n) slots | None => None end;
     find_by_field shadow (JStr v) slots].

(** The same order without the primary-key step. *)
Definition field_lookup (fld shadow v : string) (slots : list doc) : option doc :=
  first_some
    [find_by_field fld (JStr v) slots;
     match maybeNumber v with Some n => find_by_field fld (JNum n) slots | None => None end;
     find_by_field shadow (JStr v) slots].

(** The slot the handler settles on: by member ID, else by phone. *)
Definition handler_lookup (nm np : string) (slots : list doc) : option doc :=
  match spec_lookup "memberId" "memberIdNormalized" nm slots with
  | Some s => Some s
  | None => field_lookup "phoneNumber" "phoneNormalized" np slots
  end.

(** A canonical stored phone: empty or exactly ten digits. *)
Definition canonical_phone (v : jsval) : Prop :=
  v = JStr "" \/ exists p, v = JStr p /\ String.length p = 10 /\ all_digits p = true.

(** Relations between the states before and after a run. *)
Definition same_data (w w' : world) : Prop :=
  w_users w' = w_users w /\ w_slots w' = w_slots w.
Definition same_users (w w' : world) : Prop := w_users w' = w_users w.
Definition same_slots (w w' : world) : Prop := w_slots w' = w_slots w.
Definition vs_same_users (s s' : VS) : Prop := same_users (snd s) (snd s').
Definition users_good (w w' : world) : Prop :=
  forall u, In u (w_users w') -> In u (w_users w) \/ canonical_phone (field u "phone").

(** [stays R m]: whatever [m] returns, its final state is [R]-related to
    its initial state. *)
Definition stays {S A} (R : S -> S -> Prop) (m : St S A) : Prop :=
  forall s, R s (snd (m s)).

(** A run that throws has not changed [isVerified]. *)
Definition same_verified (s s' : VS) : Prop := isVerified (fst s') = isVerified (fst s).
Definition throw_keeps_verified {A} (m : St VS A) : Prop :=
  forall s e s', m s = (RThrow e, s') -> isVerified (fst s') = isVerified (fst s).

(** [ret_keeps m]: a run of [m] ending in an early return wrote nothing. *)
Definition ret_keeps {A} (m : St world A) : Prop :=
  forall w r w', m w = (RRet r, w') -> same_data w w'.
(** [no_ret m]: [m] never ends in an early return. *)
Definition no_ret {A} (m : St world A) : Prop :=
  forall w r w', m w <> (RRet r, w').

(** Firebase Auth with no account for any email: [getUserByEmail]
    rejects with [auth/user-not-found], creation gives a fresh uid. *)
Definition la_fresh : login_auth :=
  mkLoginAuth (fun _ => inr "auth/user-not-found") (fun _ _ _ => None)
    (fun email _ _ => inl ("uid:" ++ email)).

(** A bcrypt comparison accepting the password. *)
Definition compare_ok : jsval -> jsval -> option bool := fun _ _ => Some true.

(** No family-tree entry to remove. *)
Definition purge_none : string -> St world unit := fun _ => ret tt.

(** A legacy account with a bcrypt password and no Firebase uid. *)
Definition user_legacy : doc :=
  mkDoc "u5" [("email", JStr "l@x.com"); ("memberId", JStr "M005");
              ("password", JStr "$2a$10$hash"); ("accountStatus", JStr "approved")].

(** A legacy account whose stored [name] is a number. *)
Definition user_legacy_numname : doc :=
  mkDoc "u6" [("name", JNum 7); ("email", JStr "n@x.com"); ("memberId", JStr "M006");
              ("password", JStr "$2a$10$hash"); ("accountStatus", JStr "approved")].

(** Firebase Auth with no account for any email that, as the Admin SDK
    validates its arguments, refuses a [displayName] that is not a string
    with [auth/invalid-display-name]. *)
Definition la_fresh_checked : login_auth :=
  mkLoginAuth (fun _ => inr "auth/user-not-found")
    (fun _ _ n => match n with JStr _ => None | _ => Some "auth/invalid-display-name" end)
    (fun email _ n => match n with
                      | JStr _ => inl ("uid:" ++ email)
                      | _ => inr "auth/invalid-display-name"
                      end).

Definition world_admin : world := mkWorld [user_pending_M001; user_approved_M004] [slot_M001] 0.
Definition world_legacy : world := mkWorld [user_legacy; user_rejected_M003] [] 0.
Definition world_ghost : world := mkWorld [user_approved_M004; user_ghost] [slot_M002_ghost] 0.

(** Documents of the [information] collection. *)
Definition info_asha : doc :=
  mkDoc "i1" [("firstName", JStr "Asha"); ("middleName", JStr "R"); ("lastName", JStr "Patel");
              ("fullName", JStr "Asha R Patel"); ("memberId", JStr "M001");
              ("number", JNum 9876543210)].
Definition info_ravi : doc :=
  mkDoc "i2" [("firstName", JStr "Ravi"); ("lastName", JStr "Shah"); ("fullName", JStr "Ravi Shah")].
Definition info_bad : doc :=
  mkDoc "i3" [("firstName", JNum 7); ("lastName", JStr "Patel")].

(* ================================================================== *)
(** * Proofs *)

(** ** Documents *)

Lemma find_app {A} (f : A -> bool) (l1 l2 : list A) :
  find f (l1 ++ l2) = match find f l1 with Some x => Some x | None => find f l2 end.
Proof. induction l1 as [|x r IH]; simpl; [reflexivity|]. destruct (f x); auto. Qed.

Lemma field_set_field (i k k' : string) (v : jsval) (fs : fields) :
  field (mkDoc i (set_field k v fs)) k' =
  if String.eqb k k' then v else field (mkDoc i fs) k'.
Proof.
  unfold field; simpl.
  induction fs as [|[k0 v0] r IH]; simpl.
  - destruct (String.eqb k k'); reflexivity.
  - destruct (String.eqb_spec k0 k) as [->|Hne]; simpl.
    + destruct (String.eqb k k'); reflexivity.
    + destruct (String.eqb_spec k0 k') as [->|Hne']; simpl.
      * destruct (String.eqb_spec k k') as [->|]; [congruence|reflexivity].
      * exact IH.
Qed.

(** A merged document reads the last value the patch gives a field, the
    old value otherwise. *)
Lemma field_merge (i k : string) (fs patch : fields) :
  field (mkDoc i (merge fs patch)) k =
  match find (fun p => String.eqb (fst p) k) (rev patch) with
  | Some (_, v) => v
  | None => field (mkDoc i fs) k
  end.
Proof.
  unfold merge. revert fs.
  induction patch as [|[k0 v0] ps IH]; intro fs; simpl; [reflexivity|].
  rewrite IH, find_app; simpl.
  destruct (find (fun p => String.eqb (fst p) k) (rev ps)) as [[]|]; [reflexivity|].
  rewrite field_set_field.
  destruct (String.eqb k0 k); reflexivity.
Qed.

Lemma find_by_id_some (id : string) (c : list doc) (d : doc) :
  find_by_id id c = Some d -> In d c /\ d_id d = id.
Proof.
  unfold find_by_id; intro H.
  apply find_some in H as [Hin Heq].
  apply String.eqb_eq in Heq; auto.
Qed.

Lemma in_replace_doc (d u : doc) (c : list doc) :
  In u (replace_doc d c) -> In u c \/ u = d.
Proof.
  unfold replace_doc; rewrite in_map_iff.
  intros [u' [<- Hin]].
  destruct (String.eqb (d_id u') (d_id d)); auto.
Qed.

Lemma in_upsert_doc (d u : doc) (c : list doc) :
  In u (upsert_doc d c) -> In u c \/ u = d.
Proof.
  unfold upsert_doc.
  destruct (find_by_id (d_id d) c).
  - apply in_replace_doc.
  - rewrite in_app_iff; simpl; intuition.
Qed.

Lemma map_id_replace_doc (d : doc) (c : list doc) :
  map d_id (replace_doc d c) = map d_id c.
Proof.
  unfold replace_doc; rewrite map_map.
  apply map_ext; intro d'.
  destruct (String.eqb_spec (d_id d') (d_id d)); auto.
Qed.

(** ** Reasoning about handler runs *)

Section Stays.
Context {S : Type} (R : S -> S -> Prop).
Hypothesis R_refl : forall s, R s s.
Hypothesis R_trans : forall s1 s2 s3, R s1 s2 -> R s2 s3 -> R s1 s3.

Lemma stays_ret {A} (a : A) : stays R (ret a).
Proof. intro s; apply R_refl. Qed.

Lemma stays_throw {A} e : stays R (@throw S A e).
Proof. intro s; apply R_refl. Qed.

Lemma stays_early {A} r : stays R (@early S A r).
Proof. intro s; apply R_refl. Qed.

Lemma stays_bind {A B} (m : St S A) (f : A -> St S B) :
  stays R m -> (forall a, stays R (f a)) -> stays R (bind m f).
Proof.
  intros Hm Hf s; unfold bind.
  specialize (Hm s).
  destruct (m s) as [[a|e|r] s'] eqn:E; simpl in *; auto.
  eapply R_trans; [exact Hm|apply Hf].
Qed.

Lemma stays_try_catch {A} (m : St S A) (h : string -> St S A) :
  stays R m -> (forall e, stays R (h e)) -> stays R (try_catch m h).
Proof.
  intros Hm Hh s; unfold try_catch.
  specialize (Hm s).
  destruct (m s) as [[a|e|r] s'] eqn:E; simpl in *; auto.
  eapply R_trans; [exact Hm|apply Hh].
Qed.
End Stays.

Create HintDb stays.
#[export] Hint Resolve stays_ret stays_throw stays_early : stays.

(** Ltac for [stays] goals over a monadic program. *)
Ltac stays_step Rr Rt :=
  match goal with
  | |- stays _ (bind _ _) => apply stays_bind; [exact Rt| |intro]
  | |- stays _ (try_catch _ _) => apply stays_try_catch; [exact Rt| |intro]
  | |- stays _ (ret _) => apply stays_ret; exact Rr
  | |- stays _ (throw _) => apply stays_throw; exact Rr
  | |- stays _ (early _) => apply stays_early; exact Rr
  | |- stays _ (match ?x with _ => _ end) => destruct x
  | |- stays _ (if ?x then _ else _) => destruct x
  end.

Lemma same_data_refl w : same_data w w.
Proof. split; reflexivity. Qed.
Lemma same_data_trans w1 w2 w3 : same_data w1 w2 -> same_data w2 w3 -> same_data w1 w3.
Proof. unfold same_data; intros [] []; split; congruence. Qed.
Lemma same_users_refl w : same_users w w.
Proof. reflexivity. Qed.
Lemma same_users_trans w1 w2 w3 : same_users w1 w2 -> same_users w2 w3 -> same_users w1 w3.
Proof. unfold same_users; congruence. Qed.
Lemma vs_refl s : vs_same_users s s.
Proof. reflexivity. Qed.
Lemma vs_trans s1 s2 s3 : vs_same_users s1 s2 -> vs_same_users s2 s3 -> vs_same_users s1 s3.
Proof. unfold vs_same_users, same_users; congruence. Qed.
Lemma users_good_refl w : users_good w w.
Proof. intros u H; auto. Qed.
Lemma users_good_trans w1 w2 w3 : users_good w1 w2 -> users_good w2 w3 -> users_good w1 w3.
Proof. intros H12 H23 u Hu. destruct (H23 u Hu); auto. Qed.

Lemma stays_mono {S A} (R1 R2 : S -> S -> Prop) (m : St S A) :
  (forall s s', R1 s s' -> R2 s s') -> stays R1 m -> stays R2 m.
Proof. intros H Hm s; apply H, Hm. Qed.

Lemma same_data_users w w' : same_data w w' -> same_users w w'.
Proof. intros []; assumption. Qed.
Lemma same_users_good w w' : same_users w w' -> users_good w w'.
Proof. unfold same_users; intros H u; rewrite H; auto. Qed.

Ltac stays_data := repeat (stays_step same_data_refl same_data_trans).
Ltac stays_vs := repeat (stays_step vs_refl vs_trans).

Section StoreOps.
Variables (num_trunc : string -> option string) (fails : nat -> bool) (now : Z)
          (fb : auth_service).

Lemma op_same_data {A} (f : world -> A * world) :
  (forall w, same_data w (snd (f w))) -> stays same_data (op fails f).
Proof.
  intros Hf w; unfold op.
  destruct (fails (w_ops w)); simpl; [split; reflexivity|].
  specialize (Hf (tick w)).
  destruct (f (tick w)) as [a w'] eqn:E; simpl in *; exact Hf.
Qed.

Lemma findOneDocument_same c k v : stays same_data (findOneDocument fails c k v).
Proof. apply op_same_data; intro w; apply same_data_refl. Qed.

Lemma getDocumentById_same c id : stays same_data (getDocumentById fails c id).
Proof. apply op_same_data; intro w; apply same_data_refl. Qed.

Lemma getDocumentById_js_same c v : stays same_data (getDocumentById_js fails c v).
Proof.
  unfold getDocumentById_js; destruct v; stays_data; apply getDocumentById_same.
Qed.

Lemma first_hit_same m k :
  stays same_data m -> stays same_data k -> stays same_data (first_hit m k).
Proof. intros Hm Hk; unfold first_hit; stays_data; assumption. Qed.

Lemma getAuthorizedByMemberId_same v :
  stays same_data (getAuthorizedByMemberId fails v).
Proof.
  unfold getAuthorizedByMemberId.
  destruct (String.eqb v ""); [stays_data|].
  repeat apply first_hit_same;
    try apply getDocumentById_same; try apply findOneDocument_same; stays_data;
    apply findOneDocument_same.
Qed.

Lemma getAuthorizedByPhone_same v : stays same_data (getAuthorizedByPhone fails v).
Proof.
  unfold getAuthorizedByPhone.
  destruct (String.eqb v ""); [stays_data|].
  repeat apply first_hit_same; try apply findOneDocument_same; stays_data;
    apply findOneDocument_same.
Qed.

Lemma updateDocument_slots_users id data :
  stays same_users (updateDocument fails now AUTHORIZED_MEMBERS id data).
Proof.
  unfold updateDocument.
  apply stays_bind; [exact same_users_trans| |intro].
  - intro w; unfold update_raw.
    destruct (fails (w_ops w)); simpl; [reflexivity|].
    destruct (find_by_id id (w_slots w)); reflexivity.
  - eapply stays_mono; [intros ??; apply same_data_users|apply getDocumentById_same].
Qed.

Lemma lift_same_users {A} (m : St world A) :
  stays same_users m -> stays vs_same_users (lift m).
Proof.
  intros H [l w]; unfold lift, vs_same_users.
  specialize (H w); destruct (m w) as [r w']; exact H.
Qed.

Lemma lift_same_data {A} (m : St world A) :
  stays same_data m -> stays vs_same_users (lift m).
Proof. intro H; apply lift_same_users; eapply stays_mono; [|exact H]; apply same_data_users. Qed.

Lemma modify_l_same f : stays vs_same_users (modify_l f).
Proof. intros [l w]; reflexivity. Qed.

#[local] Hint Resolve lift_same_data lift_same_users modify_l_same
  getAuthorizedByMemberId_same getAuthorizedByPhone_same getDocumentById_js_same
  updateDocument_slots_users : stays.

Lemma evaluate_same nm np am : stays vs_same_users (evaluate num_trunc fails now nm np am).
Proof.
  unfold evaluate, classify, set_pending, set_verified, set_member.
  stays_vs; eauto with stays.
Qed.

Lemma verification_same nm phone :
  stays vs_same_users (verification num_trunc fails now nm phone).
Proof.
  unfold verification, verification_body, set_pending, set_member.
  stays_vs; eauto using evaluate_same with stays.
Qed.

Lemma run_verification_same nm phone :
  stays same_users (run_verification num_trunc fails now nm phone).
Proof.
  intro w; unfold run_verification.
  pose proof (verification_same nm phone (locals0, w)) as H.
  destruct (verification num_trunc fails now nm phone (locals0, w)) as [[] [l w']];
    exact H.
Qed.

Lemma reapply_detection_same email nm e1 e2 :
  stays same_data (reapply_detection email nm e1 e2).
Proof. unfold reapply_detection; stays_data. Qed.

Lemma signup_prefix_same rq : stays same_data (signup_prefix num_trunc fails rq).
Proof.
  unfold signup_prefix; simpl.
  stays_data; auto using findOneDocument_same, reapply_detection_same.
Qed.

Lemma firebase_phase_same email r e : stays same_data (firebase_phase fb email r e).
Proof. unfold firebase_phase; cbv zeta; stays_data. Qed.

Lemma signup_check_users rq : stays same_users (signup_check num_trunc fails now fb rq).
Proof.
  unfold signup_check.
  apply stays_bind; [exact same_users_trans| |intros [[[e nm] r] x]].
  - eapply stays_mono; [intros ??; apply same_data_users|apply signup_prefix_same].
  - apply stays_bind; [exact same_users_trans|apply run_verification_same|intro].
    apply stays_bind; [exact same_users_trans| |intro; apply stays_ret, same_users_refl].
    eapply stays_mono; [intros ??; apply same_data_users|apply firebase_phase_same].
Qed.

End StoreOps.

(** ** Digit strings *)

Lemma all_digits_keep_digits s : all_digits (keep_digits s) = true.
Proof.
  induction s as [|c r IH]; simpl; [reflexivity|].
  destruct (is_digit c) eqn:E; simpl; [rewrite E|]; assumption.
Qed.

Lemma all_digits_substring n m s :
  all_digits s = true -> all_digits (substring n m s) = true.
Proof.
  revert n m; induction s as [|c r IH]; intros n m H; destruct n, m; simpl in *;
    try reflexivity; apply andb_true_iff in H as [H1 H2]; auto.
  simpl; rewrite H1; simpl; auto.
Qed.

Lemma length_substring n m s :
  (n + m <= String.length s)%nat -> String.length (substring n m s) = m.
Proof.
  revert n m; induction s as [|c r IH]; intros n m H; destruct n, m; simpl in *;
    try lia; try reflexivity.
  - rewrite IH; lia.
  - apply IH; lia.
  - apply IH; lia.
Qed.

Lemma spec_strict_digits_shape d p :
  all_digits d = true -> spec_strict_digits d = Some p ->
  String.length p = 10 /\ all_digits p = true.
Proof.
  intros Hd; unfold spec_strict_digits.
  destruct (Nat.eqb_spec (String.length d) 11); simpl;
    [destruct (String.prefix "0" d); simpl|].
  1: intro H; injection H as <-; split;
       [apply length_substring; lia|apply all_digits_substring, Hd].
  all: destruct (Nat.eqb_spec (String.length d) 12); simpl;
    [destruct (String.prefix "91" d); simpl|].
  all: try (intro H; injection H as <-; split;
             [apply length_substring; lia|apply all_digits_substring, Hd]).
  all: destruct (Nat.eqb_spec (String.length d) 10); intro H; try discriminate;
       injection H as <-; auto.
Qed.

Section Normalizers.
Variable num_trunc : string -> option string.

(** The strict normaliser, read as: pick the digit source, strip the
    non-digits, no digits gives [""], otherwise the rule of §4.1. *)
Lemma normalizePhoneProvided_eq v :
  let raw := trim (str_nullish v) in
  let src := if has_e_or_dot raw
             then match num_trunc raw with Some t => t | None => raw end
             else raw in
  normalizePhoneProvided num_trunc v =
  if String.eqb (keep_digits src) "" then Some "" else spec_strict_digits (keep_digits src).
Proof.
  cbv zeta; unfold normalizePhoneProvided, spec_strict_digits.
  destruct (String.eqb_spec (trim (str_nullish v)) "") as [E|E].
  - rewrite E; reflexivity.
  - reflexivity.
Qed.

Lemma normalizePhoneProvided_shape v :
  normalizePhoneProvided num_trunc v = None \/
  normalizePhoneProvided num_trunc v = Some "" \/
  exists p, normalizePhoneProvided num_trunc v = Some p /\
            String.length p = 10 /\ all_digits p = true.
Proof.
  rewrite normalizePhoneProvided_eq; cbv zeta.
  match goal with |- context [keep_digits ?x] => set (d := keep_digits x) end.
  assert (Hd : all_digits d = true) by apply all_digits_keep_digits.
  destruct (String.eqb d ""); [right; left; reflexivity|].
  destruct (spec_strict_digits d) as [p|] eqn:E; [|left; reflexivity].
  right; right; exists p; split; [reflexivity|].
  eapply spec_strict_digits_shape; eauto.
Qed.

Lemma userData_phone_canonical v :
  normalizePhoneProvided num_trunc v <> None ->
  canonical_phone (userData_phone num_trunc v).
Proof.
  intro Hn; unfold userData_phone.
  assert (Hv : forall v', normalizePhoneProvided num_trunc v' <> None ->
    canonical_phone (match normalizePhoneProvided num_trunc v' with
                     | Some p => JStr p | None => JNull end)).
  { intros v' Hn'.
    destruct (normalizePhoneProvided_shape v') as [H|[H|[p [H [Hl Hd]]]]];
      rewrite H in *; [congruence|left; reflexivity|right; eauto]. }
  destruct v; try (left; reflexivity);
    destruct (String.eqb (trim (js_String _)) ""); try (left; reflexivity); auto.
Qed.

End Normalizers.

(** ** What the signup handler writes to [users] *)

Section SignupWrites.
Variables (num_trunc : string -> option string) (fails : nat -> bool) (now : Z)
          (fb : auth_service).

Lemma run_verification_ok_phone nm phone w l w' :
  run_verification num_trunc fails now nm phone w = (ROk l, w') ->
  normalizePhoneProvided num_trunc phone <> None.
Proof.
  intros H Hn.
  unfold run_verification, verification, try_catch, verification_body in H.
  rewrite Hn in H; simpl in H; discriminate.
Qed.

Lemma signup_check_ok_phone rq w c w' :
  signup_check num_trunc fails now fb rq w = (ROk c, w') ->
  normalizePhoneProvided num_trunc (rq_phone rq) <> None.
Proof.
  unfold signup_check, bind.
  destruct (signup_prefix num_trunc fails rq w) as [[[[[e nm] r] x]|e|r] w1];
    try discriminate.
  destruct (run_verification num_trunc fails now nm (rq_phone rq) w1)
    as [[l|e'|r'] w2] eqn:Ev; try discriminate.
  intros _; eapply run_verification_ok_phone; exact Ev.
Qed.

(** The user document written by the commit half has the phone of
    [userData]. *)
Lemma signup_commit_good rq c :
  canonical_phone (userData_phone num_trunc (rq_phone rq)) ->
  stays users_good (signup_commit num_trunc fails now rq c).
Proof.
  intro Hp; unfold signup_commit.
  apply stays_bind; [exact users_good_trans| |intro saved].
  - destruct (c_reapply c) as [u|].
    + apply stays_bind; [exact users_good_trans| |intro r].
      * unfold updateDocument.
        apply stays_bind; [exact users_good_trans| |intro].
        -- intro w; unfold update_raw.
           destruct (fails (w_ops w)); cbn -[merge find_by_id replace_doc]; [intros ? Hu; left; exact Hu|].
           destruct (find_by_id (d_id u) (w_users w)) as [d|]; cbn -[merge find_by_id replace_doc];
             [|intros ? Hu; left; exact Hu].
           intros u' Hu'; destruct (in_replace_doc _ _ _ Hu') as [H' | ->]; auto.
           right; rewrite field_merge; simpl; exact Hp.
        -- eapply stays_mono; [|apply getDocumentById_same].
           intros ?? H; apply same_users_good, same_data_users, H.
      * destruct r; [apply stays_ret, users_good_refl|apply stays_throw, users_good_refl].
    + intro w; unfold createDocument, op.
      destruct (fails (w_ops w)); simpl; [intros ? Hu; left; exact Hu|].
      intros u' Hu'; destruct (in_upsert_doc _ _ _ Hu') as [H' | ->]; auto.
  - destruct (isVerified (c_locals c)), (authorizedMember (c_locals c));
      try (apply stays_ret, users_good_refl).
    apply stays_bind; [exact users_good_trans| |intro; apply stays_ret, users_good_refl].
    eapply stays_mono; [intros ??; apply same_users_good|apply updateDocument_slots_users].
Qed.

Lemma signup_good rq : stays users_good (signup num_trunc fails now fb rq).
Proof.
  unfold signup.
  apply stays_try_catch; [exact users_good_trans| |intro; apply stays_ret, users_good_refl].
  intro w; unfold bind.
  pose proof (signup_check_users num_trunc fails now fb rq w) as H1.
  destruct (signup_check num_trunc fails now fb rq w) as [[c|e|r] w1] eqn:E;
    simpl in *; try (apply same_users_good; exact H1).
  eapply users_good_trans; [apply same_users_good; exact H1|].
  apply signup_commit_good, userData_phone_canonical.
  eapply signup_check_ok_phone; exact E.
Qed.

End SignupWrites.

Lemma run_signup_state num_trunc fails now fb rq w :
  snd (run_signup num_trunc fails now fb rq w) = snd (signup num_trunc fails now fb rq w).
Proof.
  unfold run_signup; destruct (signup num_trunc fails now fb rq w) as [[] w']; reflexivity.
Qed.

(** ** Stripping the non-digits ignores the trimmed white space *)

Lemma keep_digits_filter s :
  keep_digits s = string_of_list_ascii (filter is_digit (list_ascii_of_string s)).
Proof.
  induction s as [|c r IH]; simpl; [reflexivity|].
  destruct (is_digit c); simpl; rewrite IH; reflexivity.
Qed.

Lemma js_space_not_digit c : is_js_space c = true -> is_digit c = false.
Proof.
  unfold is_js_space, is_digit; set (n := nat_of_ascii c); intro H.
  repeat (apply orb_true_iff in H as [H|H]); apply Nat.eqb_eq in H; rewrite H; reflexivity.
Qed.

Lemma filter_drop_space l : filter is_digit (drop_space l) = filter is_digit l.
Proof.
  induction l as [|c r IH]; simpl; [reflexivity|].
  destruct (is_js_space c) eqn:E; simpl; [|reflexivity].
  rewrite IH, (js_space_not_digit c E); reflexivity.
Qed.

Lemma filter_rev_comm {A} (f : A -> bool) l : filter f (rev l) = rev (filter f l).
Proof.
  induction l as [|x r IH]; simpl; [reflexivity|].
  rewrite filter_app, IH; simpl; destruct (f x); simpl;
    [reflexivity|apply app_nil_r].
Qed.

Lemma keep_digits_trim s : keep_digits (trim s) = keep_digits s.
Proof.
  rewrite !keep_digits_filter; unfold trim.
  rewrite list_ascii_of_string_of_list_ascii, filter_rev_comm, filter_drop_space,
    filter_rev_comm, filter_drop_space, rev_involutive.
  reflexivity.
Qed.

Section PhoneValidation.
Variables (num_trunc : string -> option string) (fails : nat -> bool) (now : Z)
          (fb : auth_service).

Lemma verification_null_phone nm v s :
  normalizePhoneProvided num_trunc v = None ->
  verification num_trunc fails now nm v s = (RRet (RespError 400 msg_invalid_phone), s).
Proof.
  intro Hn; unfold verification, try_catch, verification_body; rewrite Hn; reflexivity.
Qed.

Lemma signup_null_phone rq w pre w1 :
  signup_prefix num_trunc fails rq w = (ROk pre, w1) ->
  normalizePhoneProvided num_trunc (rq_phone rq) = None ->
  run_signup num_trunc fails now fb rq w = (RespError 400 msg_invalid_phone, w1).
Proof.
  intros Hp Hn; unfold run_signup, signup, signup_check, try_catch, bind.
  rewrite Hp; destruct pre as [[[e nm] r] x].
  unfold run_verification; rewrite verification_null_phone by exact Hn.
  reflexivity.
Qed.

End PhoneValidation.

(** C10: the strict phone normaliser answers [null], [""] or ten digits,
    and every user document that a signup leaves in [users] and that was
    not there before (created, or re-applied in place) has a [phone] that
    is [""] or exactly ten digits; whatever the storage faults, the
    numeric conversion and the Firebase Auth answers. *)
Theorem C10_canonical_phone (num_trunc : string -> option string)
    (fails : nat -> bool) (now : Z) (fb : auth_service) (rq : request) (w : world) :
  (forall v, normalizePhoneProvided num_trunc v = None \/
             normalizePhoneProvided num_trunc v = Some "" \/
             exists p, normalizePhoneProvided num_trunc v = Some p /\
                       String.length p = 10 /\ all_digits p = true) /\
  (forall u, In u (w_users (snd (run_signup num_trunc fails now fb rq w))) ->
             In u (w_users w) \/ canonical_phone (field u "phone")).
Proof.
  split; [apply normalizePhoneProvided_shape|].
  rewrite run_signup_state; apply signup_good.
Qed.

(** ** Fault-free registry lookups *)

Lemma first_hit_run (m k : St world (option doc)) w o w1 :
  m w = (ROk o, w1) ->
  first_hit m k w = match o with Some d => (ROk (Some d), w1) | None => k w1 end.
Proof. intro H; unfold first_hit, bind; rewrite H; destruct o; reflexivity. Qed.

Lemma findOneDocument_nf c k v w :
  findOneDocument no_faults c k v w = (ROk (find_by_field k v (coll_docs c w)), tick w).
Proof. destruct c; reflexivity. Qed.

Lemma getDocumentById_nf c id w :
  getDocumentById no_faults c id w = (ROk (find_by_id id (coll_docs c w)), tick w).
Proof. destruct c; reflexivity. Qed.

Lemma getAuthorizedByMemberId_nf v w :
  fst (getAuthorizedByMemberId no_faults v w) =
  ROk (if String.eqb v "" then None
       else spec_lookup "memberId" "memberIdNormalized" v (w_slots w)).
Proof.
  unfold getAuthorizedByMemberId, spec_lookup; destruct (String.eqb v ""); [reflexivity|].
  rewrite (first_hit_run _ _ _ _ _ (getDocumentById_nf _ _ _)); simpl.
  destruct (find_by_id v (w_slots w)); [reflexivity|].
  rewrite (first_hit_run _ _ _ _ _ (findOneDocument_nf _ _ _ _)); simpl.
  destruct (find_by_field "memberId" (JStr v) (w_slots w)); [reflexivity|].
  destruct (maybeNumber v) as [n|].
  - rewrite (first_hit_run _ _ _ _ _ (findOneDocument_nf _ _ _ _)); simpl.
    destruct (find_by_field "memberId" (JNum n) (w_slots w)); [reflexivity|].
    rewrite (first_hit_run _ _ _ _ _ (findOneDocument_nf _ _ _ _)); simpl.
    destruct (find_by_field "memberIdNormalized" (JStr v) (w_slots w)); reflexivity.
  - rewrite (first_hit_run (ret None) _ _ None _ eq_refl).
    rewrite (first_hit_run _ _ _ _ _ (findOneDocument_nf _ _ _ _)); simpl.
    destruct (find_by_field "memberIdNormalized" (JStr v) (w_slots w)); reflexivity.
Qed.

Lemma getAuthorizedByPhone_nf v w :
  fst (getAuthorizedByPhone no_faults v w) =
  ROk (if String.eqb v "" then None
       else field_lookup "phoneNumber" "phoneNormalized" v (w_slots w)).
Proof.
  unfold getAuthorizedByPhone, field_lookup; destruct (String.eqb v ""); [reflexivity|].
  rewrite (first_hit_run _ _ _ _ _ (findOneDocument_nf _ _ _ _)); simpl.
  destruct (find_by_field "phoneNumber" (JStr v) (w_slots w)); [reflexivity|].
  destruct (maybeNumber v) as [n|].
  - rewrite (first_hit_run _ _ _ _ _ (findOneDocument_nf _ _ _ _)); simpl.
    destruct (find_by_field "phoneNumber" (JNum n) (w_slots w)); [reflexivity|].
    rewrite (first_hit_run _ _ _ _ _ (findOneDocument_nf _ _ _ _)); simpl.
    destruct (find_by_field "phoneNormalized" (JStr v) (w_slots w)); reflexivity.
  - rewrite (first_hit_run (ret None) _ _ None _ eq_refl).
    rewrite (first_hit_run _ _ _ _ _ (findOneDocument_nf _ _ _ _)); simpl.
    destruct (find_by_field "phoneNormalized" (JStr v) (w_slots w)); reflexivity.
Qed.

(** C9 (corrected): with storage answering, the member-ID lookup tries
    the document id, then [memberId] equal to the string, then [memberId]
    equal to the number when the value is all digits, then
    [memberIdNormalized], and returns the first hit or [null]; the phone
    lookup has no primary-key step: [phoneNumber] as a string, then as a
    number, then [phoneNormalized].  An empty value gives [null] at once. *)
Theorem C9_lookup_order (v : string) (w : world) :
  fst (getAuthorizedByMemberId no_faults v w) =
    ROk (if String.eqb v "" then None
         else spec_lookup "memberId" "memberIdNormalized" v (w_slots w)) /\
  fst (getAuthorizedByPhone no_faults v w) =
    ROk (if String.eqb v "" then None
         else field_lookup "phoneNumber" "phoneNormalized" v (w_slots w)).
Proof. split; [apply getAuthorizedByMemberId_nf|apply getAuthorizedByPhone_nf]. Qed.

(** C9: a slot stored under the phone number as its document id, with
    no phone field, is found by the four-step order of the claim but not
    by the handler's phone lookup. *)
Lemma C9_counterexample :
  fst (getAuthorizedByPhone no_faults "9876543210"
         (mkWorld [] [mkDoc "9876543210" [("memberId", JStr "M001")]] 0)) = ROk None /\
  spec_lookup "phoneNumber" "phoneNormalized" "9876543210"
    [mkDoc "9876543210" [("memberId", JStr "M001")]]
  = Some (mkDoc "9876543210" [("memberId", JStr "M001")]).
Proof. split; vm_compute; reflexivity. Qed.

(** ** The verification block, storage answering, once a slot is found *)

Lemma verification_body_found num_trunc now nm phone np s l w :
  nm <> "" -> normalizePhoneProvided num_trunc phone = Some np -> np <> "" ->
  handler_lookup nm np (w_slots w) = Some s ->
  exists w1, same_data w w1 /\
    verification_body num_trunc no_faults now nm phone (l, w) =
    evaluate num_trunc no_faults now nm np (Some s) (with_member (Some s) l, w1).
Proof.
  intros Hnm Hn Hnp Hs.
  unfold verification_body; rewrite Hn.
  apply String.eqb_neq in Hnp; rewrite Hnp.
  pose proof (getAuthorizedByMemberId_nf nm w) as F1.
  pose proof (getAuthorizedByMemberId_same no_faults nm w) as S1.
  apply String.eqb_neq in Hnm; rewrite Hnm in F1.
  unfold bind at 1, lift at 1.
  destruct (getAuthorizedByMemberId no_faults nm w) as [r1 w1] eqn:E1.
  simpl in F1, S1; subst r1.
  unfold handler_lookup in Hs.
  destruct (spec_lookup "memberId" "memberIdNormalized" nm (w_slots w)) as [s1|] eqn:L1.
  - injection Hs as <-. exists w1; split; [exact S1|reflexivity].
  - pose proof (getAuthorizedByPhone_nf np w1) as F2.
    pose proof (getAuthorizedByPhone_same no_faults np w1) as S2.
    rewrite Hnp in F2.
    unfold bind, lift, set_member, modify_l.
    destruct (getAuthorizedByPhone no_faults np w1) as [r2 w2] eqn:E2.
    simpl in F2, S2; subst r2.
    rewrite (proj2 S1), Hs.
    exists w2; split; [exact (same_data_trans _ _ _ S1 S2)|].
    destruct l; reflexivity.
Qed.

Lemma run_verification_unused num_trunc now nm phone np s w :
  nm <> "" -> normalizePhoneProvided num_trunc phone = Some np -> np <> "" ->
  handler_lookup nm np (w_slots w) = Some s -> field s "isUsed" <> JBool true ->
  exists w', same_data w w' /\
    run_verification num_trunc no_faults now nm phone w =
    (ROk (if memberIdMatches num_trunc nm s && phoneMatches num_trunc np s
          then with_verified (with_member (Some s) locals0)
          else with_pending (with_member (Some s) locals0)), w').
Proof.
  intros Hnm Hn Hnp Hs Hu.
  destruct (verification_body_found num_trunc now nm phone np s locals0 w Hnm Hn Hnp Hs)
    as [w1 [S1 E1]].
  exists w1; split; [exact S1|].
  unfold run_verification, verification, try_catch; rewrite E1.
  unfold evaluate.
  destruct (jsval_eqb (field s "isUsed") (JBool true)) eqn:Eu;
    [unfold jsval_eqb in Eu; destruct (jsval_eq_dec (field s "isUsed") (JBool true));
     [contradiction|discriminate]|].
  unfold classify; destruct (memberIdMatches num_trunc nm s && phoneMatches num_trunc np s);
    reflexivity.
Qed.

(** C1 (corrected): in the Firestore signup handler, storage answering,
    for a signup whose member ID is non-empty and whose phone normalises
    to a non-empty [np], when the lookup settles on a slot [s] whose
    [isUsed] is not [true], the signup is auto-approved (verified,
    status approved) exactly when the slot's member ID (its [memberId]
    field, or its document id when that field is absent or falsy,
    normalised) is non-empty and equal to the signup's, and its lenient
    phone is non-empty and equal to [np]; otherwise it is pending.  In the
    Mongo handler of [routes/auth.js], a slot with a matching [memberId]
    and no phone on file is auto-approved on that single match, and so is
    a slot with no [memberId] (absent or falsy) whose cleaned phone is
    non-empty and equal to the signup's cleaned phone. *)
Theorem C1_match_classification :
  (forall (num_trunc : string -> option string) (now : Z) (nm : string) (phone : jsval)
          (np : string) (w : world) (s : doc),
     nm <> "" -> normalizePhoneProvided num_trunc phone = Some np -> np <> "" ->
     handler_lookup nm np (w_slots w) = Some s -> field s "isUsed" <> JBool true ->
     exists l w', run_verification num_trunc no_faults now nm phone w = (ROk l, w') /\
       isVerified l = memberIdMatches num_trunc nm s && phoneMatches num_trunc np s /\
       accountStatus l = (if isVerified l then "approved" else "pending") /\
       authorizedMember l = Some s /\ same_data w w') /\
  (forall (nm : string) (phone : jsval) (s : doc),
     js_truthy (field s "memberId") = true -> field s "memberId" = JStr nm ->
     js_truthy (field s "phoneNumber") = false ->
     isVerified (mongo_classify nm phone s) = true) /\
  (forall (nm : string) (phone : jsval) (s : doc),
     js_truthy (field s "memberId") = false ->
     mongo_clean (js_String (js_or (field s "phoneNumber") (JStr ""))) <> "" ->
     mongo_clean (str_nullish phone) =
       mongo_clean (js_String (js_or (field s "phoneNumber") (JStr ""))) ->
     isVerified (mongo_classify nm phone s) = true).
Proof.
  split; [|split].
  - intros num_trunc now nm phone np w s Hnm Hn Hnp Hs Hu.
    destruct (run_verification_unused num_trunc now nm phone np s w Hnm Hn Hnp Hs Hu)
      as [w' [S E]].
    eexists; exists w'; split; [exact E|].
    destruct (memberIdMatches num_trunc nm s && phoneMatches num_trunc np s);
      (split; [reflexivity|split; [reflexivity|split; [reflexivity|exact S]]]).
  - intros nm phone s Ht Hm Hp; unfold mongo_classify, js_or; cbv zeta.
    rewrite Hp, Ht, Hm; simpl.
    unfold jsval_eqb; destruct (jsval_eq_dec (JStr nm) (JStr nm)) as [_|C];
      [|contradiction C; reflexivity].
    rewrite Hm in Ht; simpl in Ht; rewrite Ht; reflexivity.
  - intros nm phone s Hm Hne Heq; unfold mongo_classify; cbv zeta.
    assert (E : js_or (field s "memberId") (JStr "") = JStr "")
      by (unfold js_or; rewrite Hm; reflexivity).
    rewrite E.
    set (ap := mongo_clean (js_String (js_or (field s "phoneNumber") (JStr "")))) in *.
    apply String.eqb_neq in Hne; rewrite Heq, Hne, String.eqb_refl; simpl.
    reflexivity.
Qed.

Lemma C1_witness :
  (exists l w', run_verification num_trunc_nan no_faults 0 "M001" (JStr "9876543211")
                  (mkWorld [] [slot_M001] 0) = (ROk l, w') /\
     isVerified l = memberIdMatches num_trunc_nan "M001" slot_M001
                    && phoneMatches num_trunc_nan "9876543211" slot_M001 /\
     accountStatus l = (if isVerified l then "approved" else "pending") /\
     authorizedMember l = Some slot_M001 /\ same_data (mkWorld [] [slot_M001] 0) w') /\
  isVerified (mongo_classify "M001" (JStr "9876543210") (mkDoc "x" [("memberId", JStr "M001")]))
  = true /\
  isVerified (mongo_classify "M009" (JStr "98765 43210")
                (mkDoc "y" [("phoneNumber", JStr "(98765) 43210")])) = true.
Proof.
  split; [|split].
  - apply (proj1 C1_match_classification num_trunc_nan 0%Z "M001" (JStr "9876543211")
             "9876543211" (mkWorld [] [slot_M001] 0) slot_M001);
      [discriminate|reflexivity|discriminate|vm_compute; reflexivity|discriminate].
  - apply (proj1 (proj2 C1_match_classification) "M001" (JStr "9876543210")
             (mkDoc "x" [("memberId", JStr "M001")])); reflexivity.
  - apply (proj2 (proj2 C1_match_classification) "M009" (JStr "98765 43210")
             (mkDoc "y" [("phoneNumber", JStr "(98765) 43210")]));
      [reflexivity|vm_compute; discriminate|vm_compute; reflexivity].
Defined.

(** C1: a slot with no [memberId] field, stored under the member ID as
    its document id, with a matching phone: the Firestore handler creates
    the account approved; and the Mongo handler verifies a signup on a
    slot with a matching [memberId] and no phone on file. *)
Lemma C1_counterexample :
  match fst (run_signup num_trunc_nan no_faults 0 fb_fresh
               (req "a@x.com" "M001" "9876543210")
               (mkWorld [] [mkDoc "M001" [("phoneNumber", JStr "9876543210");
                                          ("isUsed", JBool false)]] 0)) with
  | RespCreated d => field d "accountStatus" = JStr "approved"
  | _ => False
  end /\
  isVerified (mongo_classify "M001" (JStr "9876543210") (mkDoc "x" [("memberId", JStr "M001")]))
  = true.
Proof. split; vm_compute; reflexivity. Qed.

(** ** The slot claim of the commit half *)

Lemma find_by_id_replace id data c d0 :
  find_by_id id c = Some d0 ->
  find_by_id id (replace_doc (mkDoc id data) c) = Some (mkDoc id data).
Proof.
  unfold find_by_id, replace_doc; induction c as [|d r IH]; simpl; [discriminate|].
  destruct (String.eqb (d_id d) id) eqn:E; simpl.
  - intros _; rewrite String.eqb_refl; reflexivity.
  - rewrite E; exact IH.
Qed.

Lemma commit_claims_slot num_trunc now rq c w s s0 :
  c_reapply c = None -> isVerified (c_locals c) = true ->
  authorizedMember (c_locals c) = Some s ->
  find_by_id (d_id s) (w_slots w) = Some s0 ->
  exists d w', signup_commit num_trunc no_faults now rq c w = (ROk (RespCreated d), w') /\
    d_id d = c_uid c /\
    find_by_id (d_id s) (w_slots w') =
      Some (mkDoc (d_id s) (merge (d_data s0)
              [("isUsed", JBool true); ("usedBy", JStr (c_uid c));
               ("usedAt", JNum now); ("updatedAt", JNum now)])).
Proof.
  intros Hr Hv Hm Hf.
  unfold signup_commit, updateDocument, update_raw, createDocument, op, bind; rewrite Hr.
  cbn -[merge find_by_id replace_doc upsert_doc]; rewrite Hv, Hm.
  cbn -[merge find_by_id replace_doc upsert_doc]; rewrite Hf.
  cbn -[merge find_by_id replace_doc upsert_doc].
  eexists; eexists; split; [reflexivity|split; [reflexivity|]].
  apply (find_by_id_replace _ _ _ s0); exact Hf.
Qed.

(** C2 (corrected): the write that marks a slot used is not conditional.
    Storage answering, a verified signup creating a new user overwrites
    the slot it verified against with [isUsed: true] and [usedBy] its own
    uid whatever the slot holds at that moment (in particular when it is
    already used by another account), and the Mongo [markAsUsed] sets the
    same fields on any slot. *)
Theorem C2_claim_write_unconditional :
  (forall (num_trunc : string -> option string) (now : Z) (rq : request)
          (c : signup_ctx) (w : world) (s s0 : doc),
     c_reapply c = None -> isVerified (c_locals c) = true ->
     authorizedMember (c_locals c) = Some s ->
     find_by_id (d_id s) (w_slots w) = Some s0 ->
     exists d w', signup_commit num_trunc no_faults now rq c w = (ROk (RespCreated d), w') /\
       d_id d = c_uid c /\
       find_by_id (d_id s) (w_slots w') =
         Some (mkDoc (d_id s) (merge (d_data s0)
                 [("isUsed", JBool true); ("usedBy", JStr (c_uid c));
                  ("usedAt", JNum now); ("updatedAt", JNum now)]))) /\
  (forall (now : Z) (u : string) (s : doc),
     d_id (markAsUsed now u s) = d_id s /\
     field (markAsUsed now u s) "isUsed" = JBool true /\
     field (markAsUsed now u s) "usedBy" = JStr u).
Proof.
  split; [exact commit_claims_slot|].
  intros now u s; unfold markAsUsed; split; [reflexivity|].
  split; rewrite field_merge; reflexivity.
Qed.

Lemma C2_witness :
  (exists d w', signup_commit num_trunc_nan no_faults 0%Z (req "b@x.com" "M001" "9876543210")
                  ctx_b (mkWorld [] [slot_M001_used] 0) = (ROk (RespCreated d), w') /\
     d_id d = c_uid ctx_b /\
     find_by_id (d_id slot_M001) (w_slots w') =
       Some (mkDoc (d_id slot_M001) (merge (d_data slot_M001_used)
               [("isUsed", JBool true); ("usedBy", JStr (c_uid ctx_b));
                ("usedAt", JNum 0%Z); ("updatedAt", JNum 0%Z)]))) /\
  field (markAsUsed 0%Z "b" slot_M001_used) "usedBy" = JStr "b".
Proof.
  split.
  - apply (proj1 C2_claim_write_unconditional num_trunc_nan 0%Z
             (req "b@x.com" "M001" "9876543210") ctx_b (mkWorld [] [slot_M001_used] 0)
             slot_M001 slot_M001_used); reflexivity.
  - apply (proj2 C2_claim_write_unconditional 0%Z "b" slot_M001_used).
Defined.

(** C2: two signups for the same member ID and phone, with different
    emails, interleaved at their awaits: both are created approved, and
    the slot ends up claimed by the second one. *)
Lemma C2_counterexample :
  let r := race num_trunc_nan no_faults 0%Z fb_fresh
             (req "a@x.com" "M001" "9876543210") (req "b@x.com" "M001" "9876543210")
             (mkWorld [] [slot_M001] 0) in
  match fst r with
  | ROk (RespCreated d1, RespCreated d2) =>
      field d1 "accountStatus" = JStr "approved" /\ field d2 "accountStatus" = JStr "approved"
  | _ => False
  end /\
  match find_by_id "M001" (w_slots (snd r)) with
  | Some s => field s "usedBy" = JStr "uid:b@x.com" /\ field s "isUsed" = JBool true
  | None => False
  end.
Proof. vm_compute; split; split; reflexivity. Qed.

(** ** The used-slot branch of the match evaluation *)

Lemma updateDocument_nf now c id data w d0 :
  find_by_id id (coll_docs c w) = Some d0 ->
  updateDocument no_faults now c id data w =
  (ROk (Some (mkDoc id (merge (d_data d0) (data ++ [("updatedAt", JNum now)])%list))),
   tick (with_coll c (replace_doc (mkDoc id (merge (d_data d0) (data ++ [("updatedAt", JNum now)])%list))
                        (coll_docs c w)) (tick w))).
Proof.
  intro Hf; unfold updateDocument, update_raw, bind, no_faults.
  replace (coll_docs c (tick w)) with (coll_docs c w) by (destruct c; reflexivity).
  rewrite Hf.
  rewrite getDocumentById_nf.
  replace (coll_docs c (with_coll c _ (tick w))) with
    (replace_doc (mkDoc id (merge (d_data d0) (data ++ [("updatedAt", JNum now)])%list))
       (coll_docs c w)) by (destruct c; reflexivity).
  rewrite (find_by_id_replace _ _ _ d0 Hf); reflexivity.
Qed.

Lemma jsval_eqb_refl v : jsval_eqb v v = true.
Proof. unfold jsval_eqb; destruct (jsval_eq_dec v v); [reflexivity|contradiction n; reflexivity]. Qed.

Lemma evaluate_stale num_trunc now nm np s l w :
  field s "isUsed" = JBool true ->
  memberIdMatches num_trunc nm s || phoneMatches num_trunc np s = true ->
  (js_truthy (field s "usedBy") = false \/
   exists u, field s "usedBy" = JStr u /\ find_by_id u (w_users w) = None) ->
  find_by_id (d_id s) (w_slots w) = Some s ->
  exists w', w_users w' = w_users w /\
    w_slots w' = replace_doc (mkDoc (d_id s) (merge (d_data s) (stale_reset ++ [("updatedAt", JNum now)])%list))
                   (w_slots w) /\
    evaluate num_trunc no_faults now nm np (Some s) (l, w) =
    (ROk tt,
     ((if memberIdMatches num_trunc nm s && phoneMatches num_trunc np s then with_verified else with_pending)
        (with_member (Some (mkDoc (d_id s) (merge (d_data s) stale_reset))) l), w')).
Proof.
  intros Hu Hm Hb Hf.
  assert (Hlook : exists w1, same_data w w1 /\
    (if js_truthy (field s "usedBy")
     then lift (getDocumentById_js no_faults USERS (field s "usedBy"))
     else ret None) (l, w) = (ROk None, (l, w1))).
  { destruct Hb as [Hb|[u [Hb Hn]]].
    - rewrite Hb; exists w; split; [apply same_data_refl|reflexivity].
    - rewrite Hb; destruct (js_truthy (JStr u)).
      + exists (tick w); split; [split; reflexivity|].
        unfold lift, getDocumentById_js; rewrite getDocumentById_nf; simpl; rewrite Hn.
        reflexivity.
      + exists w; split; [apply same_data_refl|reflexivity]. }
  destruct Hlook as [w1 [[S1u S1s] E1]].
  unfold evaluate; rewrite Hu, jsval_eqb_refl, Hm.
  unfold bind at 1; rewrite E1.
  rewrite <- S1s in Hf.
  unfold try_catch, bind, lift.
  rewrite (updateDocument_nf now AUTHORIZED_MEMBERS (d_id s) stale_reset w1 s Hf).
  eexists; split; [|split]; [| |unfold set_member, modify_l, classify, set_verified, set_pending;
    destruct (memberIdMatches num_trunc nm s && phoneMatches num_trunc np s); reflexivity].
  - simpl; exact S1u.
  - simpl; rewrite S1s; reflexivity.
Qed.

Lemma evaluate_live num_trunc now nm np s l w u du :
  field s "isUsed" = JBool true ->
  memberIdMatches num_trunc nm s || phoneMatches num_trunc np s = true ->
  field s "usedBy" = JStr u -> u <> "" -> find_by_id u (w_users w) = Some du ->
  evaluate num_trunc no_faults now nm np (Some s) (l, w) =
  (RRet (RespError 400 msg_already_registered), (l, tick w)).
Proof.
  intros Hu Hm Hb Hne Hf.
  unfold evaluate; rewrite Hu, jsval_eqb_refl, Hm, Hb.
  apply String.eqb_neq in Hne; simpl; rewrite Hne; simpl.
  unfold bind, lift, getDocumentById_js; rewrite getDocumentById_nf; simpl; rewrite Hf.
  reflexivity.
Qed.

Lemma signup_prefix_ok num_trunc fails rq w e nm r x w0 :
  signup_prefix num_trunc fails rq w = (ROk (e, nm, r, x), w0) ->
  nm = normalizeMemberId num_trunc (rq_memberId rq) /\ nm <> "" /\ same_data w w0.
Proof.
  intro H.
  pose proof (signup_prefix_same num_trunc fails rq w) as S; rewrite H in S.
  unfold signup_prefix in H.
  destruct (String.eqb (normalizeMemberId num_trunc (rq_memberId rq)) "") eqn:E;
    [rewrite !orb_true_r in H; discriminate|].
  rewrite !orb_false_r in H.
  destruct (negb (js_truthy (rq_name rq)) || _ || _) eqn:V; [discriminate|].
  unfold bind in H.
  destruct (findOneDocument fails USERS _ _ w) as [[a|a|a] w1]; try discriminate.
  destruct (findOneDocument fails USERS _ _ w1) as [[b|b|b] w2]; try discriminate.
  destruct (reapply_detection _ _ _ _ w2) as [[c|c|c] w3]; try discriminate.
  injection H as <- <- <- <- <-.
  split; [reflexivity|split; [apply String.eqb_neq; exact E|exact S]].
Qed.

(** A verification block that leaves the handler early ends the signup
    with its response, in the state it leaves. *)
Lemma signup_verification_ret num_trunc fails now fb rq w pre w0 resp w1 :
  signup_prefix num_trunc fails rq w = (ROk pre, w0) ->
  run_verification num_trunc fails now (snd (fst (fst pre))) (rq_phone rq) w0 = (RRet resp, w1) ->
  run_signup num_trunc fails now fb rq w = (resp, w1).
Proof.
  intros Hp Hv; unfold run_signup, signup, signup_check, try_catch, bind.
  rewrite Hp; destruct pre as [[[e nm] r] x]; simpl in Hv; rewrite Hv; reflexivity.
Qed.

(** C3: storage answering, for a signup with a non-empty member ID and a
    non-empty normalised phone [np], when the lookup settles on a slot
    [s] marked used, matching the signup's member ID or phone, whose
    [usedBy] is missing (not truthy) or names no user document: the slot
    is written back with [isUsed: false], [usedBy: null], [usedAt: null],
    no user document changes, and the decision is the one for an unused
    slot: verified (approved) exactly when both member ID and phone
    match, pending otherwise. *)
Theorem C3_stale_lock_reset (num_trunc : string -> option string) (now : Z)
    (nm : string) (phone : jsval) (np : string) (w : world) (s : doc) :
  nm <> "" -> normalizePhoneProvided num_trunc phone = Some np -> np <> "" ->
  handler_lookup nm np (w_slots w) = Some s ->
  find_by_id (d_id s) (w_slots w) = Some s ->
  field s "isUsed" = JBool true ->
  memberIdMatches num_trunc nm s || phoneMatches num_trunc np s = true ->
  (js_truthy (field s "usedBy") = false \/
   exists u, field s "usedBy" = JStr u /\ find_by_id u (w_users w) = None) ->
  exists l w' s', run_verification num_trunc no_faults now nm phone w = (ROk l, w') /\
    w_users w' = w_users w /\
    find_by_id (d_id s) (w_slots w') = Some s' /\
    field s' "isUsed" = JBool false /\ field s' "usedBy" = JNull /\ field s' "usedAt" = JNull /\
    isVerified l = memberIdMatches num_trunc nm s && phoneMatches num_trunc np s /\
    accountStatus l = (if isVerified l then "approved" else "pending").
Proof.
  intros Hnm Hn Hnp Hs Hid Hu Hm Hb.
  destruct (verification_body_found num_trunc now nm phone np s locals0 w Hnm Hn Hnp Hs)
    as [w1 [[S1u S1s] E1]].
  rewrite <- S1s in Hid.
  assert (Hb1 : js_truthy (field s "usedBy") = false \/
                exists u, field s "usedBy" = JStr u /\ find_by_id u (w_users w1) = None)
    by (rewrite S1u; exact Hb).
  destruct (evaluate_stale num_trunc now nm np s (with_member (Some s) locals0) w1
              Hu Hm Hb1 Hid) as [w' [Hwu [Hws E2]]].
  unfold run_verification, verification, try_catch; rewrite E1, E2.
  eexists; exists w'; eexists; split; [reflexivity|].
  split; [congruence|].
  split; [rewrite Hws; apply (find_by_id_replace _ _ _ s Hid)|].
  split; [rewrite field_merge; reflexivity|].
  split; [rewrite field_merge; reflexivity|].
  split; [rewrite field_merge; reflexivity|].
  destruct (memberIdMatches num_trunc nm s && phoneMatches num_trunc np s);
    split; reflexivity.
Qed.

(** The stale-lock example of the specification: slot M002 claimed by
    the missing account [ghost], signup M002 with the matching phone. *)
Lemma C3_witness :
  exists l w' s', run_verification num_trunc_nan no_faults 0%Z "M002" (JStr "9876543210")
                    (mkWorld [] [slot_M002_ghost] 0) = (ROk l, w') /\
    w_users w' = [] /\
    find_by_id "M002" (w_slots w') = Some s' /\
    field s' "isUsed" = JBool false /\ field s' "usedBy" = JNull /\ field s' "usedAt" = JNull /\
    isVerified l = memberIdMatches num_trunc_nan "M002" slot_M002_ghost
                   && phoneMatches num_trunc_nan "9876543210" slot_M002_ghost /\
    accountStatus l = (if isVerified l then "approved" else "pending").
Proof.
  apply (C3_stale_lock_reset num_trunc_nan 0%Z "M002" (JStr "9876543210") "9876543210"
           (mkWorld [] [slot_M002_ghost] 0) slot_M002_ghost);
    [discriminate|reflexivity|discriminate|vm_compute; reflexivity|vm_compute; reflexivity
    |reflexivity|vm_compute; reflexivity|right; exists "ghost"; split; reflexivity].
Defined.

(** C4: storage answering, for a signup that passes validation and the
    re-apply detection, with a non-empty normalised phone [np], when the
    lookup settles on a slot [s] marked used, matching the signup's
    member ID or phone, whose [usedBy] names an existing user document:
    the signup ends with the 400 already-registered error and no user or
    slot document is written. *)
Theorem C4_live_claim_rejects (num_trunc : string -> option string) (now : Z)
    (fb : auth_service) (rq : request) (w : world) (e nm : string) (r x : option doc)
    (w0 : world) (np : string) (s : doc) (u : string) (du : doc) :
  signup_prefix num_trunc no_faults rq w = (ROk (e, nm, r, x), w0) ->
  normalizePhoneProvided num_trunc (rq_phone rq) = Some np -> np <> "" ->
  handler_lookup nm np (w_slots w) = Some s ->
  field s "isUsed" = JBool true ->
  memberIdMatches num_trunc nm s || phoneMatches num_trunc np s = true ->
  field s "usedBy" = JStr u -> u <> "" -> find_by_id u (w_users w) = Some du ->
  exists w', run_signup num_trunc no_faults now fb rq w
             = (RespError 400 msg_already_registered, w') /\ same_data w w'.
Proof.
  intros Hp Hn Hnp Hs Hu Hm Hb Hne Hf.
  destruct (signup_prefix_ok _ _ _ _ _ _ _ _ _ Hp) as [_ [Hnm [S0u S0s]]].
  rewrite <- S0s in Hs; rewrite <- S0u in Hf.
  destruct (verification_body_found num_trunc now nm (rq_phone rq) np s locals0 w0
              Hnm Hn Hnp Hs) as [w1 [[S1u S1s] E1]].
  rewrite <- S1u in Hf.
  exists (tick w1); split.
  - apply (signup_verification_ret _ _ _ _ _ _ _ _ _ _ Hp); simpl.
    unfold run_verification, verification, try_catch; rewrite E1.
    rewrite (evaluate_live num_trunc now nm np s _ w1 u du Hu Hm Hb Hne Hf).
    reflexivity.
  - split; simpl; congruence.
Qed.

Lemma C4_witness :
  exists w', run_signup num_trunc_nan no_faults 0%Z fb_fresh (req "a@x.com" "M002" "9876543210")
               (mkWorld [user_ghost] [slot_M002_ghost] 0)
             = (RespError 400 msg_already_registered, w') /\
           same_data (mkWorld [user_ghost] [slot_M002_ghost] 0) w'.
Proof.
  apply (C4_live_claim_rejects num_trunc_nan 0%Z fb_fresh (req "a@x.com" "M002" "9876543210")
           (mkWorld [user_ghost] [slot_M002_ghost] 0) "a@x.com" "M002" None None
           (mkWorld [user_ghost] [slot_M002_ghost] 2) "9876543210" slot_M002_ghost "ghost"
           user_ghost);
    [vm_compute; reflexivity|reflexivity|discriminate|vm_compute; reflexivity|reflexivity
    |vm_compute; reflexivity|reflexivity|discriminate|reflexivity].
Defined.

(** ** A verification error leaves [isVerified] unset *)

Lemma same_verified_refl s : same_verified s s.
Proof. reflexivity. Qed.
Lemma same_verified_trans s1 s2 s3 :
  same_verified s1 s2 -> same_verified s2 s3 -> same_verified s1 s3.
Proof. unfold same_verified; congruence. Qed.

Lemma lift_same_verified {A} (m : St world A) : stays same_verified (lift m).
Proof. intros [l w]; unfold lift, same_verified; destruct (m w); reflexivity. Qed.

Lemma set_member_same_verified m : stays same_verified (set_member m).
Proof. intros [l w]; reflexivity. Qed.

Lemma set_pending_same_verified : stays same_verified set_pending.
Proof. intros [l w]; reflexivity. Qed.

Lemma tkv_of_stays {A} (m : St VS A) : stays same_verified m -> throw_keeps_verified m.
Proof. intros H s e s' E; pose proof (H s) as Hs; rewrite E in Hs; exact Hs. Qed.

Lemma tkv_bind {A B} (m : St VS A) (f : A -> St VS B) :
  stays same_verified m -> (forall a, throw_keeps_verified (f a)) ->
  throw_keeps_verified (bind m f).
Proof.
  intros Hm Hf s e s'; unfold bind.
  pose proof (Hm s) as H1.
  destruct (m s) as [[a|e1|r1] s1]; simpl in H1; intro E; try discriminate.
  - rewrite (Hf a s1 e s' E); exact H1.
  - injection E as _ <-; exact H1.
Qed.

Lemma tkv_classify num_trunc nm np s : throw_keeps_verified (classify num_trunc nm np s).
Proof.
  intros [l w] e s'; unfold classify, set_verified, set_pending, modify_l.
  destruct (_ && _); discriminate.
Qed.

Ltac sv_step :=
  first [ apply lift_same_verified | apply set_member_same_verified
        | apply set_pending_same_verified
        | apply stays_ret, same_verified_refl | apply stays_early, same_verified_refl
        | apply stays_throw, same_verified_refl ].

Lemma tkv_evaluate num_trunc fails now nm np am :
  throw_keeps_verified (evaluate num_trunc fails now nm np am).
Proof.
  unfold evaluate; destruct am as [s|]; [|apply tkv_of_stays; sv_step].
  destruct (jsval_eqb _ _); [|apply tkv_classify].
  destruct (_ || _); [|apply tkv_of_stays; sv_step].
  apply tkv_bind; [destruct (js_truthy _); sv_step|intros [u|]].
  - apply tkv_of_stays; sv_step.
  - apply tkv_bind; [|intro; apply tkv_classify].
    apply stays_try_catch; [exact same_verified_trans| |intro; sv_step].
    apply stays_bind; [exact same_verified_trans|sv_step|intro; sv_step].
Qed.

Lemma tkv_verification_body num_trunc fails now nm phone :
  throw_keeps_verified (verification_body num_trunc fails now nm phone).
Proof.
  unfold verification_body.
  destruct (normalizePhoneProvided num_trunc phone) as [np|]; [|apply tkv_of_stays; sv_step].
  destruct (String.eqb np ""); [apply tkv_of_stays; sv_step|].
  apply tkv_bind; [sv_step|intro am1].
  apply tkv_bind; [sv_step|intros _].
  apply tkv_bind; [|intro; apply tkv_evaluate].
  destruct am1; [sv_step|].
  apply stays_bind; [exact same_verified_trans|sv_step|intro].
  apply stays_bind; [exact same_verified_trans|sv_step|intro; sv_step].
Qed.

(** ** What the commit half returns and leaves in [authorizedMembers] *)

Lemma find_by_id_replace_inv id data c d :
  find_by_id id (replace_doc (mkDoc id data) c) = Some d -> d = mkDoc id data.
Proof.
  unfold find_by_id, replace_doc; induction c as [|d' r IH]; simpl; [discriminate|].
  destruct (String.eqb (d_id d') id) eqn:E; simpl.
  - rewrite String.eqb_refl; intro H; injection H as <-; reflexivity.
  - rewrite E; exact IH.
Qed.

Lemma updateDocument_ok fails now c id data w d w' :
  updateDocument fails now c id data w = (ROk (Some d), w') ->
  exists old, d = mkDoc id (merge old (data ++ [("updatedAt", JNum now)])%list).
Proof.
  unfold updateDocument, update_raw, bind.
  destruct (fails (w_ops w)); [discriminate|].
  destruct (find_by_id id (coll_docs c (tick w))) as [d0|]; [|discriminate].
  unfold getDocumentById, op.
  destruct (fails _); [discriminate|].
  intro H; injection H as H _.
  exists (d_data d0).
  apply find_by_id_replace_inv with (c := coll_docs c (tick w)).
  destruct c; exact H.
Qed.

Lemma commit_tail fails now (l : vlocals) (saved : doc) w d w' :
  (match isVerified l, authorizedMember l with
   | true, Some s =>
       updateDocument fails now AUTHORIZED_MEMBERS (d_id s)
         [("isUsed", JBool true); ("usedBy", JStr (d_id saved)); ("usedAt", JNum now)] ;;;
       ret (RespCreated saved)
   | _, _ => ret (RespCreated saved)
   end) w = (ROk (RespCreated d), w') -> d = saved.
Proof.
  destruct (isVerified l), (authorizedMember l) as [s|];
    try (intro H; injection H as <- _; reflexivity).
  unfold bind; destruct (updateDocument _ _ _ _ _ w) as [[]]; try discriminate.
  intro H; injection H as <- _; reflexivity.
Qed.

Lemma signup_commit_status num_trunc fails now rq c w d w' :
  signup_commit num_trunc fails now rq c w = (ROk (RespCreated d), w') ->
  field d "accountStatus" = JStr (accountStatus (c_locals c)).
Proof.
  unfold signup_commit; unfold bind at 1.
  destruct (c_reapply c) as [u|].
  - unfold bind at 1.
    destruct (updateDocument fails now USERS (d_id u) _ w) as [[[d0|]|e|r] w1] eqn:E;
      try discriminate.
    intro H; apply commit_tail in H; subst d.
    destruct (updateDocument_ok _ _ _ _ _ _ _ _ E) as [old ->].
    rewrite field_merge; reflexivity.
  - unfold createDocument, op.
    destruct (fails (w_ops w)); [discriminate|].
    intro H; apply commit_tail in H; subst d; reflexivity.
Qed.

Lemma same_slots_refl w : same_slots w w.
Proof. reflexivity. Qed.
Lemma same_slots_trans w1 w2 w3 : same_slots w1 w2 -> same_slots w2 w3 -> same_slots w1 w3.
Proof. unfold same_slots; congruence. Qed.

Lemma signup_commit_slots num_trunc fails now rq c :
  isVerified (c_locals c) = false ->
  stays same_slots (signup_commit num_trunc fails now rq c).
Proof.
  intro Hv; unfold signup_commit; rewrite Hv.
  apply stays_bind; [exact same_slots_trans| |intro; apply stays_ret, same_slots_refl].
  destruct (c_reapply c) as [u|].
  - apply stays_bind; [exact same_slots_trans| |intros [d|];
      [apply stays_ret, same_slots_refl|apply stays_throw, same_slots_refl]].
    unfold updateDocument.
    apply stays_bind; [exact same_slots_trans| |intro].
    + intro w; unfold update_raw.
      destruct (fails (w_ops w)); [reflexivity|].
      destruct (find_by_id _ _); reflexivity.
    + intro w; pose proof (getDocumentById_same fails USERS (d_id u) w) as [_ H]; exact H.
  - intro w; unfold createDocument, op.
    destruct (fails (w_ops w)); reflexivity.
Qed.

(** ** Early answers of the signup handler *)

Lemma no_ret_ret {A} (a : A) : no_ret (ret a).
Proof. intros w r w' H; discriminate. Qed.
Lemma no_ret_throw {A} e : no_ret (@throw world A e).
Proof. intros w r w' H; discriminate. Qed.
Lemma no_ret_op {A} fails (f : world -> A * world) : no_ret (op fails f).
Proof.
  intros w r w'; unfold op; destruct (fails (w_ops w)); [discriminate|].
  destruct (f (tick w)); discriminate.
Qed.
Lemma no_ret_bind {A B} (m : St world A) (f : A -> St world B) :
  no_ret m -> (forall a, no_ret (f a)) -> no_ret (bind m f).
Proof.
  intros Hm Hf w r w'; unfold bind.
  destruct (m w) as [[a|e|r0] w1] eqn:E; [apply Hf|discriminate|].
  exfalso; exact (Hm w r0 w1 E).
Qed.
Lemma no_ret_updateDocument fails now c id data : no_ret (updateDocument fails now c id data).
Proof.
  unfold updateDocument; apply no_ret_bind; [|intro; apply no_ret_op].
  intros w r w'; unfold update_raw; destruct (fails (w_ops w)); [discriminate|].
  destruct (find_by_id _ _); discriminate.
Qed.
Lemma firebase_phase_ret fb email r x w resp w' :
  firebase_phase fb email r x w = (RRet resp, w') -> exists c m, resp = RespError c m.
Proof.
  unfold firebase_phase, bind, ret, early; cbv zeta.
  repeat match goal with
         | |- context [match ?t with _ => _ end] =>
             lazymatch t with
             | context [match _ with _ => _ end] => fail
             | _ => destruct t; cbv beta iota
             end
         end;
  intro H; try discriminate; injection H as <- _; eauto.
Qed.

Lemma signup_commit_no_ret num_trunc fails now rq c :
  no_ret (signup_commit num_trunc fails now rq c).
Proof.
  unfold signup_commit; apply no_ret_bind.
  - destruct (c_reapply c) as [u|].
    + apply no_ret_bind; [apply no_ret_updateDocument|].
      intros [d|]; [apply no_ret_ret|apply no_ret_throw].
    + unfold createDocument; apply no_ret_op.
  - intro saved; destruct (isVerified (c_locals c)), (authorizedMember (c_locals c));
      try apply no_ret_ret.
    apply no_ret_bind; [apply no_ret_updateDocument|intro; apply no_ret_ret].
Qed.

Lemma verification_empty_phone num_trunc fails now nm v s :
  normalizePhoneProvided num_trunc v = Some "" ->
  verification num_trunc fails now nm v s = (ROk tt, (with_pending (fst s), snd s)).
Proof.
  intro Hn; destruct s as [l w].
  unfold verification, try_catch, verification_body; rewrite Hn; reflexivity.
Qed.

(** A signup past validation whose phone normalises to [""]: the
    verification makes no read and yields pending locals, and a created
    user is pending. *)
Lemma signup_empty_phone num_trunc fails now fb rq w pre w1 d w' :
  signup_prefix num_trunc fails rq w = (ROk pre, w1) ->
  normalizePhoneProvided num_trunc (rq_phone rq) = Some "" ->
  run_signup num_trunc fails now fb rq w = (RespCreated d, w') ->
  field d "accountStatus" = JStr "pending".
Proof.
  intros Hp Hn; destruct pre as [[[e nm] r] x].
  unfold run_signup, signup, signup_check, try_catch, bind at 1.
  unfold bind at 1; rewrite Hp.
  unfold bind at 1, run_verification; rewrite verification_empty_phone by exact Hn.
  cbn [fst snd].
  unfold bind at 1.
  destruct (firebase_phase fb e r x w1) as [[uid|m|resp] w2] eqn:F.
  - unfold ret.
    destruct (signup_commit num_trunc fails now rq
                (mkCtx e nm r (with_pending locals0) uid) w2) as [[resp|m|resp] w3] eqn:C.
    + intro H; injection H as -> _.
      rewrite (signup_commit_status _ _ _ _ _ _ _ _ C); reflexivity.
    + discriminate.
    + exfalso; exact (signup_commit_no_ret _ _ _ _ _ _ _ _ C).
  - discriminate.
  - destruct (firebase_phase_ret _ _ _ _ _ _ _ F) as [c0 [m0 ->]]; discriminate.
Qed.

(** C5 (corrected): for the strict normaliser, with [num_trunc raw]
    standing for [String(Math.trunc(Number(raw)))] when that number is
    finite and for nothing otherwise: an input empty after trimming gives
    [""]; on an input whose trimmed text has no [.], [e] or [E], the
    non-digits are stripped and the rule applied (11 digits with a
    leading [0] and 12 digits with a leading [91] lose the prefix, 10
    digits stay, any other length is [null]), except that no digit at all
    gives [""], not [null]; on an input with [.], [e] or [E], the digits
    come from [String(Math.trunc(Number(raw)))] when the number is finite
    and from the input itself otherwise, under the same rule; ["123"] and
    ["12345678901234"] give [null]; once validation and the re-apply
    detection have passed, a [null] phone ends the signup with the 400
    invalid-phone error before any registry read, with no write; and a
    phone normalised to [""] makes the verification yield pending locals
    without any read, so that a user the signup creates is pending. *)
Theorem C5_strict_phone (num_trunc : string -> option string)
    (fails : nat -> bool) (now : Z) (fb : auth_service) :
  (forall v, trim (str_nullish v) = "" -> normalizePhoneProvided num_trunc v = Some "") /\
  (forall v, has_e_or_dot (trim (str_nullish v)) = false ->
     normalizePhoneProvided num_trunc v =
     if String.eqb (keep_digits (str_nullish v)) "" then Some ""
     else spec_strict_digits (keep_digits (str_nullish v))) /\
  (forall v t, has_e_or_dot (trim (str_nullish v)) = true ->
     num_trunc (trim (str_nullish v)) = Some t ->
     normalizePhoneProvided num_trunc v =
     if String.eqb (keep_digits t) "" then Some "" else spec_strict_digits (keep_digits t)) /\
  (forall v, has_e_or_dot (trim (str_nullish v)) = true ->
     num_trunc (trim (str_nullish v)) = None ->
     normalizePhoneProvided num_trunc v =
     if String.eqb (keep_digits (str_nullish v)) "" then Some ""
     else spec_strict_digits (keep_digits (str_nullish v))) /\
  normalizePhoneProvided num_trunc (JStr "123") = None /\
  normalizePhoneProvided num_trunc (JStr "12345678901234") = None /\
  (forall rq w pre w1,
     signup_prefix num_trunc fails rq w = (ROk pre, w1) ->
     normalizePhoneProvided num_trunc (rq_phone rq) = None ->
     run_signup num_trunc fails now fb rq w = (RespError 400 msg_invalid_phone, w1) /\
     same_data w w1) /\
  (forall nm v w,
     normalizePhoneProvided num_trunc v = Some "" ->
     run_verification num_trunc fails now nm v w = (ROk (with_pending locals0), w)) /\
  (forall rq w pre w1 d w',
     signup_prefix num_trunc fails rq w = (ROk pre, w1) ->
     normalizePhoneProvided num_trunc (rq_phone rq) = Some "" ->
     run_signup num_trunc fails now fb rq w = (RespCreated d, w') ->
     field d "accountStatus" = JStr "pending").
Proof.
  split; [|split; [|split; [|split; [|split; [reflexivity|split; [reflexivity|split; [|split]]]]]]].
  - intros v He; unfold normalizePhoneProvided; rewrite He; reflexivity.
  - intros v He; rewrite normalizePhoneProvided_eq; cbv zeta.
    rewrite He, keep_digits_trim; reflexivity.
  - intros v t He Ht; rewrite normalizePhoneProvided_eq; cbv zeta.
    rewrite He, Ht; reflexivity.
  - intros v He Ht; rewrite normalizePhoneProvided_eq; cbv zeta.
    rewrite He, Ht, keep_digits_trim; reflexivity.
  - intros rq w pre w1 Hp Hn; split; [eapply signup_null_phone; eassumption|].
    pose proof (signup_prefix_same num_trunc fails rq w) as H; rewrite Hp in H; exact H.
  - intros nm v w Hn; unfold run_verification.
    rewrite verification_empty_phone by exact Hn; reflexivity.
  - intros rq w pre w1 d w' Hp Hn; eapply signup_empty_phone; eassumption.
Qed.

(** [Number("9.876543210E9")] is finite and truncates to ten digits. *)
Definition num_trunc_sci : string -> option string :=
  fun s => if String.eqb s "9.876543210E9" then Some "9876543210" else None.

Lemma C5_witness :
  normalizePhoneProvided num_trunc_nan (JStr "   ") = Some "" /\
  normalizePhoneProvided num_trunc_nan (JStr "+91 98765-43210") = Some "9876543210" /\
  normalizePhoneProvided num_trunc_sci (JStr " 9.876543210E9") = Some "9876543210" /\
  normalizePhoneProvided num_trunc_nan (JStr "098765.43210") = Some "9876543210" /\
  run_signup num_trunc_nan no_faults 0 fb_fresh (req "a@x.com" "M001" "123")
    (mkWorld [] [] 0) = (RespError 400 msg_invalid_phone, mkWorld [] [] 2) /\
  run_verification num_trunc_nan no_faults 0 "M001" (JStr "") (mkWorld [] [slot_M001] 0)
    = (ROk (with_pending locals0), mkWorld [] [slot_M001] 0) /\
  exists d w', run_signup num_trunc_nan no_faults 0 fb_fresh (req "a@x.com" "M001" "")
                 (mkWorld [] [slot_M001] 0) = (RespCreated d, w') /\
               field d "accountStatus" = JStr "pending".
Proof.
  pose proof (C5_strict_phone num_trunc_nan no_faults 0 fb_fresh) as
    [H1 [H2 [_ [H4 [_ [_ [H7 [H8 H9]]]]]]]].
  pose proof (C5_strict_phone num_trunc_sci no_faults 0 fb_fresh) as [_ [_ [H3 _]]].
  split; [apply H1; reflexivity|].
  split; [rewrite (H2 (JStr "+91 98765-43210") eq_refl); reflexivity|].
  split; [rewrite (H3 (JStr " 9.876543210E9") "9876543210" eq_refl eq_refl); reflexivity|].
  split; [rewrite (H4 (JStr "098765.43210") eq_refl eq_refl); reflexivity|].
  split; [apply (H7 (req "a@x.com" "M001" "123") (mkWorld [] [] 0)
                   ("a@x.com", "M001", None, None) (mkWorld [] [] 2)); reflexivity|].
  split; [apply H8; reflexivity|].
  do 2 eexists; split; [vm_compute; reflexivity|].
  eapply (H9 (req "a@x.com" "M001" "") (mkWorld [] [slot_M001] 0)
            ("a@x.com", "M001", None, None) (mkWorld [] [slot_M001] 2));
    [reflexivity|reflexivity|vm_compute; reflexivity].
Defined.

(** C5: an input with no digit at all is not rejected: the handler's
    normaliser gives [""] (the signup goes on, pending) where stripping
    the non-digits and applying the length rule gives [null]. *)
Lemma C5_counterexample :
  normalizePhoneProvided num_trunc_nan (JStr "abc") = Some "" /\
  spec_normalizePhone (JStr "abc") = None.
Proof. split; reflexivity. Qed.

(** C6: whatever the storage faults, when the body of the verification
    block throws (a failed lookup, a failed read of the claiming user, a
    non-string [usedBy]), the block does not propagate the error: it
    yields the locals of that moment made pending ([isVerified] false,
    status pending, verification pending_admin) and the handler goes on;
    a commit with such pending locals returns a user with status
    pending and does not touch [authorizedMembers]. *)
Theorem C6_verification_error_pending :
  (forall (num_trunc : string -> option string) (fails : nat -> bool) (now : Z)
          (nm : string) (phone : jsval) (w : world) (e : string) (l : vlocals) (w' : world),
     verification_body num_trunc fails now nm phone (locals0, w) = (RThrow e, (l, w')) ->
     run_verification num_trunc fails now nm phone w = (ROk (with_pending l), w') /\
     isVerified (with_pending l) = false /\ accountStatus (with_pending l) = "pending" /\
     verificationStatus (with_pending l) = "pending_admin") /\
  (forall (num_trunc : string -> option string) (fails : nat -> bool) (now : Z)
          (rq : request) (c : signup_ctx) (w : world) (d : doc) (w' : world) (l : vlocals),
     c_locals c = with_pending l -> isVerified l = false ->
     signup_commit num_trunc fails now rq c w = (ROk (RespCreated d), w') ->
     field d "accountStatus" = JStr "pending" /\ w_slots w' = w_slots w).
Proof.
  split.
  - intros num_trunc fails now nm phone w e l w' H.
    pose proof (tkv_verification_body num_trunc fails now nm phone _ _ _ H) as Hv.
    unfold run_verification, verification, try_catch; rewrite H.
    split; [reflexivity|split; [exact Hv|split; reflexivity]].
  - intros num_trunc fails now rq c w d w' l Hc Hv H; split.
    + rewrite (signup_commit_status _ _ _ _ _ _ _ _ H), Hc; reflexivity.
    + pose proof (signup_commit_slots num_trunc fails now rq c) as S.
      rewrite Hc in S; specialize (S Hv w); rewrite H in S; exact S.
Qed.

Lemma C6_witness :
  (run_verification num_trunc_nan all_faults 0%Z "M001" (JStr "9876543210") (mkWorld [] [] 0)
   = (ROk (with_pending locals0), mkWorld [] [] 1) /\
   isVerified (with_pending locals0) = false /\ accountStatus (with_pending locals0) = "pending" /\
   verificationStatus (with_pending locals0) = "pending_admin") /\
  exists d w', signup_commit num_trunc_nan no_faults 0%Z (req "a@x.com" "M001" "9876543210")
                 (mkCtx "a@x.com" "M001" None (with_pending locals0) "uid:a@x.com")
                 (mkWorld [] [slot_M001] 0) = (ROk (RespCreated d), w') /\
               field d "accountStatus" = JStr "pending" /\ w_slots w' = [slot_M001].
Proof.
  split.
  - apply (proj1 C6_verification_error_pending num_trunc_nan all_faults 0%Z "M001"
             (JStr "9876543210") (mkWorld [] [] 0) "storage error" locals0 (mkWorld [] [] 1)).
    reflexivity.
  - do 2 eexists; split; [reflexivity|].
    apply (proj2 C6_verification_error_pending num_trunc_nan no_faults 0%Z
             (req "a@x.com" "M001" "9876543210")
             (mkCtx "a@x.com" "M001" None (with_pending locals0) "uid:a@x.com")
             (mkWorld [] [slot_M001] 0) _ _ locals0); reflexivity.
Defined.

(** ** Re-application *)

Lemma signup_state_of_check num_trunc fails now fb rq w c w1 :
  signup_check num_trunc fails now fb rq w = (ROk c, w1) ->
  snd (run_signup num_trunc fails now fb rq w) = snd (signup_commit num_trunc fails now rq c w1).
Proof.
  intro H; rewrite run_signup_state; unfold signup, try_catch, bind; rewrite H.
  destruct (signup_commit num_trunc fails now rq c w1) as [[] w2]; reflexivity.
Qed.

Lemma reapply_detection_from email nm eM eE s u s' :
  reapply_detection email nm eM eE s = (ROk (Some u), s') -> eM = Some u \/ eE = Some u.
Proof.
  unfold reapply_detection, bind.
  destruct eM as [m|]; [destruct (_ && _)|]; simpl; try discriminate;
    destruct eE as [e|]; try (intro H; injection H as -> _; auto);
    try (destruct (_ && _); simpl; try discriminate; intro H; injection H as -> _; auto);
    destruct (negb _); simpl; try discriminate; intro H; injection H as -> _; auto.
Qed.

Lemma find_by_field_id k v c u :
  find_by_field k v c = Some u -> exists d, find_by_id (d_id u) c = Some d.
Proof.
  unfold find_by_field, find_by_id; intro H.
  apply find_some in H as [Hin _].
  destruct (find (fun d => String.eqb (d_id d) (d_id u)) c) as [d|] eqn:E; [eauto|].
  exfalso; apply (find_none _ _ E) in Hin; rewrite String.eqb_refl in Hin; discriminate.
Qed.

Lemma signup_check_reapply num_trunc fails now fb rq w c w1 u :
  signup_check num_trunc fails now fb rq w = (ROk c, w1) -> c_reapply c = Some u ->
  w_users w1 = w_users w /\ exists d, find_by_id (d_id u) (w_users w) = Some d.
Proof.
  intros H Hr.
  pose proof (signup_check_users num_trunc fails now fb rq w) as S; rewrite H in S.
  split; [exact S|].
  unfold signup_check, bind in H.
  destruct (signup_prefix num_trunc fails rq w) as [[[[[e nm] r] x]|e|r] w0] eqn:Ep;
    try discriminate.
  destruct (run_verification _ _ _ _ _ w0) as [[l|e'|r'] w2]; try discriminate.
  destruct (firebase_phase _ _ _ _ w2) as [[uid|e'|r'] w3]; try discriminate.
  injection H as <- _; simpl in Hr; subst r.
  unfold signup_prefix in Ep.
  destruct (_ || _ || _ || _); [discriminate|].
  unfold bind in Ep.
  destruct (findOneDocument fails USERS "memberId" _ w) as [[a|a|a] w4] eqn:E1;
    try discriminate.
  destruct (findOneDocument fails USERS "email" _ w4) as [[b|b|b] w5] eqn:E2;
    try discriminate.
  destruct (reapply_detection _ _ a b w5) as [[c'|c'|c'] w6] eqn:E3; try discriminate.
  injection Ep as _ _ -> _ _.
  pose proof (findOneDocument_same fails USERS "memberId" (JStr (normalizeMemberId num_trunc (rq_memberId rq))) w) as S1.
  rewrite E1 in S1; destruct S1 as [S1 _]; simpl in S1.
  apply reapply_detection_from in E3 as [->| ->].
  - unfold findOneDocument, op in E1; destruct (fails (w_ops w)); [discriminate|].
    injection E1 as E1 _; eapply find_by_field_id; exact E1.
  - unfold findOneDocument, op in E2; destruct (fails (w_ops w4)); [discriminate|].
    injection E2 as E2 _; simpl in E2; rewrite S1 in E2.
    eapply find_by_field_id; exact E2.
Qed.

Lemma commit_tail_users fails now (l : vlocals) (saved : doc) w :
  w_users (snd ((match isVerified l, authorizedMember l with
                 | true, Some s =>
                     updateDocument fails now AUTHORIZED_MEMBERS (d_id s)
                       [("isUsed", JBool true); ("usedBy", JStr (d_id saved));
                        ("usedAt", JNum now)] ;;;
                     ret (RespCreated saved)
                 | _, _ => ret (RespCreated saved)
                 end) w)) = w_users w.
Proof.
  destruct (isVerified l), (authorizedMember l) as [s|]; try reflexivity.
  unfold bind; pose proof (updateDocument_slots_users fails now (d_id s)
    [("isUsed", JBool true); ("usedBy", JStr (d_id saved)); ("usedAt", JNum now)] w) as U.
  destruct (updateDocument fails now AUTHORIZED_MEMBERS _ _ w) as [[]]; exact U.
Qed.

Lemma commit_reapply_users num_trunc now rq c w u d0 :
  c_reapply c = Some u -> find_by_id (d_id u) (w_users w) = Some d0 ->
  w_users (snd (signup_commit num_trunc no_faults now rq c w)) =
  replace_doc (mkDoc (d_id u) (merge (d_data d0)
                 ((userData num_trunc rq c ++ reapply_patch now) ++ [("updatedAt", JNum now)])%list))
              (w_users w).
Proof.
  intros Hr Hf.
  unfold signup_commit; unfold bind at 1; rewrite Hr; unfold bind at 1.
  rewrite (updateDocument_nf now USERS (d_id u) _ w d0 Hf).
  unfold ret at 1.
  rewrite commit_tail_users; reflexivity.
Qed.

Lemma signup_prefix_ret num_trunc fails now fb rq w r w1 :
  signup_prefix num_trunc fails rq w = (RRet r, w1) ->
  run_signup num_trunc fails now fb rq w = (r, w1).
Proof.
  intro H; unfold run_signup, signup, signup_check, try_catch, bind; rewrite H; reflexivity.
Qed.

Lemma signup_prefix_nf num_trunc rq w :
  js_truthy (rq_name rq) = true -> js_truthy (rq_password rq) = true ->
  js_lower (trim (str_nullish (rq_email rq))) <> "" ->
  normalizeMemberId num_trunc (rq_memberId rq) <> "" ->
  signup_prefix num_trunc no_faults rq w =
  (let email := js_lower (trim (str_nullish (rq_email rq))) in
   let nm := normalizeMemberId num_trunc (rq_memberId rq) in
   reapply <- reapply_detection email nm
                (find_by_field "memberId" (JStr nm) (w_users w))
                (find_by_field "email" (JStr email) (w_users w)) ;;
   ret (email, nm, reapply, find_by_field "email" (JStr email) (w_users w)))
    (tick (tick w)).
Proof.
  intros Hn Hp He Hm; unfold signup_prefix; cbv zeta.
  rewrite Hn, Hp; apply String.eqb_neq in He, Hm; rewrite He, Hm; simpl.
  reflexivity.
Qed.

(** C7 (corrected): storage answering.  (1) When the signup goes through
    validation, verification and Firebase Auth as a re-application of a
    user [u], the write updates [u] in place: the user document ids are
    those before the signup (no new record), and the document under
    [u]'s id has [rejectionReason] [""], [reappliedAt] set and the new
    status.  (2) A signup whose member ID is that of a user (the first in
    query order) with another email or a status other than pending or
    rejected ends with the 400 Member-ID error and no write.  (3) A
    signup whose member ID is unused but whose email is that of a user
    with another member ID or a status other than pending or rejected
    ends with the 400 user-exists error and no write.  So a re-application
    needs a user matching both the email and the member ID. *)
Theorem C7_reapply_in_place :
  (forall (num_trunc : string -> option string) (now : Z) (fb : auth_service)
          (rq : request) (w : world) (c : signup_ctx) (w1 : world) (u : doc),
     signup_check num_trunc no_faults now fb rq w = (ROk c, w1) -> c_reapply c = Some u ->
     map d_id (w_users (snd (run_signup num_trunc no_faults now fb rq w))) =
       map d_id (w_users w) /\
     exists d, find_by_id (d_id u) (w_users (snd (run_signup num_trunc no_faults now fb rq w)))
                 = Some d /\
       field d "rejectionReason" = JStr "" /\ field d "reappliedAt" = JNum now /\
       field d "accountStatus" = JStr (accountStatus (c_locals c))) /\
  (forall (num_trunc : string -> option string) (now : Z) (fb : auth_service)
          (rq : request) (w : world) (u : doc),
     js_truthy (rq_name rq) = true -> js_truthy (rq_password rq) = true ->
     js_lower (trim (str_nullish (rq_email rq))) <> "" ->
     normalizeMemberId num_trunc (rq_memberId rq) <> "" ->
     find_by_field "memberId" (JStr (normalizeMemberId num_trunc (rq_memberId rq))) (w_users w)
       = Some u ->
     field u "email" <> JStr (js_lower (trim (str_nullish (rq_email rq))))
       \/ isReapplicable u = false ->
     run_signup num_trunc no_faults now fb rq w =
       (RespError 400 "Member ID already exists. Please use a different Member ID.",
        tick (tick w))) /\
  (forall (num_trunc : string -> option string) (now : Z) (fb : auth_service)
          (rq : request) (w : world) (e : doc),
     js_truthy (rq_name rq) = true -> js_truthy (rq_password rq) = true ->
     js_lower (trim (str_nullish (rq_email rq))) <> "" ->
     normalizeMemberId num_trunc (rq_memberId rq) <> "" ->
     find_by_field "memberId" (JStr (normalizeMemberId num_trunc (rq_memberId rq))) (w_users w)
       = None ->
     find_by_field "email" (JStr (js_lower (trim (str_nullish (rq_email rq))))) (w_users w)
       = Some e ->
     field e "memberId" <> JStr (normalizeMemberId num_trunc (rq_memberId rq))
       \/ isReapplicable e = false ->
     run_signup num_trunc no_faults now fb rq w =
       (RespError 400 "User already exists with this email", tick (tick w))).
Proof.
  split; [|split].
  - intros num_trunc now fb rq w c w1 u H Hr.
    destruct (signup_check_reapply _ _ _ _ _ _ _ _ _ H Hr) as [Hu [d0 Hf]].
    rewrite (signup_state_of_check _ _ _ _ _ _ _ _ H).
    rewrite <- Hu in Hf.
    rewrite (commit_reapply_users num_trunc now rq c w1 u d0 Hr Hf).
    split; [rewrite map_id_replace_doc; congruence|].
    eexists; split; [apply (find_by_id_replace _ _ _ d0 Hf)|].
    split; [|split]; rewrite field_merge; reflexivity.
  - intros num_trunc now fb rq w u Hn Hp He Hm Hu Hc.
    apply signup_prefix_ret.
    rewrite (signup_prefix_nf num_trunc rq w Hn Hp He Hm); cbv zeta.
    rewrite Hu; unfold bind, reapply_detection.
    replace (jsval_eqb (field u "email") (JStr (js_lower (trim (str_nullish (rq_email rq)))))
             && isReapplicable u) with false; [reflexivity|].
    destruct Hc as [Hc|Hc]; [|rewrite Hc, andb_false_r; reflexivity].
    unfold jsval_eqb; destruct (jsval_eq_dec _ _); [contradiction|reflexivity].
  - intros num_trunc now fb rq w e Hn Hp He Hm Hu He2 Hc.
    apply signup_prefix_ret.
    rewrite (signup_prefix_nf num_trunc rq w Hn Hp He Hm); cbv zeta.
    rewrite Hu, He2; unfold bind, reapply_detection; simpl.
    replace (jsval_eqb (field e "memberId") (JStr (normalizeMemberId num_trunc (rq_memberId rq)))
             && isReapplicable e) with false; [reflexivity|].
    destruct Hc as [Hc|Hc]; [|rewrite Hc, andb_false_r; reflexivity].
    unfold jsval_eqb; destruct (jsval_eq_dec _ _); [contradiction|reflexivity].
Qed.

(** The re-application example of the specification (rejected user with
    member ID M003 signs up again with the same email and member ID), and
    an email collision with an approved user. *)
Lemma C7_witness :
  (exists c w1,
     signup_check num_trunc_nan no_faults 0%Z fb_fresh (req "a@x.com" "M003" "9876543210")
       (mkWorld [user_rejected_M003] [] 0) = (ROk c, w1) /\
     c_reapply c = Some user_rejected_M003 /\
     map d_id (w_users (snd (run_signup num_trunc_nan no_faults 0%Z fb_fresh
                               (req "a@x.com" "M003" "9876543210")
                               (mkWorld [user_rejected_M003] [] 0)))) = ["u1"] /\
     exists d, find_by_id "u1" (w_users (snd (run_signup num_trunc_nan no_faults 0%Z fb_fresh
                               (req "a@x.com" "M003" "9876543210")
                               (mkWorld [user_rejected_M003] [] 0)))) = Some d /\
       field d "rejectionReason" = JStr "" /\ field d "reappliedAt" = JNum 0%Z /\
       field d "accountStatus" = JStr (accountStatus (c_locals c))) /\
  run_signup num_trunc_nan no_faults 0%Z fb_fresh (req "c@x.com" "M005" "9876543210")
    (mkWorld [user_approved_M004] [] 0) =
    (RespError 400 "User already exists with this email", mkWorld [user_approved_M004] [] 2).
Proof.
  split.
  - exists (mkCtx "a@x.com" "M003" (Some user_rejected_M003)
              (mkLocals false true "pending" "pending_admin" None) "uid:a@x.com").
    exists (mkWorld [user_rejected_M003] [] 8).
    split; [vm_compute; reflexivity|split; [reflexivity|]].
    apply (proj1 C7_reapply_in_place num_trunc_nan 0%Z fb_fresh
             (req "a@x.com" "M003" "9876543210") (mkWorld [user_rejected_M003] [] 0)
             (mkCtx "a@x.com" "M003" (Some user_rejected_M003)
                (mkLocals false true "pending" "pending_admin" None) "uid:a@x.com")
             (mkWorld [user_rejected_M003] [] 8) user_rejected_M003);
      [vm_compute; reflexivity|reflexivity].
  - apply (proj2 (proj2 C7_reapply_in_place) num_trunc_nan 0%Z fb_fresh
             (req "c@x.com" "M005" "9876543210") (mkWorld [user_approved_M004] [] 0)
             user_approved_M004);
      first [reflexivity|discriminate|vm_compute; reflexivity|right; reflexivity].
Defined.

(** C7: a rejected user with member ID M003 and email a@x.com; a signup
    with the same member ID and another email is rejected with the 400
    Member-ID error instead of re-applying, and [users] is unchanged. *)
Lemma C7_counterexample :
  run_signup num_trunc_nan no_faults 0%Z fb_fresh (req "b@x.com" "M003" "9876543210")
    (mkWorld [user_rejected_M003] [] 0) =
  (RespError 400 "Member ID already exists. Please use a different Member ID.",
   mkWorld [user_rejected_M003] [] 2) /\
  isReapplicable user_rejected_M003 = true.
Proof. split; vm_compute; reflexivity. Qed.

(** ** Admin approval *)

Lemma updateDocument_users_slots fails now id data :
  stays same_slots (updateDocument fails now USERS id data).
Proof.
  unfold updateDocument.
  apply stays_bind; [exact same_slots_trans| |intro].
  - intro w; unfold update_raw.
    destruct (fails (w_ops w)); [reflexivity|].
    destruct (find_by_id _ _); reflexivity.
  - intro w; pose proof (getDocumentById_same fails USERS id w) as [_ H]; exact H.
Qed.

Lemma getDocumentById_slots fails c id : stays same_slots (getDocumentById fails c id).
Proof. intro w; pose proof (getDocumentById_same fails c id w) as [_ H]; exact H. Qed.








(** ** Further routes: login, /me, user management, information search *)

Lemma findOneDocument_slots fails c k v : stays same_slots (findOneDocument fails c k v).
Proof. intro w; pose proof (findOneDocument_same fails c k v w) as [_ H]; exact H. Qed.

Lemma getDocumentById_js_slots fails c v : stays same_slots (getDocumentById_js fails c v).
Proof. intro w; pose proof (getDocumentById_js_same fails c v w) as [_ H]; exact H. Qed.

Lemma deleteDocument_users_slots fails id : stays same_slots (deleteDocument fails USERS id).
Proof. intro w; unfold deleteDocument, op; destruct (fails (w_ops w)); reflexivity. Qed.

Ltac stays_slots :=
  repeat first
    [ stays_step same_slots_refl same_slots_trans
    | apply getDocumentById_slots | apply findOneDocument_slots
    | apply getDocumentById_js_slots | apply updateDocument_users_slots
    | apply deleteDocument_users_slots ].

Lemma login_firebase_slots la e p n : stays same_slots (login_firebase la e p n).
Proof. unfold login_firebase; stays_slots. Qed.

(** X1: whatever the storage faults, the login, [GET /me], reject, pending
    reject, role and user-update routes never change the
    [authorizedMembers] collection. *)
Theorem user_routes_leave_slots :
  forall (fails : nat -> bool) (now : Z) (w : world),
    (forall compare la email password,
       w_slots (snd (login fails now compare la email password w)) = w_slots w) /\
    (forall uid, w_slots (snd (me fails uid w)) = w_slots w) /\
    (forall rejector id reason,
       w_slots (snd (admin_put_reject fails now rejector id reason w)) = w_slots w) /\
    (forall reviewer id reason,
       w_slots (snd (admin_post_pending_reject fails now reviewer id reason w)) = w_slots w) /\
    (forall caller id role,
       w_slots (snd (admin_put_role fails now caller id role w)) = w_slots w) /\
    (forall id name email phone memberId role,
       w_slots (snd (admin_put_user fails now id name email phone memberId role w)) = w_slots w).
Proof.
  intros fails now w; repeat split; intros.
  - revert w; change (stays same_slots (login fails now compare la email password)).
    unfold login; stays_slots; apply login_firebase_slots.
  - revert w; change (stays same_slots (me fails uid)).
    unfold me, getUserByFirebaseUid, first_hit; stays_slots.
  - revert w; change (stays same_slots (admin_put_reject fails now rejector id reason)).
    unfold admin_put_reject; stays_slots.
  - revert w; change (stays same_slots (admin_post_pending_reject fails now reviewer id reason)).
    unfold admin_post_pending_reject; stays_slots.
  - revert w; change (stays same_slots (admin_put_role fails now caller id role)).
    unfold admin_put_role; stays_slots.
  - revert w; change (stays same_slots (admin_put_user fails now id name email phone memberId role)).
    unfold admin_put_user, js_toLowerCase; stays_slots.
Qed.

Lemma ret_keeps_no_ret {A} (m : St world A) : no_ret m -> ret_keeps m.
Proof. intros H w r w' E; exfalso; exact (H w r w' E). Qed.
Lemma ret_keeps_early {A} r : ret_keeps (@early world A r).
Proof. intros w r' w' H; injection H as _ <-; apply same_data_refl. Qed.
Lemma ret_keeps_bind {A B} (m : St world A) (f : A -> St world B) :
  stays same_data m -> (forall a, ret_keeps (f a)) -> ret_keeps (bind m f).
Proof.
  intros Hm Hf w r w'; unfold bind; pose proof (Hm w) as S.
  destruct (m w) as [[a|e|r0] w1] eqn:E; simpl in S.
  - intro H; exact (same_data_trans _ _ _ S (Hf a _ _ _ H)).
  - discriminate.
  - intro H; injection H as _ <-; exact S.
Qed.
Lemma ret_keeps_bind_last {A B} (m : St world A) (f : A -> St world B) :
  no_ret m -> (forall a, no_ret (f a)) -> ret_keeps (bind m f).
Proof. intros; apply ret_keeps_no_ret, no_ret_bind; assumption. Qed.
Lemma ret_keeps_try_catch {A} (m : St world A) (h : string -> St world A) :
  ret_keeps m -> (forall e, no_ret (h e)) -> ret_keeps (try_catch m h).
Proof.
  intros Hm Hh w r w'; unfold try_catch.
  destruct (m w) as [[a|e|r0] w1] eqn:E.
  - discriminate.
  - intro H; exfalso; exact (Hh e w1 r w' H).
  - intro H; injection H as -> <-; exact (Hm _ _ _ E).
Qed.

Ltac stays_ro :=
  repeat first
    [ stays_step same_data_refl same_data_trans
    | apply getDocumentById_same | apply findOneDocument_same
    | apply getDocumentById_js_same ].

Ltac keeps_step :=
  match goal with
  | |- ret_keeps (try_catch _ _) => apply ret_keeps_try_catch; [|intro; apply no_ret_ret]
  | |- ret_keeps (early _) => apply ret_keeps_early
  | |- ret_keeps (ret _) => apply ret_keeps_no_ret, no_ret_ret
  | |- ret_keeps (throw _) => apply ret_keeps_no_ret, no_ret_throw
  | |- ret_keeps (bind (updateDocument _ _ _ _ _) _) =>
      apply ret_keeps_bind_last; [apply no_ret_updateDocument|intros [?|]; first [apply no_ret_ret | apply no_ret_throw]]
  | |- ret_keeps (bind (getDocumentById _ _ _) _) =>
      apply ret_keeps_bind; [intro; apply getDocumentById_same|intro]
  | |- ret_keeps (bind (findOneDocument _ _ _ _) _) =>
      apply ret_keeps_bind; [intro; apply findOneDocument_same|intro]
  | |- ret_keeps (bind (ret _) _) => apply ret_keeps_bind; [intro; apply same_data_refl|intro]
  | |- ret_keeps (bind (throw _) _) => apply ret_keeps_bind; [intro; apply same_data_refl|intro]
  | |- ret_keeps (bind ?m _) => apply ret_keeps_bind; [stays_ro|intro]
  | |- ret_keeps (match ?x with _ => _ end) => destruct x
  | |- ret_keeps (if ?x then _ else _) => destruct x
  end.

Lemma admin_put_user_ret_keeps fails now id name email phone memberId role :
  ret_keeps (admin_put_user fails now id name email phone memberId role).
Proof.
  unfold admin_put_user, js_toLowerCase; repeat keeps_step.
Qed.

Lemma bind_run {S A B} (m : St S A) (f : A -> St S B) s a s' :
  m s = (ROk a, s') -> bind m f s = f a s'.
Proof. intro H; unfold bind; rewrite H; reflexivity. Qed.

Lemma field_omit k k' d : k' <> k -> field (omit_field k d) k' = field d k'.
Proof.
  intro Hk; destruct d as [i fs]; unfold field, omit_field; simpl.
  induction fs as [|[k0 v0] r IH]; simpl; [reflexivity|].
  destruct (String.eqb_spec k0 k) as [->|Hne]; simpl.
  - apply String.eqb_neq in Hk; rewrite String.eqb_sym, Hk; exact IH.
  - destruct (String.eqb k0 k'); [reflexivity|exact IH].
Qed.

(** X2: [PUT /users/:id] writes nothing when it answers with an early
    response (404 or one of its 400s), whatever the storage faults; and
    a truthy new member ID that differs from the user's and is already
    held by another user is refused with 400 after two reads. *)
Theorem admin_put_user_refusals :
  (forall fails now id name email phone memberId role w r w',
     admin_put_user fails now id name email phone memberId role w = (RRet r, w') ->
     w_users w' = w_users w /\ w_slots w' = w_slots w) /\
  (forall now id name email phone memberId role w u e,
     find_by_id id (w_users w) = Some u -> js_truthy memberId = true ->
     memberId <> field u "memberId" ->
     find_by_field "memberId" memberId (w_users w) = Some e -> d_id e <> id ->
     admin_put_user no_faults now id name email phone memberId role w =
     (RRet (RespError 400 "Member ID already exists"), tick (tick w))).
Proof.
  split.
  - intros fails now id name email phone memberId role w r w' H.
    apply (admin_put_user_ret_keeps fails now id name email phone memberId role w r w' H).
  - intros now id name email phone memberId role w u e Hu Ht Hne He Hid.
    destruct (find_by_id_some _ _ _ Hu) as [_ Huid].
    unfold admin_put_user, try_catch, bind at 1.
    rewrite getDocumentById_nf; change (coll_docs USERS w) with (w_users w); rewrite Hu.
    unfold bind at 1; rewrite Ht.
    unfold jsval_eqb at 1.
    destruct (jsval_eq_dec memberId (field u "memberId")) as [Heq|_]; [contradiction|].
    cbn [andb negb].
    rewrite (bind_run _ _ _ _ _ (findOneDocument_nf _ _ _ _)).
    change (coll_docs USERS (tick w)) with (w_users w); rewrite He.
    rewrite Huid; apply String.eqb_neq in Hid; rewrite Hid; reflexivity.
Qed.

(** X3: [PUT /users/:id] with only a name and a phone stores the phone
    exactly as sent, without the normalisation of the signup, and
    returns it in the response. *)
Theorem admin_put_user_phone_verbatim now id name phone w u :
  find_by_id id (w_users w) = Some u -> phone <> JUndefined ->
  exists d w' d',
    admin_put_user no_faults now id name JUndefined phone JUndefined JUndefined w
      = (ROk (RespOk d), w') /\
    find_by_id id (w_users w') = Some d' /\ field d' "phone" = phone /\
    field d "phone" = phone.
Proof.
  intros Hu Hp.
  destruct (find_by_id_some _ _ _ Hu) as [_ Huid].
  unfold admin_put_user, try_catch, bind at 1.
  rewrite getDocumentById_nf; change (coll_docs USERS w) with (w_users w); rewrite Hu.
  cbn -[updateDocument merge find_by_id].
  rewrite Huid.
  destruct phone; [contradiction| | | | ].
  all: rewrite (bind_run _ _ _ _ _ (updateDocument_nf now USERS id _ (tick w) u Hu));
  (do 3 eexists; split; [reflexivity|]);
  (split; [cbn -[find_by_id replace_doc merge]; apply (find_by_id_replace _ _ _ u); exact Hu|]);
  destruct name; (split; [rewrite field_merge; reflexivity|]);
  rewrite field_omit by discriminate; rewrite field_merge; reflexivity.
Qed.

(** X4: [PUT /users/:id/role] refuses a role other than "user" or
    "admin" before any storage access; refuses an admin demoting
    themself to "user"; otherwise sets the stored and returned [role]
    and leaves [authorizedMembers] alone. *)
Theorem admin_put_role_guards :
  (forall fails now caller id role w, valid_role role = false ->
     admin_put_role fails now caller id role w =
     (RRet (RespError 400 "Valid role is required (user or admin)"), w)) /\
  (forall now caller w u, find_by_id caller (w_users w) = Some u ->
     admin_put_role no_faults now caller caller (JStr "user") w =
     (RRet (RespError 400 "You cannot demote yourself"), tick w)) /\
  (forall now caller id role w u,
     valid_role role = true -> find_by_id id (w_users w) = Some u ->
     id <> caller \/ role = JStr "admin" ->
     exists d w' d', admin_put_role no_faults now caller id role w = (ROk (RespOk d), w') /\
       find_by_id id (w_users w') = Some d' /\ field d' "role" = role /\
       field d "role" = role /\ w_slots w' = w_slots w).
Proof.
  split; [|split].
  - intros fails now caller id role w Hv; unfold admin_put_role, try_catch.
    rewrite Hv, orb_true_r; reflexivity.
  - intros now caller w u Hu.
    destruct (find_by_id_some _ _ _ Hu) as [_ Huid].
    unfold admin_put_role, try_catch.
    assert (E : (negb (js_truthy (JStr "user")) || negb (valid_role (JStr "user")))%bool = false)
      by reflexivity.
    rewrite E.
    rewrite (bind_run _ _ _ _ _ (getDocumentById_nf _ _ _)).
    change (coll_docs USERS w) with (w_users w); rewrite Hu, Huid, String.eqb_refl.
    reflexivity.
  - intros now caller id role w u Hv Hu Hc.
    destruct (find_by_id_some _ _ _ Hu) as [_ Huid].
    assert (Ht : js_truthy role = true)
      by (unfold valid_role, jsval_eqb in Hv;
          destruct (jsval_eq_dec role (JStr "user")) as [->|];
          [reflexivity|destruct (jsval_eq_dec role (JStr "admin")) as [->|];
                       [reflexivity|discriminate]]).
    unfold admin_put_role, try_catch; rewrite Ht, Hv; cbn [negb orb].
    rewrite (bind_run _ _ _ _ _ (getDocumentById_nf _ _ _)).
    change (coll_docs USERS w) with (w_users w); rewrite Hu, Huid.
    assert (Hs : (String.eqb id caller && jsval_eqb role (JStr "user"))%bool = false).
    { destruct Hc as [Hc| ->].
      - apply String.eqb_neq in Hc; rewrite Hc; reflexivity.
      - apply andb_false_r. }
    rewrite Hs.
    rewrite (bind_run _ _ _ _ _ (updateDocument_nf now USERS id _ (tick w) u Hu)).
    do 3 eexists; split; [reflexivity|].
    split; [cbn -[find_by_id replace_doc merge]; apply (find_by_id_replace _ _ _ u); exact Hu|].
    split; [rewrite field_merge; reflexivity|].
    split; [rewrite field_omit by discriminate; rewrite field_merge; reflexivity|].
    reflexivity.
Qed.

Lemma find_by_id_filter_none id c :
  find_by_id id (filter (fun d => negb (String.eqb (d_id d) id)) c) = None.
Proof.
  unfold find_by_id; induction c as [|d r IH]; simpl; [reflexivity|].
  destruct (String.eqb (d_id d) id) eqn:E; simpl; [exact IH|rewrite E; exact IH].
Qed.

Lemma admin_delete_user_ok fails purge caller id dft w b w1 :
  (forall uid, stays same_data (purge uid)) ->
  admin_delete_user fails purge caller id dft w = (ROk (ReplyDeleted b), w1) ->
  id <> caller /\ (exists u, find_by_id id (w_users w) = Some u) /\
  w_users w1 = filter (fun d => negb (String.eqb (d_id d) id)) (w_users w) /\
  w_slots w1 = w_slots w.
Proof.
  intros Hp; unfold admin_delete_user, try_catch, bind, getDocumentById, op.
  destruct (fails (w_ops w)); [discriminate|].
  cbn [coll_docs tick w_users w_slots w_ops].
  destruct (find_by_id id (w_users w)) as [u|] eqn:Hu; [|discriminate].
  destruct (find_by_id_some _ _ _ Hu) as [_ Huid]; rewrite Huid.
  destruct (String.eqb_spec id caller) as [_|Hc]; [discriminate|].
  set (w0 := tick w).
  assert (Hpurge : forall r w2,
    (if jsval_eqb dft (JStr "true") then purge id else ret tt) w0 = (r, w2) ->
    same_data w0 w2).
  { intros r w2 E; destruct (jsval_eqb dft (JStr "true")).
    - pose proof (Hp id w0) as S; rewrite E in S; exact S.
    - unfold ret in E; injection E as _ <-; apply same_data_refl. }
  destruct ((if jsval_eqb dft (JStr "true") then purge id else ret tt) w0)
    as [[[]|e|r] w2] eqn:E; [|discriminate|discriminate].
  destruct (Hpurge _ _ eq_refl) as [P1 P2].
  unfold deleteDocument, op.
  destruct (fails (w_ops w2)); [discriminate|].
  intro H; injection H as _ <-; cbn.
  rewrite P1, P2; split; [exact Hc|split; [exists u; reflexivity|split; reflexivity]].
Qed.

(** X5: [DELETE /users/:id] refuses an admin deleting their own account;
    a successful deletion removes exactly the documents with that id
    from [users], keeps every other user, and leaves
    [authorizedMembers] alone (also a slot that names the deleted user
    in [usedBy]). *)
Theorem admin_delete_user_effect :
  (forall purge caller dft w u, find_by_id caller (w_users w) = Some u ->
     admin_delete_user no_faults purge caller caller dft w =
     (RRet (RespError 400 "You cannot delete your own account"), tick w)) /\
  (forall fails purge caller id dft w b w1,
     (forall uid, stays same_data (purge uid)) ->
     admin_delete_user fails purge caller id dft w = (ROk (ReplyDeleted b), w1) ->
     id <> caller /\ find_by_id id (w_users w1) = None /\
     (forall u, In u (w_users w) -> d_id u <> id -> In u (w_users w1)) /\
     (forall u, In u (w_users w1) -> In u (w_users w)) /\
     w_slots w1 = w_slots w).
Proof.
  split.
  - intros purge caller dft w u Hu.
    destruct (find_by_id_some _ _ _ Hu) as [_ Huid].
    unfold admin_delete_user, try_catch.
    rewrite (bind_run _ _ _ _ _ (getDocumentById_nf _ _ _)).
    change (coll_docs USERS w) with (w_users w); rewrite Hu, Huid, String.eqb_refl.
    reflexivity.
  - intros fails purge caller id dft w b w1 Hp H.
    destruct (admin_delete_user_ok _ _ _ _ _ _ _ _ Hp H) as [Hc [_ [HU HS]]].
    rewrite HU; split; [exact Hc|split; [apply find_by_id_filter_none|]].
    split; [|split; [|exact HS]].
    + intros u Hin Hne; apply filter_In; split; [exact Hin|].
      apply String.eqb_neq in Hne; rewrite Hne; reflexivity.
    + intros u Hin; apply filter_In in Hin as [Hin _]; exact Hin.
Qed.

Lemma find_by_field_replace k v c u newd :
  find_by_field k v c = Some u -> d_id newd = d_id u -> jsval_eqb (field newd k) v = true ->
  find_by_field k v (replace_doc newd c) = Some newd.
Proof.
  unfold find_by_field, replace_doc; intros Hf Hid Hk; induction c as [|a r IH]; simpl in *;
    [discriminate|].
  destruct (jsval_eqb (field a k) v) eqn:Ea.
  - injection Hf as ->; rewrite Hid, String.eqb_refl; simpl; rewrite Hk; reflexivity.
  - destruct (String.eqb (d_id a) (d_id newd)); simpl; [rewrite Hk; reflexivity|].
    rewrite Ea; exact (IH Hf).
Qed.

(** X6: [PUT /users/:id/reject] rejects a user whatever their current
    status (also an approved one), storing [rejectionReason] as
    [reason || ''].  A later signup (storage answering) with that user's
    email and member ID, when the user was the first in query order
    holding each of them, gets through validation and the re-apply
    detection with the rejected account as [reapplyUser]. *)
Theorem admin_put_reject_any_status now rejector id reason w u :
  find_by_id id (w_users w) = Some u ->
  exists d w' u',
    admin_put_reject no_faults now rejector id reason w = (ROk (RespOk d), w') /\
    find_by_id id (w_users w') = Some u' /\
    field u' "accountStatus" = JStr "rejected" /\
    field u' "rejectionReason" = js_or reason (JStr "") /\
    isReapplicable u' = true /\ w_slots w' = w_slots w /\
    (forall num_trunc rq,
       js_truthy (rq_name rq) = true -> js_truthy (rq_password rq) = true ->
       js_lower (trim (str_nullish (rq_email rq))) <> "" ->
       normalizeMemberId num_trunc (rq_memberId rq) <> "" ->
       find_by_field "memberId" (JStr (normalizeMemberId num_trunc (rq_memberId rq)))
         (w_users w) = Some u ->
       find_by_field "email" (JStr (js_lower (trim (str_nullish (rq_email rq)))))
         (w_users w) = Some u ->
       signup_prefix num_trunc no_faults rq w' =
       (ROk (js_lower (trim (str_nullish (rq_email rq))),
             normalizeMemberId num_trunc (rq_memberId rq), Some u', Some u'), tick (tick w'))).
Proof.
  intro Hu.
  destruct (find_by_id_some _ _ _ Hu) as [_ Huid].
  unfold admin_put_reject, try_catch.
  rewrite (bind_run _ _ _ _ _ (getDocumentById_nf _ _ _)).
  change (coll_docs USERS w) with (w_users w); rewrite Hu.
  rewrite (bind_run _ _ _ _ _ (updateDocument_nf now USERS id _ (tick w) u Hu)).
  do 3 eexists; split; [reflexivity|].
  split; [cbn -[find_by_id replace_doc merge]; apply (find_by_id_replace _ _ _ u); exact Hu|].
  split; [rewrite field_merge; reflexivity|].
  split; [rewrite field_merge; reflexivity|].
  split; [unfold isReapplicable; rewrite field_merge; reflexivity|].
  split; [reflexivity|].
  intros num_trunc rq Hn Hp He Hm HfM HfE.
  rewrite (signup_prefix_nf num_trunc rq _ Hn Hp He Hm); cbv zeta.
  set (e := js_lower (trim (str_nullish (rq_email rq)))) in *.
  set (nm := normalizeMemberId num_trunc (rq_memberId rq)) in *.
  pose proof (proj2 (find_some _ _ HfM)) as EM; simpl in EM.
  pose proof (proj2 (find_some _ _ HfE)) as EE; simpl in EE.
  cbn [w_users tick with_coll coll_docs].
  match goal with |- context [replace_doc ?nd _] => set (newd := nd) end.
  assert (Hid : d_id newd = d_id u) by (unfold newd; simpl; symmetry; exact Huid).
  rewrite (find_by_field_replace _ _ _ u newd HfM Hid)
    by (unfold newd; rewrite field_merge; exact EM).
  rewrite (find_by_field_replace _ _ _ u newd HfE Hid)
    by (unfold newd; rewrite field_merge; exact EE).
  unfold reapply_detection, bind, isReapplicable.
  unfold newd; rewrite !field_merge; cbn -[d_data field].
  change (field (mkDoc id (d_data u)) "email") with (field u "email").
  change (field (mkDoc id (d_data u)) "memberId") with (field u "memberId").
  rewrite EM, EE; simpl.
  rewrite String.eqb_refl; reflexivity.
Qed.

(** X7: [POST /pending-users/:id/reject] refuses a user that is not
    pending with 400; a pending user is rejected with the reason, or
    "No reason provided" when it is missing, in the store and in the
    response. *)
Theorem admin_post_pending_reject_guard :
  (forall now reviewer id reason w u,
     find_by_id id (w_users w) = Some u -> field u "accountStatus" <> JStr "pending" ->
     admin_post_pending_reject no_faults now reviewer id reason w =
     (RRet (RespError 400 "User is not in pending status"), tick w)) /\
  (forall now reviewer id reason w u,
     find_by_id id (w_users w) = Some u -> field u "accountStatus" = JStr "pending" ->
     exists d w' u',
       admin_post_pending_reject no_faults now reviewer id reason w = (ROk (RespOk d), w') /\
       find_by_id id (w_users w') = Some u' /\
       field u' "accountStatus" = JStr "rejected" /\
       field u' "rejectionReason" = js_or reason (JStr "No reason provided") /\
       field d "rejectionReason" = js_or reason (JStr "No reason provided") /\
       w_slots w' = w_slots w).
Proof.
  split.
  - intros now reviewer id reason w u Hu Hs.
    unfold admin_post_pending_reject, try_catch.
    rewrite (bind_run _ _ _ _ _ (getDocumentById_nf _ _ _)).
    change (coll_docs USERS w) with (w_users w); rewrite Hu.
    unfold jsval_eqb; destruct (jsval_eq_dec (field u "accountStatus") (JStr "pending"));
      [contradiction|reflexivity].
  - intros now reviewer id reason w u Hu Hs.
    destruct (find_by_id_some _ _ _ Hu) as [_ Huid].
    unfold admin_post_pending_reject, try_catch.
    rewrite (bind_run _ _ _ _ _ (getDocumentById_nf _ _ _)).
    change (coll_docs USERS w) with (w_users w); rewrite Hu, Hs, jsval_eqb_refl, Huid.
    cbn [negb].
    rewrite (bind_run _ _ _ _ _ (updateDocument_nf now USERS id _ (tick w) u Hu)).
    do 3 eexists; split; [reflexivity|].
    split; [cbn -[find_by_id replace_doc merge]; apply (find_by_id_replace _ _ _ u); exact Hu|].
    split; [rewrite field_merge; reflexivity|].
    split; [rewrite field_merge; reflexivity|].
    split; [unfold reject_view; cbn -[merge]; rewrite field_merge; reflexivity|].
    reflexivity.
Qed.

Lemma findOneDocument_ok fails c k v w r w1 :
  findOneDocument fails c k v w = (ROk r, w1) ->
  r = find_by_field k v (coll_docs c w) /\ w1 = tick w.
Proof.
  unfold findOneDocument, op; destruct (fails (w_ops w)); [discriminate|].
  intro H; injection H as <- <-; destruct c; split; reflexivity.
Qed.

Lemma login_firebase_state la e p n w : snd (login_firebase la e p n w) = w.
Proof.
  unfold login_firebase.
  destruct (la_get_user_by_email la e) as [uid|code];
    [destruct (la_update_user la uid p n) as [code|]; [|reflexivity]|];
    (destruct (str_includes "user-not-found" code); [|reflexivity]);
    destruct (la_create_user la e p n); reflexivity.
Qed.

Lemma login_firebase_no_ret la e p n w r w' : login_firebase la e p n w <> (RRet r, w').
Proof.
  unfold login_firebase.
  destruct (la_get_user_by_email la e) as [uid|code];
    [destruct (la_update_user la uid p n) as [code|]; [|discriminate]|];
    (destruct (str_includes "user-not-found" code); [|discriminate]);
    destruct (la_create_user la e p n); discriminate.
Qed.

Lemma updateDocument_users_cases fails now id data w :
  w_slots (snd (updateDocument fails now USERS id data w)) = w_slots w /\
  (w_users (snd (updateDocument fails now USERS id data w)) = w_users w \/
   exists d, find_by_id id (w_users w) = Some d /\
     w_users (snd (updateDocument fails now USERS id data w)) =
     replace_doc (mkDoc id (merge (d_data d) (data ++ [("updatedAt", JNum now)])%list)) (w_users w)).
Proof.
  split; [apply updateDocument_users_slots|].
  unfold updateDocument, update_raw, bind.
  destruct (fails (w_ops w)); [left; reflexivity|].
  change (coll_docs USERS (tick w)) with (w_users w).
  destruct (find_by_id id (w_users w)) as [d|] eqn:Hf; [|left; reflexivity].
  right; exists d; split; [reflexivity|].
  pose proof (getDocumentById_same fails USERS id
    (with_coll USERS (replace_doc (mkDoc id (merge (d_data d) (data ++ [("updatedAt", JNum now)])%list))
       (coll_docs USERS (tick w))) (tick w))) as [S _].
  destruct (getDocumentById fails USERS id _) as [r w2]; simpl in S |- *; exact S.
Qed.

Lemma jsval_eqb_neq v v' : v <> v' -> jsval_eqb v v' = false.
Proof. unfold jsval_eqb; destruct (jsval_eq_dec v v'); [contradiction|reflexivity]. Qed.

(** X8: whatever the storage faults and the password check, [POST
    /login] never changes [authorizedMembers], and it changes [users]
    only by setting [firebaseUid] and [updatedAt] on the account found
    by the normalised email, when that account is neither rejected nor
    pending, has no [firebaseUid] yet and the password matched.  When
    that account's stored [name] is truthy but not a string and Firebase
    Auth refuses a non-string [displayName] (as the Admin SDK does), the
    login answers 500 and writes nothing. *)
Theorem login_write_discipline fails now compare la email password w :
  (let w' := snd (login fails now compare la email password w) in
   w_slots w' = w_slots w /\
   (w_users w' = w_users w \/
    exists u d uid,
      find_by_field "email" (JStr (js_lower (trim (js_String email)))) (w_users w) = Some u /\
      compare password (field u "password") = Some true /\
      field u "accountStatus" <> JStr "rejected" /\ field u "accountStatus" <> JStr "pending" /\
      js_truthy (field u "firebaseUid") = false /\
      find_by_id (d_id u) (w_users w) = Some d /\
      w_users w' = replace_doc (mkDoc (d_id u) (merge (d_data d)
                      [("firebaseUid", JStr uid); ("updatedAt", JNum now)])) (w_users w))) /\
  (forall u,
     fails (w_ops w) = false ->
     js_truthy email = true -> js_truthy password = true ->
     find_by_field "email" (JStr (js_lower (trim (js_String email)))) (w_users w) = Some u ->
     field u "accountStatus" <> JStr "rejected" -> field u "accountStatus" <> JStr "pending" ->
     js_truthy (field u "firebaseUid") = false -> js_truthy (field u "password") = true ->
     compare password (field u "password") = Some true ->
     js_truthy (field u "name") = true -> (forall s, field u "name" <> JStr s) ->
     (forall uid p n, (forall s, n <> JStr s) ->
        exists c, la_update_user la uid p n = Some c /\ str_includes "user-not-found" c = false) ->
     (forall e p n, (forall s, n <> JStr s) -> exists c, la_create_user la e p n = inr c) ->
     login fails now compare la email password w =
     (ROk (Reply (RespError 500 "Error logging in")), tick w) /\
     w_users (tick w) = w_users w).
Proof.
  split.
  - cbv zeta; unfold login, try_catch.
    destruct (negb (js_truthy email) || negb (js_truthy password));
      [split; [reflexivity|left; reflexivity]|].
    unfold bind.
    set (ne := js_lower (trim (js_String email))).
    pose proof (findOneDocument_same fails USERS "email" (JStr ne) w) as [F1 F2].
    destruct (findOneDocument fails USERS "email" (JStr ne) w) as [[ou|e|r] w1] eqn:E1;
      simpl in F1, F2; try (split; [exact F2|left; exact F1]).
    destruct (findOneDocument_ok _ _ _ _ _ _ _ E1) as [Hou ->].
    change (coll_docs USERS w) with (w_users w) in Hou.
    destruct ou as [u|]; [|split; [reflexivity|left; reflexivity]].
    destruct (jsval_eqb (field u "accountStatus") (JStr "rejected")) eqn:Hrej;
      [split; [reflexivity|left; reflexivity]|].
    destruct (jsval_eqb (field u "accountStatus") (JStr "pending")) eqn:Hpen;
      [split; [reflexivity|left; reflexivity]|].
    destruct (js_truthy (field u "firebaseUid")) eqn:Hfb; [split; [reflexivity|left; reflexivity]|].
    destruct (negb (js_truthy (field u "password"))); [split; [reflexivity|left; reflexivity]|].
    destruct (compare password (field u "password")) as [[|]|] eqn:Hc;
      [|split; [reflexivity|left; reflexivity]|split; [reflexivity|left; reflexivity]].
    symmetry in Hou.
    cbv beta iota delta [ret negb].
    pose proof (login_firebase_state la ne password (js_or (field u "name") (JStr "")) (tick w))
      as L1.
    pose proof (login_firebase_no_ret la ne password (js_or (field u "name") (JStr "")) (tick w))
      as L2.
    destruct (login_firebase la ne password (js_or (field u "name") (JStr "")) (tick w))
      as [[uid|e|r] w2] eqn:E2; simpl in L1; subst w2;
      [|split; [reflexivity|left; reflexivity]|exfalso; exact (L2 r _ eq_refl)].
    pose proof (updateDocument_users_cases fails now (d_id u) [("firebaseUid", JStr uid)] (tick w))
      as [U1 U2].
    destruct (updateDocument fails now USERS (d_id u) [("firebaseUid", JStr uid)] (tick w))
      as [[a|e|r] w3]; simpl in U1, U2 |- *;
    (split; [exact U1|]);
    (destruct U2 as [U2|[d [Hd U2]]]; [left; exact U2|right]);
    exists u, d, uid;
    (split; [exact Hou|split; [exact Hc|]]);
    unfold jsval_eqb in Hrej, Hpen;
    destruct (jsval_eq_dec (field u "accountStatus") (JStr "rejected")); try discriminate;
    destruct (jsval_eq_dec (field u "accountStatus") (JStr "pending")); try discriminate;
    repeat split; assumption.
  - intros u Hf He Hp Hu Hrej Hpen Hfb Hpw Hc Hnt Hns Hupd Hcre; split; [|reflexivity].
    unfold login, try_catch; rewrite He, Hp; cbn [negb orb].
    set (ne := js_lower (trim (js_String email))) in *.
    assert (F : findOneDocument fails USERS "email" (JStr ne) w = (ROk (Some u), tick w))
      by (unfold findOneDocument, op; rewrite Hf; cbn [coll_docs w_users tick]; rewrite Hu;
          reflexivity).
    rewrite (bind_run _ _ _ _ _ F).
    rewrite (jsval_eqb_neq _ _ Hrej), (jsval_eqb_neq _ _ Hpen), Hfb, Hpw; cbn [negb].
    rewrite Hc.
    assert (Hn : js_or (field u "name") (JStr "") = field u "name")
      by (unfold js_or; rewrite Hnt; reflexivity).
    rewrite Hn.
    assert (L : exists c, login_firebase la ne password (field u "name") (tick w)
                          = (RThrow c, tick w)).
    { unfold login_firebase; cbv zeta.
      destruct (la_get_user_by_email la ne) as [uid|code].
      - destruct (Hupd uid password (field u "name") Hns) as [c [-> Hc']].
        rewrite Hc'; eexists; reflexivity.
      - destruct (str_includes "user-not-found" code); [|eexists; reflexivity].
        destruct (Hcre ne password (field u "name") Hns) as [c ->]; eexists; reflexivity. }
    destruct L as [c L]; cbv beta iota delta [ret negb bind]; rewrite L; reflexivity.
Qed.

Lemma find_by_id_nodup c u : NoDup (map d_id c) -> In u c -> find_by_id (d_id u) c = Some u.
Proof.
  unfold find_by_id; induction c as [|a r IH]; simpl; [contradiction|].
  intros Hn Hin; inversion Hn as [|x l Ha Hr]; subst.
  destruct Hin as [->|Hin]; [rewrite String.eqb_refl; reflexivity|].
  destruct (String.eqb_spec (d_id a) (d_id u)) as [E|_]; [|exact (IH Hr Hin)].
  exfalso; apply Ha; rewrite E; apply in_map; exact Hin.
Qed.


Lemma login_firebase_uid la e p n w uid w' :
  (forall x y, la_get_user_by_email la x = inl y -> y <> "") ->
  (forall x q m y, la_create_user la x q m = inl y -> y <> "") ->
  login_firebase la e p n w = (ROk uid, w') -> uid <> "".
Proof.
  intros H1 H2; unfold login_firebase.
  destruct (la_get_user_by_email la e) as [u0|code] eqn:E1;
    [destruct (la_update_user la u0 p n) as [code|];
     [|intro H; injection H as <- _; exact (H1 _ _ E1)]|];
    (destruct (str_includes "user-not-found" code); [|discriminate]);
    destruct (la_create_user la e p n) as [u1|] eqn:E2; try discriminate;
    intro H; injection H as <- _; exact (H2 _ _ _ _ E2).
Qed.

Ltac kill := cbv beta iota delta [early ret throw negb bind]; let H := fresh in intro H; discriminate H.

Lemma login_migrated_inv now compare la email password w w1 :
  NoDup (map d_id (w_users w)) ->
  login no_faults now compare la email password w = (ROk ReplyMigrated, w1) ->
  (negb (js_truthy email) || negb (js_truthy password))%bool = false /\
  exists u uid,
    find_by_field "email" (JStr (js_lower (trim (js_String email)))) (w_users w) = Some u /\
    jsval_eqb (field u "accountStatus") (JStr "rejected") = false /\
    jsval_eqb (field u "accountStatus") (JStr "pending") = false /\
    login_firebase la (js_lower (trim (js_String email))) password
      (js_or (field u "name") (JStr "")) (tick w) = (ROk uid, tick w) /\
    w_users w1 = replace_doc (mkDoc (d_id u) (merge (d_data u)
                   [("firebaseUid", JStr uid); ("updatedAt", JNum now)])) (w_users w).
Proof.
  intro Hn; unfold login, try_catch.
  destruct (negb (js_truthy email) || negb (js_truthy password)); [kill|].
  set (ne := js_lower (trim (js_String email))).
  rewrite (bind_run _ _ _ _ _ (findOneDocument_nf _ _ _ _)).
  change (coll_docs USERS w) with (w_users w).
  destruct (find_by_field "email" (JStr ne) (w_users w)) as [u|] eqn:Hu; [|discriminate].
  destruct (jsval_eqb (field u "accountStatus") (JStr "rejected")) eqn:Hrej; [kill|].
  destruct (jsval_eqb (field u "accountStatus") (JStr "pending")) eqn:Hpen; [kill|].
  destruct (js_truthy (field u "firebaseUid")); [kill|].
  destruct (negb (js_truthy (field u "password"))); [kill|].
  destruct (compare password (field u "password")) as [[|]|]; [|kill|kill].
  cbv beta iota delta [ret negb bind].
  pose proof (login_firebase_state la ne password (js_or (field u "name") (JStr "")) (tick w))
    as L1.
  destruct (login_firebase la ne password (js_or (field u "name") (JStr "")) (tick w))
    as [[uid|e|r] w2] eqn:E2; simpl in L1; subst w2;
    [|kill|kill].
  assert (Hd : find_by_id (d_id u) (w_users (tick w)) = Some u).
  { apply find_by_id_nodup; [exact Hn|].
    unfold find_by_field in Hu; apply find_some in Hu as [Hin _]; exact Hin. }
  rewrite (updateDocument_nf now USERS (d_id u) _ (tick w) u Hd).
  intro H; injection H as <-.
  split; [reflexivity|exists u, uid; repeat split; assumption].
Qed.

(** X9: a legacy account migrates once: after a successful migration by
    [POST /login], the same login is answered 410 (already migrated),
    provided Firebase Auth gives non-empty uids and user ids are
    unique. *)
Theorem login_migration_one_shot now compare la email password w w1 :
  NoDup (map d_id (w_users w)) ->
  (forall x y, la_get_user_by_email la x = inl y -> y <> "") ->
  (forall x p n y, la_create_user la x p n = inl y -> y <> "") ->
  login no_faults now compare la email password w = (ROk ReplyMigrated, w1) ->
  login no_faults now compare la email password w1 =
  (RRet (RespError 410 msg_login_migrated), tick w1).
Proof.
  intros Hn H1 H2 H.
  destruct (login_migrated_inv _ _ _ _ _ _ _ Hn H) as [Ht [u [uid [Hu [Hrej [Hpen [E2 Hw1]]]]]]].
  pose proof (login_firebase_uid _ _ _ _ _ _ _ H1 H2 E2) as Huid.
  unfold login, try_catch; rewrite Ht.
  rewrite (bind_run _ _ _ _ _ (findOneDocument_nf _ _ _ _)).
  change (coll_docs USERS w1) with (w_users w1); rewrite Hw1.
  rewrite (find_by_field_replace _ _ _ u (mkDoc (d_id u) (merge (d_data u)
              [("firebaseUid", JStr uid); ("updatedAt", JNum now)])) Hu eq_refl)
    by (rewrite field_merge; cbn; exact (proj2 (find_some _ _ Hu))).
  rewrite !field_merge; cbn -[d_data].
  change (field (mkDoc (d_id u) (d_data u)) "accountStatus") with (field u "accountStatus").
  rewrite Hrej, Hpen.
  apply String.eqb_neq in Huid; cbn [js_truthy]; rewrite Huid; reflexivity.
Qed.

(** X10: [POST /login] refuses a rejected account and a pending account
    with 403 before checking the password, after one read. *)
Theorem login_status_refusals now compare la email password w u :
  js_truthy email = true -> js_truthy password = true ->
  find_by_field "email" (JStr (js_lower (trim (js_String email)))) (w_users w) = Some u ->
  (field u "accountStatus" = JStr "rejected" ->
   login no_faults now compare la email password w =
   (RRet (RespError 403 msg_login_rejected), tick w)) /\
  (field u "accountStatus" = JStr "pending" ->
   login no_faults now compare la email password w =
   (RRet (RespError 403 msg_login_pending), tick w)).
Proof.
  intros He Hp Hu; unfold login, try_catch; rewrite He, Hp; cbv beta iota zeta delta [negb orb].
  rewrite (bind_run _ _ _ _ _ (findOneDocument_nf _ _ _ _)).
  change (coll_docs USERS w) with (w_users w); rewrite Hu.
  split; intro Hs; rewrite Hs; reflexivity.
Qed.

(* ---------------- information search ---------------- *)

Lemma is_js_space_lower c : is_js_space (js_lower_char c) = is_js_space c.
Proof. destruct c as [[] [] [] [] [] [] [] []]; reflexivity. Qed.

Lemma js_lower_char_idem c : js_lower_char (js_lower_char c) = js_lower_char c.
Proof. destruct c as [[] [] [] [] [] [] [] []]; reflexivity. Qed.

Lemma js_lower_idem s : js_lower (js_lower s) = js_lower s.
Proof. induction s as [|c r IH]; simpl; [reflexivity|rewrite js_lower_char_idem, IH; reflexivity]. Qed.

Lemma list_ascii_js_lower s :
  list_ascii_of_string (js_lower s) = map js_lower_char (list_ascii_of_string s).
Proof. induction s as [|c r IH]; simpl; [reflexivity|rewrite IH; reflexivity]. Qed.

Lemma js_lower_string_of_list l :
  string_of_list_ascii (map js_lower_char l) = js_lower (string_of_list_ascii l).
Proof. induction l as [|c r IH]; simpl; [reflexivity|rewrite IH; reflexivity]. Qed.

Lemma drop_space_map_lower l :
  drop_space (map js_lower_char l) = map js_lower_char (drop_space l).
Proof.
  induction l as [|c r IH]; simpl; [reflexivity|].
  rewrite is_js_space_lower; destruct (is_js_space c); [exact IH|reflexivity].
Qed.

Lemma trim_lower s : trim (js_lower s) = js_lower (trim s).
Proof.
  unfold trim; rewrite list_ascii_js_lower, drop_space_map_lower, <- map_rev,
    drop_space_map_lower, <- map_rev, js_lower_string_of_list; reflexivity.
Qed.

Lemma js_lower_empty s : String.eqb (js_lower s) "" = String.eqb s "".
Proof. destruct s; reflexivity. Qed.

Lemma info_raw_str q : info_raw (JStr q) = trim q.
Proof. destruct q; reflexivity. Qed.

Lemma drop_space_all l : forallb is_js_space l = true -> drop_space l = [].
Proof.
  induction l as [|c r IH]; simpl; [reflexivity|].
  intro H; apply andb_prop in H as [H1 H2]; rewrite H1; exact (IH H2).
Qed.

Lemma filter_opt_some {A} (p : A -> option bool) (l : list A) r :
  filter_opt p l = Some r ->
  (forall x, In x l -> p x <> None) /\
  r = filter (fun x => match p x with Some b => b | None => false end) l.
Proof.
  revert r; induction l as [|x l IH]; simpl; intros r H.
  - injection H as <-; split; [contradiction|reflexivity].
  - destruct (p x) as [b|] eqn:E; [|discriminate].
    destruct (filter_opt p l) as [r'|]; [|discriminate].
    injection H as <-; destruct (IH r' eq_refl) as [H1 H2]; split.
    + intros y [<-|Hy]; [rewrite E; discriminate|exact (H1 y Hy)].
    + rewrite H2; destruct b; reflexivity.
Qed.

Lemma filter_opt_none {A} (p : A -> option bool) (l : list A) x :
  In x l -> p x = None -> filter_opt p l = None.
Proof.
  induction l as [|y l IH]; simpl; [contradiction|].
  intros [<-|Hx] Hp; [rewrite Hp; reflexivity|].
  destruct (p y) as [b|]; [|reflexivity].
  rewrite (IH Hx Hp); reflexivity.
Qed.

Lemma in_firstn_in {A} n (l : list A) x : In x (firstn n l) -> In x l.
Proof.
  revert l; induction n as [|n IH]; intros [|y l]; simpl; try contradiction.
  intros [<-|H]; [left; reflexivity|right; exact (IH l H)].
Qed.

Lemma firstn_all_lt {A} n (l : list A) : length (firstn n l) < n -> firstn n l = l.
Proof.
  revert l; induction n as [|n IH]; intros [|y l]; simpl; try lia; try reflexivity.
  intro H; rewrite IH; [reflexivity|lia].
Qed.

(** X11: the information search with a missing, falsy or white-space
    only [name] answers an empty list, even when the documents cannot be
    read. *)
Theorem information_search_blank name allInfo :
  js_truthy name = false \/
  (exists s, name = JStr s /\ forallb is_js_space (list_ascii_of_string s) = true) ->
  information_search name allInfo = InfoData [].
Proof.
  intro H; unfold information_search.
  assert (Hr : info_raw name = "").
  { destruct H as [H|[s [-> Hs]]].
    - unfold info_raw, js_or; rewrite H; reflexivity.
    - rewrite info_raw_str; unfold trim; rewrite (drop_space_all _ Hs); reflexivity. }
  rewrite Hr; reflexivity.
Qed.

(** X12: a successful information search returns at most 100 entries,
    each the projection of a stored document that matches the query;
    when it returns fewer than 100 for a non-blank query, every matching
    document is in it. *)
Theorem information_search_results name docs data :
  information_search name (Some docs) = InfoData data ->
  length data <= 100 /\
  (forall x, In x data -> exists d, In d docs /\
     info_matches (info_raw name) (info_tokens (info_raw name)) d = Some true /\
     x = info_view d) /\
  (info_raw name <> "" -> length data < 100 ->
   forall d, In d docs ->
     info_matches (info_raw name) (info_tokens (info_raw name)) d = Some true ->
     In (info_view d) data).
Proof.
  unfold information_search.
  destruct (String.eqb_spec (info_raw name) "") as [Hb|Hb].
  - intro H; injection H as <-; split; [simpl; lia|split; [contradiction|intros []; exact Hb]].
  - set (p := info_matches (info_raw name) (info_tokens (info_raw name))).
    destruct (filter_opt p docs) as [results|] eqn:E; [|discriminate].
    set (top := firstn 100 results); intro H; injection H as <-.
    destruct (filter_opt_some p docs results E) as [_ Hr].
    split; [rewrite length_map; unfold top; rewrite length_firstn; lia|split].
    + intros x Hx; apply in_map_iff in Hx as [d [<- Hd]].
      unfold top in Hd; apply in_firstn_in in Hd; rewrite Hr in Hd; apply filter_In in Hd as [Hd Hp].
      exists d; split; [exact Hd|split; [|reflexivity]].
      destruct (p d) as [[]|]; [reflexivity|discriminate|discriminate].
    + intros _ Hl d Hd Hp; rewrite length_map in Hl.
      unfold top in *; rewrite (firstn_all_lt _ _ Hl); apply in_map; rewrite Hr; apply filter_In.
      split; [exact Hd|rewrite Hp; reflexivity].
Qed.

(** X13: the information search is insensitive to the case of the query
    (on Latin-1 letters). *)
Theorem information_search_case_insensitive q allInfo :
  information_search (JStr (js_lower q)) allInfo = information_search (JStr q) allInfo.
Proof.
  unfold information_search; rewrite !info_raw_str, trim_lower, js_lower_empty.
  destruct (String.eqb (trim q) ""); [reflexivity|].
  destruct allInfo as [docs|]; [|reflexivity].
  unfold info_tokens, info_matches; rewrite js_lower_idem; reflexivity.
Qed.

(** X14: one information document whose [firstName], [middleName],
    [lastName] or [fullName] is truthy but not a string makes every
    non-blank search fail with 500. *)
Theorem information_search_bad_record name docs d k :
  info_raw name <> "" -> In d docs ->
  In k ["firstName"; "middleName"; "lastName"; "fullName"] ->
  js_truthy (field d k) = true -> (forall s, field d k <> JStr s) ->
  information_search name (Some docs) = InfoError 500 "Server error".
Proof.
  intros Hb Hd Hk Ht Hs; unfold information_search.
  apply String.eqb_neq in Hb; rewrite Hb.
  assert (Hl : info_lower d k = None).
  { unfold info_lower, js_or; rewrite Ht.
    destruct (field d k); try reflexivity; exfalso; eapply Hs; reflexivity. }
  rewrite (filter_opt_none _ docs d Hd); [reflexivity|].
  unfold info_matches.
  destruct Hk as [<-|[<-|[<-|[<-|[]]]]]; rewrite Hl;
    repeat match goal with |- context [match info_lower d ?k with _ => _ end] =>
      destruct (info_lower d k) end; reflexivity.
Qed.

(* ---------------- phone normalisers ---------------- *)

Lemma all_digits_list s : all_digits s = forallb is_digit (list_ascii_of_string s).
Proof. induction s as [|c r IH]; simpl; [reflexivity|rewrite IH; reflexivity]. Qed.

Lemma drop_space_digits l : forallb is_digit l = true -> drop_space l = l.
Proof.
  destruct l as [|c r]; simpl; [reflexivity|].
  intro H; apply andb_prop in H as [H _].
  destruct (is_js_space c) eqn:E; [|reflexivity].
  rewrite (js_space_not_digit c E) in H; discriminate.
Qed.

Lemma forallb_rev {A} (f : A -> bool) l : forallb f (rev l) = forallb f l.
Proof.
  induction l as [|x r IH]; simpl; [reflexivity|].
  rewrite forallb_app, IH; simpl; rewrite andb_true_r, andb_comm; reflexivity.
Qed.

Lemma trim_digits s : all_digits s = true -> trim s = s.
Proof.
  rewrite all_digits_list; intro H; unfold trim.
  rewrite (drop_space_digits _ H), drop_space_digits by (rewrite forallb_rev; exact H).
  rewrite rev_involutive; apply string_of_list_ascii_of_string.
Qed.

Lemma keep_digits_all s : all_digits s = true -> keep_digits s = s.
Proof.
  induction s as [|c r IH]; simpl; [reflexivity|].
  intro H; apply andb_prop in H as [H1 H2]; rewrite H1, (IH H2); reflexivity.
Qed.

Lemma has_e_or_dot_digits s : all_digits s = true -> has_e_or_dot s = false.
Proof.
  unfold has_e_or_dot, has_char; induction s as [|c r IH]; simpl; [reflexivity|].
  intro H; apply andb_prop in H as [H1 H2]; rewrite (IH H2), orb_false_r.
  destruct c as [[] [] [] [] [] [] [] []]; try discriminate H1; reflexivity.
Qed.

(** X15: a phone produced by the strict normaliser is left unchanged by
    both normalisers: normalising a stored phone again gives it back. *)
Theorem normalizePhoneProvided_fixpoint num_trunc v p :
  normalizePhoneProvided num_trunc v = Some p ->
  normalizePhoneProvided num_trunc (JStr p) = Some p /\
  normalizePhoneLenient num_trunc (JStr p) = p.
Proof.
  intro H; destruct (normalizePhoneProvided_shape num_trunc v) as [E|[E|[q [E [Hl Hd]]]]];
    rewrite H in E; [discriminate|injection E as ->; split; reflexivity|injection E as ->].
  assert (Hne : String.eqb q "" = false) by (destruct q; [discriminate|reflexivity]).
  unfold normalizePhoneProvided, normalizePhoneLenient; cbv zeta; cbn [str_nullish js_String].
  rewrite (trim_digits _ Hd), Hne, (has_e_or_dot_digits _ Hd), (keep_digits_all _ Hd), Hne, Hl.
  split; reflexivity.
Qed.

(* ---------------- GET /me ---------------- *)

Lemma me_same fails uid : stays same_data (me fails uid).
Proof.
  unfold me, getUserByFirebaseUid, first_hit.
  stays_data; first [apply getDocumentById_js_same | apply findOneDocument_same].
Qed.

Lemma me_no_faults uid w :
  uid <> "" ->
  me no_faults (JStr uid) w =
  match find_by_id uid (w_users w) with
  | Some u => (ROk (RespOk (me_view u)), tick w)
  | None =>
      match find_by_field "firebaseUid" (JStr uid) (w_users w) with
      | Some u => (ROk (RespOk (me_view u)), tick (tick w))
      | None => (RRet (RespError 404 "User not found"), tick (tick w))
      end
  end.
Proof.
  intro H; unfold me, getUserByFirebaseUid, try_catch.
  apply String.eqb_neq in H; cbn [js_truthy]; rewrite H; cbv beta iota delta [negb].
  cbv beta iota delta [getDocumentById_js].
  pose proof (first_hit_run _ (findOneDocument no_faults USERS "firebaseUid" (JStr uid)) w _ _
                (getDocumentById_nf USERS uid w)) as F.
  change (coll_docs USERS w) with (w_users w) in F.
  destruct (find_by_id uid (w_users w)) as [u|].
  - rewrite (bind_run _ _ _ _ _ F); reflexivity.
  - rewrite findOneDocument_nf in F.
    change (coll_docs USERS (tick w)) with (w_users w) in F.
    rewrite (bind_run _ _ _ _ _ F).
    destruct (find_by_field "firebaseUid" (JStr uid) (w_users w)); reflexivity.
Qed.

(** X16: [GET /me] never writes; without a uid it answers 404 without a
    read; otherwise it looks the user up by document id first, then by
    the [firebaseUid] field, and answers 404 when both miss. *)
Theorem me_lookup :
  (forall fails uid w, same_data w (snd (me fails uid w))) /\
  (forall fails uid w, js_truthy uid = false ->
     me fails uid w = (RRet (RespError 404 "User not found"), w)) /\
  (forall uid w, uid <> "" ->
     me no_faults (JStr uid) w =
     match find_by_id uid (w_users w) with
     | Some u => (ROk (RespOk (me_view u)), tick w)
     | None =>
         match find_by_field "firebaseUid" (JStr uid) (w_users w) with
         | Some u => (ROk (RespOk (me_view u)), tick (tick w))
         | None => (RRet (RespError 404 "User not found"), tick (tick w))
         end
     end).
Proof.
  split; [intros fails uid w; exact (me_same fails uid w)|split].
  - intros fails uid w H; unfold me, getUserByFirebaseUid; rewrite H; reflexivity.
  - exact me_no_faults.
Qed.

(* ---------------- compositions ---------------- *)

Lemma find_by_field_replace_none k v c x newd :
  find_by_field k v c = None -> In x c -> d_id x = d_id newd ->
  jsval_eqb (field newd k) v = true ->
  find_by_field k v (replace_doc newd c) = Some newd.
Proof.
  unfold find_by_field, replace_doc; induction c as [|a r IH]; simpl; [contradiction|].
  intros Hf Hx Hid Hk.
  destruct (jsval_eqb (field a k) v) eqn:Ea; [discriminate|].
  destruct (String.eqb_spec (d_id a) (d_id newd)) as [E|E]; simpl; [rewrite Hk; reflexivity|].
  rewrite Ea; destruct Hx as [<-|Hx]; [contradiction|exact (IH Hf Hx Hid Hk)].
Qed.

Lemma find_by_id_replace_none i c newd :
  find_by_id i c = None -> i <> d_id newd -> find_by_id i (replace_doc newd c) = None.
Proof.
  unfold find_by_id, replace_doc; induction c as [|a r IH]; simpl; [reflexivity|].
  intros Hf Hi.
  destruct (String.eqb (d_id a) i) eqn:Ea; [discriminate|].
  destruct (String.eqb_spec (d_id a) (d_id newd)); simpl.
  - pose proof Hi as Hi'; apply String.eqb_neq in Hi'.
    rewrite String.eqb_sym, Hi'; exact (IH Hf Hi).
  - rewrite Ea; exact (IH Hf Hi).
Qed.

Lemma login_firebase_indep la e p n w w' :
  fst (login_firebase la e p n w) = fst (login_firebase la e p n w').
Proof.
  unfold login_firebase.
  destruct (la_get_user_by_email la e) as [u0|code];
    [destruct (la_update_user la u0 p n) as [code|]; [|reflexivity]|];
    (destruct (str_includes "user-not-found" code); [|reflexivity]);
    destruct (la_create_user la e p n); reflexivity.
Qed.

(** X17: after [POST /login] migrates a legacy account to the Firebase
    uid [uid], [GET /me] with [uid] finds that account (through its new
    [firebaseUid] field), when no user has [uid] as id or as
    [firebaseUid] before. *)
Theorem login_then_me now compare la email password w w1 uid :
  NoDup (map d_id (w_users w)) ->
  login no_faults now compare la email password w = (ROk ReplyMigrated, w1) ->
  (forall u, find_by_field "email" (JStr (js_lower (trim (js_String email)))) (w_users w)
               = Some u ->
     fst (login_firebase la (js_lower (trim (js_String email))) password
            (js_or (field u "name") (JStr "")) w) = ROk uid) ->
  uid <> "" ->
  find_by_id uid (w_users w) = None ->
  find_by_field "firebaseUid" (JStr uid) (w_users w) = None ->
  exists u,
    find_by_field "email" (JStr (js_lower (trim (js_String email)))) (w_users w) = Some u /\
    me no_faults (JStr uid) w1 =
    (ROk (RespOk (me_view (mkDoc (d_id u) (merge (d_data u)
                   [("firebaseUid", JStr uid); ("updatedAt", JNum now)])))), tick (tick w1)).
Proof.
  intros Hn H Hfb Hne Hid Hfu.
  destruct (login_migrated_inv _ _ _ _ _ _ _ Hn H) as [_ [u [uid0 [Hu [_ [_ [E2 Hw1]]]]]]].
  specialize (Hfb u Hu).
  rewrite (login_firebase_indep _ _ _ _ _ (tick w)), E2 in Hfb; injection Hfb as ->.
  exists u; split; [exact Hu|].
  rewrite (me_no_faults _ _ Hne), Hw1.
  assert (Hin : In u (w_users w)) by (apply find_some in Hu as [Hin _]; exact Hin).
  assert (Hiu : uid <> d_id u).
  { intro E; pose proof (find_none _ _ Hid u Hin) as F; simpl in F.
    rewrite E, String.eqb_refl in F; discriminate. }
  set (newd := mkDoc (d_id u) (merge (d_data u)
                 [("firebaseUid", JStr uid); ("updatedAt", JNum now)])).
  rewrite (find_by_id_replace_none _ _ newd Hid Hiu).
  rewrite (find_by_field_replace_none _ _ _ u newd Hfu Hin eq_refl);
    [reflexivity|unfold newd; rewrite field_merge; apply jsval_eqb_refl].
Qed.

Lemma find_by_id_upsert d c : find_by_id (d_id d) (upsert_doc d c) = Some d.
Proof.
  unfold upsert_doc; destruct (find_by_id (d_id d) c) as [d0|] eqn:E.
  - destruct d as [i data]; exact (find_by_id_replace _ _ _ d0 E).
  - unfold find_by_id in *; rewrite find_app, E; simpl; rewrite String.eqb_refl; reflexivity.
Qed.

(** X18: after a new signup is written (no re-application), [GET /me]
    with its Firebase uid returns the new account, with the status the
    verification gave, its email and role "user". *)
Theorem signup_commit_then_me num_trunc now rq c w d w1 :
  c_reapply c = None -> c_uid c <> "" ->
  signup_commit num_trunc no_faults now rq c w = (ROk (RespCreated d), w1) ->
  d_id d = c_uid c /\
  me no_faults (JStr (c_uid c)) w1 = (ROk (RespOk (me_view d)), tick w1) /\
  field (me_view d) "accountStatus" = JStr (accountStatus (c_locals c)) /\
  field (me_view d) "email" = JStr (c_email c) /\
  field (me_view d) "role" = JStr "user".
Proof.
  intros Hr Hne H.
  pose proof (signup_commit_status _ _ _ _ _ _ _ _ H) as Hst.
  pose proof (f_equal (fun p => w_users (snd p)) H) as Hu; simpl in Hu.
  unfold signup_commit in H, Hu; unfold bind at 1 in H; unfold bind at 1 in Hu; rewrite Hr in H, Hu.
  unfold createDocument, op, no_faults in H, Hu.
  set (d0 := mkDoc (c_uid c) (userData num_trunc rq c ++
               [("createdAt", JNum now); ("updatedAt", JNum now)])%list) in H, Hu.
  apply commit_tail in H; subst d.
  rewrite commit_tail_users in Hu; simpl in Hu.
  split; [reflexivity|split].
  - rewrite (me_no_faults _ _ Hne), <- Hu.
    change (c_uid c) with (d_id d0) at 1; rewrite find_by_id_upsert; reflexivity.
  - split; [exact Hst|split; reflexivity].
Qed.

(** X19: a slot claimed by a user blocks a matching signup with 400
    while that user exists; once an admin deletes the user, the same
    signup finds the stale claim, resets the slot and decides as for an
    unused slot. *)
Theorem admin_delete_frees_slot num_trunc fails now purge caller id dft b w w1
    nm phone np s :
  (forall uid, stays same_data (purge uid)) ->
  admin_delete_user fails purge caller id dft w = (ROk (ReplyDeleted b), w1) ->
  id <> "" -> nm <> "" -> normalizePhoneProvided num_trunc phone = Some np -> np <> "" ->
  handler_lookup nm np (w_slots w) = Some s ->
  find_by_id (d_id s) (w_slots w) = Some s ->
  field s "isUsed" = JBool true -> field s "usedBy" = JStr id ->
  memberIdMatches num_trunc nm s || phoneMatches num_trunc np s = true ->
  (exists w', run_verification num_trunc no_faults now nm phone w =
              (RRet (RespError 400 msg_already_registered), w')) /\
  (exists l w' s', run_verification num_trunc no_faults now nm phone w1 = (ROk l, w') /\
     w_users w' = w_users w1 /\
     find_by_id (d_id s) (w_slots w') = Some s' /\ field s' "isUsed" = JBool false /\
     isVerified l = memberIdMatches num_trunc nm s && phoneMatches num_trunc np s).
Proof.
  intros Hp Hdel Hid Hnm Hn Hnp Hs Hsid Hu Hb Hm.
  destruct (admin_delete_user_ok _ _ _ _ _ _ _ _ Hp Hdel) as [_ [[du Hdu] [Hw1u Hw1s]]].
  split.
  - destruct (verification_body_found num_trunc now nm phone np s locals0 w Hnm Hn Hnp Hs)
      as [w0 [[S0u S0s] E0]].
    rewrite <- S0u in Hdu.
    rewrite (evaluate_live num_trunc now nm np s _ w0 id du Hu Hm Hb Hid Hdu) in E0.
    unfold run_verification, verification, try_catch; rewrite E0.
    eexists; reflexivity.
  - rewrite <- Hw1s in Hs, Hsid.
    destruct (verification_body_found num_trunc now nm phone np s locals0 w1 Hnm Hn Hnp Hs)
      as [w2 [[S2u S2s] E2]].
    rewrite <- S2s in Hsid.
    assert (Hb2 : js_truthy (field s "usedBy") = false \/
                  exists u, field s "usedBy" = JStr u /\ find_by_id u (w_users w2) = None)
      by (right; exists id; split; [exact Hb|rewrite S2u, Hw1u; apply find_by_id_filter_none]).
    destruct (evaluate_stale num_trunc now nm np s (with_member (Some s) locals0) w2
                Hu Hm Hb2 Hsid) as [w' [Hwu [Hws E3]]].
    unfold run_verification, verification, try_catch; rewrite E2, E3.
    eexists; exists w'; eexists; split; [reflexivity|].
    split; [congruence|].
    split; [rewrite Hws; apply (find_by_id_replace _ _ _ s Hsid)|].
    split; [rewrite field_merge; reflexivity|].
    destruct (memberIdMatches num_trunc nm s && phoneMatches num_trunc np s); reflexivity.
Qed.

(** ** Examples for the route properties *)

Ltac wit :=
  first [ reflexivity
        | vm_compute; reflexivity
        | let H := fresh in intro H; vm_compute in H; discriminate H
        | intros ? ?; vm_compute; split; reflexivity ].

Ltac nodup_ids :=
  cbn; repeat (apply NoDup_cons; [simpl; intuition discriminate|]); apply NoDup_nil.

Lemma admin_put_user_refusals_witness :
  (w_users (tick (tick world_admin)) = w_users world_admin /\
   w_slots (tick (tick world_admin)) = w_slots world_admin) /\
  admin_put_user no_faults 0%Z "u3" (JStr "Asha") JUndefined JUndefined (JStr "M004") JUndefined
    world_admin = (RRet (RespError 400 "Member ID already exists"), tick (tick world_admin)).
Proof.
  split.
  - apply (proj1 admin_put_user_refusals no_faults 0%Z "u3" (JStr "Asha") JUndefined JUndefined
             (JStr "M004") JUndefined world_admin (RespError 400 "Member ID already exists")).
    vm_compute; reflexivity.
  - apply (proj2 admin_put_user_refusals 0%Z "u3" (JStr "Asha") JUndefined JUndefined
             (JStr "M004") JUndefined world_admin user_pending_M001 user_approved_M004); wit.
Defined.

Lemma admin_put_user_phone_verbatim_witness :
  exists d w' d',
    admin_put_user no_faults 0%Z "u3" (JStr "Asha") JUndefined (JStr "+91 98765 43210")
      JUndefined JUndefined world_admin = (ROk (RespOk d), w') /\
    find_by_id "u3" (w_users w') = Some d' /\ field d' "phone" = JStr "+91 98765 43210" /\
    field d "phone" = JStr "+91 98765 43210".
Proof.
  apply (admin_put_user_phone_verbatim 0%Z "u3" (JStr "Asha") (JStr "+91 98765 43210")
           world_admin user_pending_M001); wit.
Defined.

Lemma admin_put_role_guards_witness :
  admin_put_role no_faults 0%Z "u2" "u3" (JStr "owner") world_admin =
  (RRet (RespError 400 "Valid role is required (user or admin)"), world_admin) /\
  admin_put_role no_faults 0%Z "u2" "u2" (JStr "user") world_admin =
  (RRet (RespError 400 "You cannot demote yourself"), tick world_admin) /\
  (exists d w' d', admin_put_role no_faults 0%Z "u2" "u3" (JStr "admin") world_admin =
     (ROk (RespOk d), w') /\
     find_by_id "u3" (w_users w') = Some d' /\ field d' "role" = JStr "admin" /\
     field d "role" = JStr "admin" /\ w_slots w' = w_slots world_admin).
Proof.
  split; [|split].
  - apply (proj1 admin_put_role_guards no_faults 0%Z "u2" "u3" (JStr "owner") world_admin); wit.
  - apply (proj1 (proj2 admin_put_role_guards) 0%Z "u2" world_admin user_approved_M004); wit.
  - apply (proj2 (proj2 admin_put_role_guards) 0%Z "u2" "u3" (JStr "admin") world_admin
             user_pending_M001); [wit|wit|left; wit].
Defined.

Lemma admin_delete_user_effect_witness :
  admin_delete_user no_faults purge_none "u2" "u2" JUndefined world_admin =
  (RRet (RespError 400 "You cannot delete your own account"), tick world_admin) /\
  (let w1 := snd (admin_delete_user no_faults purge_none "u2" "u3" JUndefined world_admin) in
   "u3" <> "u2" /\ find_by_id "u3" (w_users w1) = None /\
   (forall u, In u (w_users world_admin) -> d_id u <> "u3" -> In u (w_users w1)) /\
   (forall u, In u (w_users w1) -> In u (w_users world_admin)) /\
   w_slots w1 = w_slots world_admin).
Proof.
  split.
  - apply (proj1 admin_delete_user_effect purge_none "u2" JUndefined world_admin
             user_approved_M004); wit.
  - cbv zeta.
    apply (proj2 admin_delete_user_effect no_faults purge_none "u2" "u3" JUndefined world_admin
             false); wit.
Defined.

Lemma admin_put_reject_any_status_witness :
  exists d w' u',
    admin_put_reject no_faults 0%Z "admin" "u2" (JStr "duplicate") world_admin =
    (ROk (RespOk d), w') /\
    find_by_id "u2" (w_users w') = Some u' /\
    field u' "accountStatus" = JStr "rejected" /\
    field u' "rejectionReason" = js_or (JStr "duplicate") (JStr "") /\
    isReapplicable u' = true /\ w_slots w' = w_slots world_admin /\
    signup_prefix num_trunc_nan no_faults (req " C@x.com" "M004" "9876543210") w' =
    (ROk ("c@x.com", "M004", Some u', Some u'), tick (tick w')).
Proof.
  destruct (admin_put_reject_any_status 0%Z "admin" "u2" (JStr "duplicate") world_admin
              user_approved_M004 eq_refl)
    as [d [w' [u' [H1 [H2 [H3 [H4 [H5 [H6 H7]]]]]]]]].
  exists d, w', u'; do 6 (split; [assumption|]).
  apply (H7 num_trunc_nan (req " C@x.com" "M004" "9876543210")); wit.
Defined.

Lemma admin_post_pending_reject_guard_witness :
  admin_post_pending_reject no_faults 0%Z "admin" "u2" JUndefined world_admin =
  (RRet (RespError 400 "User is not in pending status"), tick world_admin) /\
  (exists d w' u',
     admin_post_pending_reject no_faults 0%Z "admin" "u3" JUndefined world_admin =
     (ROk (RespOk d), w') /\
     find_by_id "u3" (w_users w') = Some u' /\
     field u' "accountStatus" = JStr "rejected" /\
     field u' "rejectionReason" = js_or JUndefined (JStr "No reason provided") /\
     field d "rejectionReason" = js_or JUndefined (JStr "No reason provided") /\
     w_slots w' = w_slots world_admin).
Proof.
  split.
  - apply (proj1 admin_post_pending_reject_guard 0%Z "admin" "u2" JUndefined world_admin
             user_approved_M004); wit.
  - apply (proj2 admin_post_pending_reject_guard 0%Z "admin" "u3" JUndefined world_admin
             user_pending_M001); wit.
Defined.

Lemma login_migration_one_shot_witness :
  let w1 := snd (login no_faults 0%Z compare_ok la_fresh (JStr "L@x.com") (JStr "pw")
                   world_legacy) in
  login no_faults 0%Z compare_ok la_fresh (JStr "L@x.com") (JStr "pw") w1 =
  (RRet (RespError 410 msg_login_migrated), tick w1).
Proof.
  cbv zeta.
  apply (login_migration_one_shot 0%Z compare_ok la_fresh (JStr "L@x.com") (JStr "pw")
           world_legacy).
  - nodup_ids.
  - intros x y H; discriminate H.
  - intros x p n y H; injection H as <-; discriminate.
  - vm_compute; reflexivity.
Defined.

Lemma login_status_refusals_witness :
  login no_faults 0%Z compare_ok la_fresh (JStr " A@X.com ") (JStr "pw") world_legacy =
  (RRet (RespError 403 msg_login_rejected), tick world_legacy) /\
  login no_faults 0%Z compare_ok la_fresh (JStr "p@x.com") (JStr "pw") world_admin =
  (RRet (RespError 403 msg_login_pending), tick world_admin).
Proof.
  split.
  - refine (proj1 (login_status_refusals 0%Z compare_ok la_fresh (JStr " A@X.com ") (JStr "pw")
                     world_legacy user_rejected_M003 _ _ _) _); wit.
  - refine (proj2 (login_status_refusals 0%Z compare_ok la_fresh (JStr "p@x.com") (JStr "pw")
                     world_admin user_pending_M001 _ _ _) _); wit.
Defined.

Lemma information_search_blank_witness :
  information_search (JStr "   ") None = InfoData [].
Proof.
  apply (information_search_blank (JStr "   ") None).
  right; exists "   "; split; reflexivity.
Defined.

Lemma information_search_results_witness :
  exists data,
    information_search (JStr "Patel asha") (Some [info_asha; info_ravi]) = InfoData data /\
    length data <= 100 /\
    (forall x, In x data -> exists d, In d [info_asha; info_ravi] /\
       info_matches (info_raw (JStr "Patel asha")) (info_tokens (info_raw (JStr "Patel asha"))) d
       = Some true /\ x = info_view d) /\
    (info_raw (JStr "Patel asha") <> "" -> length data < 100 ->
     forall d, In d [info_asha; info_ravi] ->
       info_matches (info_raw (JStr "Patel asha")) (info_tokens (info_raw (JStr "Patel asha"))) d
       = Some true ->
       In (info_view d) data).
Proof.
  eexists; split; [vm_compute; reflexivity|].
  apply (information_search_results (JStr "Patel asha") [info_asha; info_ravi]); wit.
Defined.

Lemma information_search_bad_record_witness :
  information_search (JStr "Asha") (Some [info_asha; info_bad]) = InfoError 500 "Server error".
Proof.
  apply (information_search_bad_record (JStr "Asha") [info_asha; info_bad] info_bad "firstName").
  - wit.
  - right; left; reflexivity.
  - left; reflexivity.
  - reflexivity.
  - intros s H; vm_compute in H; discriminate H.
Defined.

Lemma normalizePhoneProvided_fixpoint_witness :
  normalizePhoneProvided num_trunc_nan (JStr "9876543210") = Some "9876543210" /\
  normalizePhoneLenient num_trunc_nan (JStr "9876543210") = "9876543210".
Proof.
  apply (normalizePhoneProvided_fixpoint num_trunc_nan (JStr "+91 98765 43210")); wit.
Defined.

Lemma me_lookup_witness :
  me no_faults JUndefined world_admin = (RRet (RespError 404 "User not found"), world_admin) /\
  me no_faults (JStr "u3") world_admin = (ROk (RespOk (me_view user_pending_M001)), tick world_admin).
Proof.
  split.
  - apply (proj1 (proj2 me_lookup) no_faults JUndefined world_admin); wit.
  - etransitivity; [apply (proj2 (proj2 me_lookup) "u3" world_admin); wit|reflexivity].
Defined.

Lemma login_then_me_witness :
  let w1 := snd (login no_faults 0%Z compare_ok la_fresh (JStr "L@x.com") (JStr "pw")
                   world_legacy) in
  exists u,
    find_by_field "email" (JStr (js_lower (trim (js_String (JStr "L@x.com")))))
      (w_users world_legacy) = Some u /\
    me no_faults (JStr "uid:l@x.com") w1 =
    (ROk (RespOk (me_view (mkDoc (d_id u) (merge (d_data u)
                   [("firebaseUid", JStr "uid:l@x.com"); ("updatedAt", JNum 0)])))), tick (tick w1)).
Proof.
  cbv zeta.
  apply (login_then_me 0%Z compare_ok la_fresh (JStr "L@x.com") (JStr "pw") world_legacy);
    [nodup_ids|wit|intros ? _; reflexivity|wit..].
Defined.

Lemma signup_commit_then_me_witness :
  exists d w1,
    signup_commit num_trunc_nan no_faults 0%Z (req "b@x.com" "M001" "9876543210") ctx_b
      (mkWorld [user_approved_M004] [slot_M001] 0) = (ROk (RespCreated d), w1) /\
    d_id d = c_uid ctx_b /\
    me no_faults (JStr (c_uid ctx_b)) w1 = (ROk (RespOk (me_view d)), tick w1) /\
    field (me_view d) "accountStatus" = JStr (accountStatus (c_locals ctx_b)) /\
    field (me_view d) "email" = JStr (c_email ctx_b) /\
    field (me_view d) "role" = JStr "user".
Proof.
  do 2 eexists; split; [reflexivity|].
  apply (signup_commit_then_me num_trunc_nan 0%Z (req "b@x.com" "M001" "9876543210") ctx_b
           (mkWorld [user_approved_M004] [slot_M001] 0)); wit.
Defined.

Lemma admin_delete_frees_slot_witness :
  let w1 := snd (admin_delete_user no_faults purge_none "u2" "ghost" JUndefined world_ghost) in
  (exists w', run_verification num_trunc_nan no_faults 0%Z "M002" (JStr "9876543210") world_ghost =
              (RRet (RespError 400 msg_already_registered), w')) /\
  (exists l w' s', run_verification num_trunc_nan no_faults 0%Z "M002" (JStr "9876543210") w1
                   = (ROk l, w') /\
     w_users w' = w_users w1 /\
     find_by_id (d_id slot_M002_ghost) (w_slots w') = Some s' /\
     field s' "isUsed" = JBool false /\
     isVerified l = memberIdMatches num_trunc_nan "M002" slot_M002_ghost
                    && phoneMatches num_trunc_nan "9876543210" slot_M002_ghost).
Proof.
  cbv zeta.
  apply (admin_delete_frees_slot num_trunc_nan no_faults 0%Z purge_none "u2" "ghost" JUndefined
           false world_ghost _ "M002" (JStr "9876543210") "9876543210" slot_M002_ghost); wit.
Defined.

Lemma login_write_discipline_witness :
  login no_faults 0%Z compare_ok la_fresh_checked (JStr " N@x.com") (JStr "pw")
    (mkWorld [user_legacy_numname] [] 0) =
  (ROk (Reply (RespError 500 "Error logging in")), tick (mkWorld [user_legacy_numname] [] 0)) /\
  w_users (tick (mkWorld [user_legacy_numname] [] 0)) = w_users (mkWorld [user_legacy_numname] [] 0).
Proof.
  apply (proj2 (login_write_discipline no_faults 0%Z compare_ok la_fresh_checked
                  (JStr " N@x.com") (JStr "pw") (mkWorld [user_legacy_numname] [] 0))
           user_legacy_numname);
    [reflexivity|reflexivity|reflexivity|vm_compute; reflexivity|discriminate|discriminate
    |reflexivity|reflexivity|reflexivity|reflexivity|intros s H; discriminate H| |].
  - intros uid p n Hn; destruct n; try (exfalso; eapply Hn; reflexivity);
      eexists; split; reflexivity.
  - intros e p n Hn; destruct n; try (exfalso; eapply Hn; reflexivity); eexists; reflexivity.
Defined.
